(** * doods: object-detection dispatchers (tflite and tensorflow backends)

    Shallow embedding of [detector/tflite/detector.go] and of the
    tensorflow detector of the same repository, with the properties of
    label loading, pool construction, the request life cycle and the
    detection filter stated and proved over it. *)

From Stdlib Require Import ZArith List String Ascii Lia Permutation.
From Stdlib Require Import Floats.SpecFloat.
From stdpp Require Import gmap strings list fin_maps.

Local Open Scope string_scope.
Local Open Scope Z_scope.
Local Open Scope list_scope.

(** ** Go library functions the detectors call *)

(** Strings are byte sequences, as Go's are; one [ascii] is one byte. *)

Module GoStrings.

Definition byte_of (c : ascii) : N := N_of_ascii c.

(** [strings.SplitAfterN(s, " ", 2)]: cut after the first space and keep
    the separator on the left part; a string without a space (the empty
    one too) comes back as its only field. *)
Fixpoint cut_after_space (s : string) : option (string * string) :=
  match s with
  | EmptyString => None
  | String c r =>
      if Ascii.eqb c " "%char then Some (String c EmptyString, r)
      else match cut_after_space r with
           | Some (a, b) => Some (String c a, b)
           | None => None
           end
  end.

Definition SplitAfterN (s : string) : list string :=
  match cut_after_space s with
  | Some (a, b) => [a; b]
  | None => [s]
  end.

(** [unicode.IsSpace] on UTF-8 text: the byte sequences that decode to a
    white-space rune.  Go's decoder rejects overlong forms, so these are
    the only encodings. *)
Definition space_runes : list (list N) :=
  [ [9]; [10]; [11]; [12]; [13]; [32];
    [194; 133]; [194; 160];
    [225; 154; 128];
    [226; 128; 128]; [226; 128; 129]; [226; 128; 130]; [226; 128; 131];
    [226; 128; 132]; [226; 128; 133]; [226; 128; 134]; [226; 128; 135];
    [226; 128; 136]; [226; 128; 137]; [226; 128; 138];
    [226; 128; 168]; [226; 128; 169]; [226; 128; 175];
    [226; 129; 159];
    [227; 128; 128] ]%N.

Fixpoint starts_with (p bs : list N) : bool :=
  match p, bs with
  | [], _ => true
  | x :: p', y :: bs' => N.eqb x y && starts_with p' bs'
  | _ :: _, [] => false
  end.

(** Size in bytes of the white-space rune at the head of [bs], 0 if the
    first rune is not white space. *)
Definition space_rune_len (pats : list (list N)) (bs : list N) : nat :=
  match List.find (fun p => starts_with p bs) pats with
  | Some p => length p
  | None => O
  end.

Fixpoint trim_head (pats : list (list N)) (fuel : nat) (bs : list N) : list N :=
  match fuel with
  | O => bs
  | S fuel' =>
      match space_rune_len pats bs with
      | O => bs
      | n => trim_head pats fuel' (skipn n bs)
      end
  end.

Definition bytes_of (s : string) : list N := List.map byte_of (list_ascii_of_string s).
Definition of_bytes (bs : list N) : string :=
  string_of_list_ascii (List.map ascii_of_N bs).

(** [strings.TrimSpace]: leading white-space runes go first, then the
    trailing ones ([DecodeLastRuneInString] finds a white-space rune
    exactly when the text ends with one of the encodings). *)
Definition TrimSpace (s : string) : string :=
  let l := bytes_of s in
  let l1 := trim_head space_runes (length l) l in
  let r := List.rev l1 in
  let r1 := trim_head (List.map (@List.rev N) space_runes) (length r) r in
  of_bytes (List.rev r1).

End GoStrings.

Module GoStrconv.

Definition int_min : Z := - 2 ^ 63.
Definition int_max : Z := 2 ^ 63 - 1.

Definition digit_of (c : ascii) : option Z :=
  let n := Z.of_N (N_of_ascii c) in
  if (48 <=? n) && (n <=? 57) then Some (n - 48) else None.

(** Value of a run of decimal digits; [None] on any other byte. *)
Fixpoint digits (acc : Z) (s : string) : option Z :=
  match s with
  | EmptyString => Some acc
  | String c r =>
      match digit_of c with
      | Some d => digits (acc * 10 + d) r
      | None => None
      end
  end.

(** [strconv.Atoi] with a 64-bit [int]: an optional sign, at least one
    digit, nothing else, and a value that fits; any other text is an
    error ([None]). *)
Definition Atoi (s : string) : option Z :=
  let '(neg, body) :=
    match s with
    | String "-" r => (true, r)
    | String "+" r => (false, r)
    | _ => (false, s)
    end in
  match body with
  | EmptyString => None
  | _ =>
      match digits 0 body with
      | Some n =>
          let v := if neg then - n else n in
          if (int_min <=? v) && (v <=? int_max) then Some v else None
      | None => None
      end
  end.

End GoStrconv.

(** ** float32 and the numeric conversions *)

Module F32.

(** IEEE-754 binary32: 24 bits of precision, infinities at exponent 128. *)
Definition prec : Z := 24.
Definition emax : Z := 128.

Definition float32 : Type := spec_float.

Definition mul (x y : float32) : float32 := SFmul prec emax x y.
(** Go's [<] and [>] on floats: false as soon as one side is NaN. *)
Definition ltb (x y : float32) : bool := SFltb x y.
Definition gtb (x y : float32) : bool := SFltb y x.
(** Go's [>=], used only to state properties. *)
Definition geb (x y : float32) : bool := SFleb y x.
Definition is_nan (x : float32) : bool :=
  match x with S754_nan => true | _ => false end.

(** [float32(n)] for an integer [n], rounded to nearest even. *)
Definition of_Z (n : Z) : float32 := binary_normalize prec emax n 0 false.

Definition zero : float32 := S754_zero false.
Definition one : float32 := Eval vm_compute in of_Z 1.
Definition hundred : float32 := Eval vm_compute in of_Z 100.

(** A float-to-integer conversion truncates toward zero.  When the
    value does not fit the target type, Go leaves the result to the
    implementation; amd64 yields the smallest integer of the type, which
    is what [to_int] returns then (and for NaN and the infinities). *)
Definition trunc (x : float32) : option Z :=
  match x with
  | S754_zero _ => Some 0
  | S754_finite s m e =>
      let a := match e with
               | Zneg _ => Z.shiftr (Zpos m) (- e)
               | _ => Z.shiftl (Zpos m) e
               end in
      Some (if s then - a else a)
  | S754_infinity _ | S754_nan => None
  end.

Definition to_int (bits : Z) (x : float32) : Z :=
  let lo := - 2 ^ (bits - 1) in
  match trunc x with
  | Some v => if (lo <=? v) && (v <? 2 ^ (bits - 1)) then v else lo
  | None => lo
  end.

(** [int32(n)] for an [int] [n]: the low 32 bits, signed. *)
Definition wrap32 (n : Z) : Z := (n + 2 ^ 31) mod 2 ^ 32 - 2 ^ 31.

End F32.

Abbreviation float32 := F32.float32.

(** ** Label table (the loop is the same text in both detectors) *)

Module LabelTable.

Import GoStrings GoStrconv.

(** The part of the detector the label loop writes: [d.labels] and
    [d.config.Labels]. *)
Record label_state := {
  labels : gmap Z string;
  config_Labels : list string
}.

Definition no_labels : label_state :=
  {| labels := ∅; config_Labels := [] |}.

(** Body of [for x := 1; scanner.Scan(); x++] for one scanned line. *)
Definition label_line (x : Z) (text : string) (d : label_state) : label_state :=
  match SplitAfterN text with
  | [f0] =>
      {| labels := <[x := f0]> (labels d);
         config_Labels := config_Labels d ++ [f0] |}
  | [f0; f1] =>
      match Atoi (TrimSpace f0) with
      | Some y =>
          {| labels := <[y := TrimSpace f1]> (labels d);
             config_Labels := config_Labels d ++ [TrimSpace f1] |}
      | None => d
      end
  | _ => d
  end.

(** The loop over the lines the scanner yields; [x] counts every line. *)
Fixpoint scan_labels (x : Z) (lines : list string) (d : label_state) : label_state :=
  match lines with
  | [] => d
  | text :: rest => scan_labels (x + 1) rest (label_line x text d)
  end.

Definition load_labels (lines : list string) : label_state :=
  scan_labels 1 lines no_labels.

(** A line without any space byte. *)
Fixpoint no_space (s : string) : bool :=
  match s with
  | EmptyString => true
  | String c r => negb (Ascii.eqb c " "%char) && no_space r
  end.

(** What [n] more lines can have made of [d]: at most [n] labels
    appended to the list, no more new keys than labels appended, and table
    values that are all in the list if they were. *)
Definition label_state_ok (n : nat) (d d' : label_state) : Prop :=
  (length (config_Labels d') <= length (config_Labels d) + n)%nat
  /\ (size (labels d') + length (config_Labels d)
      <= size (labels d) + length (config_Labels d'))%nat
  /\ (exists added, config_Labels d' = config_Labels d ++ added)
  /\ ((forall k v, labels d !! k = Some v -> v ∈ config_Labels d) ->
      forall k v, labels d' !! k = Some v -> v ∈ config_Labels d').

End LabelTable.

(** ** Outcomes of a Go call *)

Inductive code := InvalidArgument | Internal.

(** A message keeps the fixed text of its format string; what [%v] adds
    is the collaborator's own error text. *)
Inductive error :=
  | Errorf (msg : string)                 (* fmt.Errorf *)
  | Status (c : code) (msg : string).     (* status.Errorf *)

(** Where a goroutine that never resumes is parked. *)
Inductive block_site := OnAcquire | OnInvoke | OnSend.

Inductive outcome (A : Type) :=
  | Returns (a : A)
  | Fails (e : error)
  | Panics
  | Blocks (at_ : block_site).

Arguments Returns {A} a.
Arguments Fails {A} e.
Arguments Panics {A}.
Arguments Blocks {A} at_.

(** ** The pool: a buffered channel of worker handles *)

Section Pool.

Context {H : Type}.

Record chan := {
  buf : list H;        (* handles waiting in the channel, oldest first *)
  cap : Z;             (* capacity given to [make] *)
  closed : bool
}.

(** [make(chan H, n)]; a negative size panics. *)
Definition make_chan (n : Z) : option chan :=
  if n <? 0 then None else Some {| buf := []; cap := n; closed := false |}.

Inductive recv_result :=
  | Received (h : H) (ch : chan)
  | ReceivedNil              (* closed and drained: the zero value *)
  | RecvBlocks.

(** [<-ch] *)
Definition recv (ch : chan) : recv_result :=
  match buf ch with
  | h :: rest => Received h {| buf := rest; cap := cap ch; closed := closed ch |}
  | [] => if closed ch then ReceivedNil else RecvBlocks
  end.

Inductive send_result :=
  | Sent (ch : chan)
  | SendPanics               (* send on a closed channel *)
  | SendBlocks.

(** [ch <- h] with nobody receiving: there must be room in the buffer. *)
Definition send (ch : chan) (h : H) : send_result :=
  if closed ch then SendPanics
  else if Z.of_nat (length (buf ch)) <? cap ch
       then Sent {| buf := buf ch ++ [h]; cap := cap ch; closed := false |}
       else SendBlocks.

(** *** Requests sharing the pool

    Seen from the pool, a request is waiting for a handle, holds one, or
    has given it back.  Receives and sends on a channel are atomic, so
    concurrent requests interleave these two steps in any order. *)
Inductive phase :=
  | Pending
  | Acquired (h : H)
  | Released.

Inductive pool_step : chan * list phase -> chan * list phase -> Prop :=
  | step_acquire ch ch' ths i h :
      ths !! i = Some Pending ->
      recv ch = Received h ch' ->
      pool_step (ch, ths) (ch', <[i := Acquired h]> ths)
  | step_release ch ch' ths i h :
      ths !! i = Some (Acquired h) ->
      send ch h = Sent ch' ->
      pool_step (ch, ths) (ch', <[i := Released]> ths).

Inductive pool_steps : chan * list phase -> chan * list phase -> Prop :=
  | steps_refl s : pool_steps s s
  | steps_more s1 s2 s3 : pool_steps s1 s2 -> pool_step s2 s3 -> pool_steps s1 s3.

(** Handles checked out by the requests, in request order. *)
Fixpoint held (ths : list phase) : list H :=
  match ths with
  | [] => []
  | Acquired h :: r => h :: held r
  | _ :: r => held r
  end.

Definition all_released (ths : list phase) : Prop :=
  Forall (fun p => p = Released) ths.

(** [close(ch)]; closing a closed channel panics ([None]).  What is
    buffered stays receivable. *)
Definition close_chan (ch : chan) : option chan :=
  if closed ch then None
  else Some {| buf := buf ch; cap := cap ch; closed := true |}.

End Pool.

Arguments chan H : clear implicits.
Arguments phase H : clear implicits.

(** The detection loop shared by the two [Detect] functions: [body i] is
    one iteration, which panics ([None]), skips the candidate
    ([Some None], a [continue]) or appends a detection. *)
Section Loop.

Context {D : Type}.
Variable body : nat -> option (option D).

Fixpoint detect_loop (n i : nat) (detections : list D) : option (list D) :=
  match n with
  | O => Some detections
  | S n' =>
      match body i with
      | None => None
      | Some None => detect_loop n' (S i) detections
      | Some (Some det) => detect_loop n' (S i) (detections ++ [det])
      end
  end.

End Loop.

(** ** The score filter (the same text in both detectors)

    [request.Detect] maps a label, or the wildcard, to a minimum score on
    the 0-100 scale.  [score] is [scores[i]], read only on the branches
    that compare it; a missing element is an index panic ([None]). *)

Definition below (score threshold : float32) : bool :=
  F32.ltb (F32.mul score F32.hundred) threshold.

Definition listed (Detect : gmap string float32) (label : string)
    (score : option float32) : option bool :=
  match Detect !! label with
  | Some t => s ← score; Some (negb (below s t))
  | None =>
      match Detect !! "*" with
      | Some t => s ← score; Some (negb (below s t))
      | None => Some (bool_decide (size Detect = 0%nat))
      end
  end.

Module odrpc.

Record DetectRequest := {
  Id : string;
  Data : list Byte.byte;
  Detect : gmap string float32
}.

(** [odrpc.Detector], the description [Config()] hands out. *)
Record Detector := {
  Name : string;
  Type_ : string;
  Model : string;
  Labels : list string;
  Width : Z;       (* int32 *)
  Height : Z;      (* int32 *)
  Channels : Z     (* int32 *)
}.

End odrpc.

Module dconfig.

Record DetectorConfig := {
  Name : string;
  Type_ : string;
  ModelFile : string;
  LabelFile : string;
  NumThreads : Z;
  NumConcurrent : Z;
  HWAccel : bool;
  Timeout : Z          (* time.Duration, nanoseconds *)
}.

Definition set_NumConcurrent (n : Z) (c : DetectorConfig) : DetectorConfig :=
  {| Name := Name c; Type_ := Type_ c; ModelFile := ModelFile c;
     LabelFile := LabelFile c; NumThreads := NumThreads c;
     NumConcurrent := n; HWAccel := HWAccel c; Timeout := Timeout c |}.

End dconfig.

(** ** detector/tflite/detector.go *)

Module tflite.

Import dconfig.

(** [edgetpu.Device] *)
Record Device := { Path : string }.

Inductive TensorType := UInt8 | Float32 | OtherType.

(** [tflInterpreter]: [device] points into [d.devices] (the index is
    kept), [Interpreter] names the interpreter the C library built. *)
Record tflInterpreter := {
  device : option nat;
  Interpreter : nat
}.

(** What a call does to the workers and to [conf.Stop]. *)
Inductive event :=
  | EvNewInterpreter (id : nat)
  | EvDelete (id : nat)
  | EvCopyFromBuffer (id : nat) (data : list Byte.byte)
  | EvInvoke (id : nat)          (* the goroutine running [Invoke] starts *)
  | EvComplete (id : nat)        (* [<-complete] received *)
  | EvStopAdd
  | EvStopDone
  | EvStopStop.

Record world := {
  pool : chan tflInterpreter;
  trace : list event
}.

Record PPMInfo := { ppmWidth : Z; ppmHeight : Z; ppmOffset : Z }.

(** One run of [interpreter.Invoke()]: when it finishes on the clock
    that starts with the goroutine ([None]: never), which case [select]
    takes if the timer fires at that same instant, and the four output
    tensors it leaves. *)
Record invocation := {
  finish : option Z;
  timer_wins_tie : bool;
  output : nat -> list float32
}.

Record image := { Dx : Z; Dy : Z }.

(** The collaborators: model file, label file, EdgeTPU driver, the
    interpreter library, the image codecs.  [FindPPMData] belongs to the
    package but to another file. *)
Record host := {
  NewModelFromFile : string -> bool;
  label_lines : string -> option (list string);
  DeviceList : option (list Device);
  edgetpu_New : Device -> bool;
  NewInterpreter : nat -> bool;
  AllocateTensors : nat -> bool;
  input_dims : nat -> Z * Z * Z;
  input_type : nat -> TensorType;
  FindPPMData : list Byte.byte -> option PPMInfo;
  image_Decode : list Byte.byte -> option image;
  (** Resizing and repacking of a decoded image into the input buffer
      (an index panic is [None]); it runs before the pool is touched
      and only feeds [CopyFromBuffer]. *)
  raster : odrpc.Detector -> image -> option (list Byte.byte);
  Invoke : tflInterpreter -> list Byte.byte -> invocation
}.

Record detector := {
  config : odrpc.Detector;
  labels : gmap Z string;
  inputType : TensorType;
  devices : list Device;
  numThreads : Z;
  hwAccel : bool;
  timeout : Z
}.

Definition second : Z := 1000000000.

(** *** New *)

Definition newInterpreter (h : host) (x : nat) (dev : option Device)
    (tr : list event) : (error + nat) * list event :=
  let delegate_ok := match dev with Some dv => edgetpu_New h dv | None => true end in
  if negb delegate_ok then
    (inl (Errorf ("could not initialize edgetpu " +:+
                  match dev with Some dv => Path dv | None => "" end)), tr)
  else if negb (NewInterpreter h x) then
    (inl (Errorf "Could not create interpreter"), tr)
  else
    let tr := tr ++ [EvNewInterpreter x] in
    if negb (AllocateTensors h x) then
      (inl (Errorf "interpreter allocate failed"), tr)
    else (inr x, tr).

(** [interpreter.device = &d.devices[x]] under [d.hwAccel]: the pointer
    and the device it points to; indexing outside [d.devices] panics. *)
Definition slot (hw : bool) (devs : list Device) (x : nat)
    : option (option nat * option Device) :=
  if hw then
    match devs !! x with
    | Some dv => Some (Some x, Some dv)
    | None => None
    end
  else Some (None, None).

(** [for x := 0; x < c.NumConcurrent; x++]: [n] iterations are left,
    [last] is the variable [interpreter]. *)
Fixpoint create_pool (h : host) (hw : bool) (devs : list Device)
    (n x : nat) (last : option tflInterpreter) (w : world)
    : outcome (option tflInterpreter) * world :=
  match n with
  | O => (Returns last, w)
  | S n' =>
      match slot hw devs x with
      | None => (Panics, w)
      | Some (ptr, dev) =>
          match newInterpreter h x dev (trace w) with
          | (inl err, tr) => (Fails err, {| pool := pool w; trace := tr |})
          | (inr id, tr) =>
              let interpreter := {| device := ptr; Interpreter := id |} in
              match send (pool w) interpreter with
              | Sent ch =>
                  create_pool h hw devs n' (S x) (Some interpreter)
                    {| pool := ch; trace := tr |}
              | SendPanics => (Panics, {| pool := pool w; trace := tr |})
              | SendBlocks => (Blocks OnSend, {| pool := pool w; trace := tr |})
              end
          end
      end
  end.

(** What iteration [x] of that loop gets from [newInterpreter], and the
    handle it puts in the channel on success. *)
Definition attempt (h : host) (hw : bool) (devs : list Device) (x : nat)
    : option (error + nat) :=
  match slot hw devs x with
  | Some (_, dev) => Some (fst (newInterpreter h x dev []))
  | None => None
  end.

Definition pooled (hw : bool) (x : nat) : tflInterpreter :=
  {| device := if hw then Some x else None; Interpreter := x |}.

(** The events of [new] that are not in [old] are creations. *)
Definition only_creations (old new : list event) : Prop :=
  forall e, e ∈ new -> e ∈ old \/ exists id, e = EvNewInterpreter id.

(** The [if d.hwAccel] block: devices, [c.NumConcurrent],
    [d.config.Type] and [d.timeout] after it. *)
Definition edgetpu_setup (h : host) (c : DetectorConfig)
    : error + (list Device * DetectorConfig * string * Z) :=
  if HWAccel c then
    match DeviceList h with
    | None => inl (Errorf "Could not fetch edgetpu device list")
    | Some [] => inl (Errorf "no edgetpu devices detected")
    | Some devs =>
        inr (devs, set_NumConcurrent (Z.of_nat (length devs)) c,
             "tflite-edgetpu",
             if Timeout c =? 0 then 30 * second else Timeout c)
    end
  else inr ([], c, Type_ c, Timeout c).

Definition no_world : world :=
  {| pool := {| buf := []; cap := 0; closed := false |}; trace := [] |}.

(** [New] gives its outcome, the world it leaves (the channel and the
    interpreters built, whether or not a detector comes back) and [c],
    which it writes through the pointer. *)
Definition New (h : host) (c : DetectorConfig)
    : outcome detector * world * DetectorConfig :=
  match make_chan (NumConcurrent c) with
  | None => (Panics, no_world, c)
  | Some ch =>
      let w := {| pool := ch; trace := [] |} in
      if negb (NewModelFromFile h (ModelFile c)) then
        (Fails (Errorf ("could not load model " +:+ ModelFile c)), w, c)
      else
        match label_lines h (LabelFile c) with
        | None => (Fails (Errorf "could not load label"), w, c)
        | Some lines =>
            let ls := LabelTable.load_labels lines in
            match edgetpu_setup h c with
            | inl err => (Fails err, w, c)
            | inr (devs, c', type, tmo) =>
                match create_pool h (HWAccel c) devs
                        (Z.to_nat (NumConcurrent c')) 0 None w with
                | (Returns None, w') => (Panics, w', c')
                | (Returns (Some interpreter), w') =>
                    let '(d1, d2, d3) := input_dims h (Interpreter interpreter) in
                    let ty := input_type h (Interpreter interpreter) in
                    match ty with
                    | UInt8 =>
                        (Returns
                           {| config :=
                                {| odrpc.Name := Name c;
                                   odrpc.Type_ := type;
                                   odrpc.Model := ModelFile c;
                                   odrpc.Labels := LabelTable.config_Labels ls;
                                   odrpc.Height := F32.wrap32 d1;
                                   odrpc.Width := F32.wrap32 d2;
                                   odrpc.Channels := F32.wrap32 d3 |};
                              labels := LabelTable.labels ls;
                              inputType := ty;
                              devices := devs;
                              numThreads := NumThreads c;
                              hwAccel := HWAccel c;
                              timeout := tmo |}, w', c')
                    | _ => (Fails (Errorf "unsupported tensor input type"), w', c')
                    end
                | (Fails err, w') => (Fails err, w', c')
                | (Panics, w') => (Panics, w', c')
                | (Blocks s, w') => (Blocks s, w', c')
                end
            end
        end
  end.

(** [Shutdown]: close the channel, then delete every interpreter
    received until the drained channel yields nil. *)
Definition Shutdown (w : world) : world :=
  {| pool := {| buf := []; cap := cap (pool w); closed := true |};
     trace := trace w ++ List.map (fun i => EvDelete (Interpreter i)) (buf (pool w)) |}.

(** *** Detect *)

Record Detection := {
  Top : float32;
  Left : float32;
  Bottom : float32;
  Right : float32;
  Label : string;
  Confidence : float32
}.

Record DetectResponse := {
  rId : string;
  Detections : list Detection
}.

(** The input buffer: PPM data of the right size goes in as it is,
    anything else is decoded ([request.Data[ppmInfo.Offset:]] panics when
    the offset is outside the data). *)
Definition ppm_fits (d : detector) (ppmInfo : PPMInfo) : bool :=
  (F32.wrap32 (ppmWidth ppmInfo) =? odrpc.Width (config d))
  && (F32.wrap32 (ppmHeight ppmInfo) =? odrpc.Height (config d)).

Definition input_data (h : host) (d : detector) (request : odrpc.DetectRequest)
    : outcome (list Byte.byte) :=
  let decode :=
    match image_Decode h (odrpc.Data request) with
    | None => Fails (Status InvalidArgument "could not decode image")
    | Some img =>
        match raster h (config d) img with
        | Some data => Returns data
        | None => Panics
        end
    end in
  match FindPPMData h (odrpc.Data request) with
  | Some ppmInfo =>
      if ppm_fits d ppmInfo then
        if (0 <=? ppmOffset ppmInfo)
           && (ppmOffset ppmInfo <=? Z.of_nat (length (odrpc.Data request)))
        then Returns (drop (Z.to_nat (ppmOffset ppmInfo)) (odrpc.Data request))
        else Panics
      else decode
  | None => decode
  end.

Inductive wait_result := Completed | TimedOut | Stuck.

(** The [select] under [if d.timeout > 0], then [<-complete]. *)
Definition wait (tmo : Z) (inv : invocation) : wait_result :=
  if 0 <? tmo then
    match finish inv with
    | Some t =>
        if t <? tmo then Completed
        else if tmo <? t then TimedOut
        else if timer_wins_tie inv then TimedOut else Completed
    | None => TimedOut
    end
  else
    match finish inv with
    | Some _ => Completed
    | None => Stuck
    end.

Definition wrap64 (n : Z) : Z := (n + 2 ^ 63) mod 2 ^ 64 - 2 ^ 63.

(** [make([]float32, n, n)] followed by [CopyToBuffer(&buf[0])]: a
    negative length panics, and so does [&buf[0]] on an empty slice.
    The buffer receives the head of the tensor. *)
Definition read_tensor (tensor : list float32) (n : Z) : option (list float32) :=
  if n <=? 0 then None
  else Some (take (Z.to_nat n) (tensor ++ replicate (Z.to_nat n) F32.zero)).

Record raw_batch := {
  count : Z;
  locations : list float32;
  classes : list float32;
  scores : list float32
}.

Definition read_outputs (inv : invocation) : option raw_batch :=
  countResult ← read_tensor (output inv 3) 1;
  let count := F32.to_int 64 (default F32.zero (countResult !! 0%nat)) in
  locations ← read_tensor (output inv 0) (wrap64 (count * 4));
  classes ← read_tensor (output inv 1) count;
  scores ← read_tensor (output inv 2) count;
  Some {| count := count; locations := locations;
          classes := classes; scores := scores |}.

(** "Cleanup the bounds" *)
Definition cleanup (det : Detection) : Detection :=
  {| Top := if F32.ltb (Top det) F32.zero then F32.zero else Top det;
     Left := if F32.ltb (Left det) F32.zero then F32.zero else Left det;
     Bottom := if F32.gtb (Bottom det) F32.one then F32.one else Bottom det;
     Right := if F32.gtb (Right det) F32.one then F32.one else Right det;
     Label := Label det;
     Confidence := Confidence det |}.

(** One iteration of [for i := 0; i < count; i++]. *)
Definition candidate (d : detector) (request : odrpc.DetectRequest)
    (b : raw_batch) (i : nat) : option (option Detection) :=
  c ← classes b !! i;
  let label := default "" (labels d !! F32.to_int 64 c) in
  keep ← listed (odrpc.Detect request) label (scores b !! i);
  if keep : bool then
    top ← locations b !! (i * 4)%nat;
    left ← locations b !! (i * 4 + 1)%nat;
    bottom ← locations b !! (i * 4 + 2)%nat;
    right ← locations b !! (i * 4 + 3)%nat;
    s ← scores b !! i;
    Some (Some (cleanup {| Top := top; Left := left; Bottom := bottom;
                           Right := right; Label := label;
                           Confidence := F32.mul s F32.hundred |}))
  else Some None.

Definition detections_of (d : detector) (request : odrpc.DetectRequest)
    (b : raw_batch) : option (list Detection) :=
  detect_loop (candidate d request b) (Z.to_nat (count b)) 0 [].

(** From [input.CopyFromBuffer(data)] to the [return]: everything the
    request does while it holds [interpreter]. *)
Definition run (h : host) (d : detector) (request : odrpc.DetectRequest)
    (data : list Byte.byte) (interpreter : tflInterpreter) (tr : list event)
    : outcome DetectResponse * list event :=
  let id := Interpreter interpreter in
  let tr := tr ++ [EvCopyFromBuffer id data; EvInvoke id] in
  let inv := Invoke h interpreter data in
  match wait (timeout d) inv with
  | TimedOut => (Fails (Status Internal "detect failed"), tr ++ [EvStopStop])
  | Stuck => (Blocks OnInvoke, tr)
  | Completed =>
      let tr := tr ++ [EvComplete id] in
      match read_outputs inv ≫= detections_of d request with
      | Some detections =>
          (Returns {| rId := odrpc.Id request; Detections := detections |}, tr)
      | None => (Panics, tr)
      end
  end.

(** The deferred function: [d.pool <- interpreter], [conf.Stop.Done()].
    It runs on every exit, a panic included; a request parked for good
    never reaches it. *)
Definition deferred {A} (out : outcome A) (interpreter : tflInterpreter)
    (ch : chan tflInterpreter) (tr : list event) : outcome A * world :=
  match out with
  | Blocks s => (Blocks s, {| pool := ch; trace := tr |})
  | _ =>
      match send ch interpreter with
      | Sent ch' => (out, {| pool := ch'; trace := tr ++ [EvStopDone] |})
      | SendPanics => (Panics, {| pool := ch; trace := tr |})
      | SendBlocks => (Blocks OnSend, {| pool := ch; trace := tr |})
      end
  end.

Definition Detect (h : host) (d : detector) (request : odrpc.DetectRequest)
    (w : world) : outcome DetectResponse * world :=
  match input_data h d request with
  | Returns data =>
      match recv (pool w) with
      | RecvBlocks => (Blocks OnAcquire, w)
      | ReceivedNil =>
          (* a nil interpreter: [GetInputTensor] panics, and so does the
             deferred send on the closed channel *)
          (Panics, {| pool := pool w; trace := trace w ++ [EvStopAdd] |})
      | Received interpreter ch =>
          let '(out, tr) := run h d request data interpreter (trace w ++ [EvStopAdd]) in
          deferred out interpreter ch tr
      end
  | Fails e => (Fails e, w)
  | Panics => (Panics, w)
  | Blocks s => (Blocks s, w)
  end.

(** *** The input buffer of a decoded image

    [data = make([]byte, int(Width*Height*Channels))] and the two [for]
    loops that fill it from [img.At(x, y).RGBA()].  [At x y] gives the red,
    green and blue components, each a uint32 below 65536. *)

Definition mul32 (a b : Z) : Z := F32.wrap32 (a * b).
Definition add32 (a b : Z) : Z := F32.wrap32 (a + b).

Definition float64_of (n : Z) : spec_float := binary_normalize 53 1024 n 0 false.

(** [float64(v) / 255.0], truncated toward zero. *)
Definition quotient (v : Z) : option Z :=
  F32.trunc (SFdiv 53 1024 (float64_of v) (float64_of 255)).

(** [byte(float64(v) / 255.0)].  A quotient above 255 does not fit a
    byte and Go leaves the result to the implementation; amd64 keeps the
    low eight bits of the truncated value. *)
Definition to_byte (v : Z) : Z :=
  match quotient v with
  | Some q => q mod 256
  | None => 0
  end.

(** [data[i] = v]; an index outside the slice panics. *)
Definition store (data : list Z) (i v : Z) : option (list Z) :=
  if (0 <=? i) && (i <? Z.of_nat (length data))
  then Some (<[Z.to_nat i := v]> data)
  else None.

(** [(y*d.config.Width+x)*3+k] in int32 *)
Definition pixel_index (W x y k : Z) : Z :=
  add32 (mul32 (add32 (mul32 y W) x) 3) k.

Definition put_pixel (conv : Z -> Z) (W : Z) (At : Z -> Z -> Z * Z * Z)
    (y x : Z) (data : list Z) : option (list Z) :=
  let '(r, g, b) := At x y in
  data ← store data (pixel_index W x y 0) (conv r);
  data ← store data (pixel_index W x y 1) (conv g);
  store data (pixel_index W x y 2) (conv b).

(** [for x := int32(0); x < d.config.Width; x++], [n] iterations left *)
Fixpoint pack_row (conv : Z -> Z) (W : Z) (At : Z -> Z -> Z * Z * Z) (y : Z)
    (n : nat) (x : Z) (data : list Z) : option (list Z) :=
  match n with
  | O => Some data
  | S n' => data ← put_pixel conv W At y x data; pack_row conv W At y n' (x + 1) data
  end.

(** [for y := int32(0); y < d.config.Height; y++], [n] iterations left *)
Fixpoint pack_rows (conv : Z -> Z) (W : Z) (At : Z -> Z -> Z * Z * Z)
    (n : nat) (y : Z) (data : list Z) : option (list Z) :=
  match n with
  | O => Some data
  | S n' =>
      data ← pack_row conv W At y (Z.to_nat W) 0 data;
      pack_rows conv W At n' (y + 1) data
  end.

(** The buffer for an image already of the detector's size; [conv] is
    the conversion of one component, [to_byte] on amd64.  [None] is a
    panic: a negative length, or an index outside the buffer. *)
Definition pack (conv : Z -> Z) (cfg : odrpc.Detector) (At : Z -> Z -> Z * Z * Z)
    : option (list Z) :=
  let len := mul32 (mul32 (odrpc.Width cfg) (odrpc.Height cfg)) (odrpc.Channels cfg) in
  if len <? 0 then None
  else pack_rows conv (odrpc.Width cfg) At (Z.to_nat (odrpc.Height cfg)) 0
         (replicate (Z.to_nat len) 0).

(** The three bytes of pixel [(x, y)]; those of [n] columns from [x] on
    in row [y]; those of [n] rows of width [W] from row [y] on. *)
Definition pixel_bytes (conv : Z -> Z) (At : Z -> Z -> Z * Z * Z) (y x : Z) : list Z :=
  let '(r, g, b) := At x y in [conv r; conv g; conv b].

Definition row_bytes (conv : Z -> Z) (At : Z -> Z -> Z * Z * Z) (y x : Z) (n : nat)
    : list Z :=
  List.flat_map (pixel_bytes conv At y) (seqZ x (Z.of_nat n)).

Definition rows_bytes (conv : Z -> Z) (At : Z -> Z -> Z * Z * Z) (W y : Z) (n : nat)
    : list Z :=
  List.flat_map (fun y => row_bytes conv At y 0 (Z.to_nat W)) (seqZ y (Z.of_nat n)).

(** [p] holds of the [n] integers from [v] on. *)
Fixpoint holds_from (p : Z -> bool) (n : nat) (v : Z) : bool :=
  match n with
  | O => true
  | S n' => p v && holds_from p n' (v + 1)
  end.

(** The truncated quotient of [v] is the integer quotient. *)
Definition exact_quotient (v : Z) : bool :=
  match quotient v with
  | Some q => q =? v / 255
  | None => false
  end.

(** The detector with another [timeout]. *)
Definition set_timeout (tmo : Z) (d : detector) : detector :=
  {| config := config d; labels := labels d; inputType := inputType d;
     devices := devices d; numThreads := numThreads d; hwAccel := hwAccel d;
     timeout := tmo |}.


(** *** Shutdown, iteration by iteration *)

(** The [for] loop of [Shutdown]: receive, leave on nil, [Delete]
    otherwise.  [fuel] bounds the number of receives; [None] says it ran
    out. *)
Fixpoint drain (fuel : nat) (w : world) : option (outcome unit * world) :=
  match fuel with
  | O => None
  | S fuel' =>
      match recv (pool w) with
      | Received interpreter ch =>
          drain fuel' {| pool := ch;
                         trace := trace w ++ [EvDelete (Interpreter interpreter)] |}
      | ReceivedNil => Some (Returns tt, w)
      | RecvBlocks => Some (Blocks OnAcquire, w)
      end
  end.

Definition Shutdown_loop (fuel : nat) (w : world) : option (outcome unit * world) :=
  match close_chan (pool w) with
  | None => Some (Panics, w)
  | Some ch => drain fuel {| pool := ch; trace := trace w |}
  end.

End tflite.

(** ** The tensorflow detector *)

Module tensorflow.

Import dconfig.

Inductive event :=
  | EvNewSession (id : nat)
  | EvClose (id : nat)
  | EvRun (id : nat) (input : list Byte.byte).   (* [sess.Run] on a pooled session *)

Record world := {
  pool : chan nat;           (* [chan *tf.Session], sessions by number *)
  trace : list event
}.

(** [image.Config] with the format name next to it. *)
Record Config := { cfgWidth : Z; cfgHeight : Z }.

(** The values of the four fetched tensors, one entry per image. *)
Record outputs := {
  detection_boxes : list (list (list float32));
  detection_scores : list (list float32);
  detection_classes : list (list float32);
  num_detections : list float32
}.

Inductive decode_run :=
  | NoSession                              (* [tf.NewSession(graph, nil)] fails *)
  | RunFails                               (* [imgSess.Run] fails *)
  | Decoded (tensor : list Byte.byte).

Record host := {
  label_lines : string -> option (list string);
  ReadFile : string -> bool;
  graph_Import : bool;
  NewSession : nat -> bool;
  DecodeConfig : list Byte.byte -> option (Config * string);
  (** [gocv.IMDecode]: columns and rows of the matrix *)
  IMDecode : list Byte.byte -> option (Z * Z);
  (** [gocv.IMEncode(".bmp", img)] for the matrix decoded from the bytes *)
  IMEncode : list Byte.byte -> option (list Byte.byte);
  NewTensor : list Byte.byte -> bool;
  (** the one-image decoding graph, built and run *)
  decode_image : string -> list Byte.byte -> decode_run;
  Run : nat -> list Byte.byte -> option outputs
}.

Record detector := {
  config : odrpc.Detector;
  labels : gmap Z string
}.

(** *** New *)

(** [for x := 0; x < c.NumConcurrent; x++] *)
Fixpoint create_sessions (h : host) (n x : nat) (w : world) : outcome unit * world :=
  match n with
  | O => (Returns tt, w)
  | S n' =>
      if negb (NewSession h x) then (Fails (Errorf "Could not create session"), w)
      else
        let tr := trace w ++ [EvNewSession x] in
        match send (pool w) x with
        | Sent ch => create_sessions h n' (S x) {| pool := ch; trace := tr |}
        | SendPanics => (Panics, {| pool := pool w; trace := tr |})
        | SendBlocks => (Blocks OnSend, {| pool := pool w; trace := tr |})
        end
  end.

Definition no_world : world :=
  {| pool := {| buf := []; cap := 0; closed := false |}; trace := [] |}.

Definition New (h : host) (c : DetectorConfig) : outcome detector * world :=
  match make_chan (NumConcurrent c) with
  | None => (Panics, no_world)
  | Some ch =>
      let w := {| pool := ch; trace := [] |} in
      match label_lines h (LabelFile c) with
      | None => (Fails (Errorf "could not load label"), w)
      | Some lines =>
          let ls := LabelTable.load_labels lines in
          if negb (ReadFile h (ModelFile c)) then
            (Fails (Errorf ("Could not read model file " +:+ ModelFile c)), w)
          else if negb (graph_Import h) then
            (Fails (Errorf "Could not import model"), w)
          else
            match create_sessions h (Z.to_nat (NumConcurrent c)) 0 w with
            | (Returns _, w') =>
                (Returns
                   {| config :=
                        {| odrpc.Name := Name c;
                           odrpc.Type_ := Type_ c;
                           odrpc.Model := ModelFile c;
                           odrpc.Labels := LabelTable.config_Labels ls;
                           odrpc.Width := -1;
                           odrpc.Height := -1;
                           odrpc.Channels := 0 |};
                      labels := LabelTable.labels ls |}, w')
            | (Fails err, w') => (Fails err, w')
            | (Panics, w') => (Panics, w')
            | (Blocks s, w') => (Blocks s, w')
            end
      end
  end.

Definition Shutdown (w : world) : world :=
  {| pool := {| buf := []; cap := cap (pool w); closed := true |};
     trace := trace w ++ List.map EvClose (buf (pool w)) |}.

(** *** Detect *)

Record Detection := {
  Y1 : Z;      (* int32 *)
  X1 : Z;
  Y2 : Z;
  X2 : Z;
  Label : string;
  Confidence : float32
}.

(** The response carries its error as text; there is no error value. *)
Record DetectResponse := {
  rId : string;
  Detections : list Detection;
  Error : string
}.

Definition failed (request : odrpc.DetectRequest) (msg : string) : DetectResponse :=
  {| rId := odrpc.Id request; Detections := []; Error := msg |}.

Definition supported (imgType : string) : bool :=
  bool_decide (imgType = "png") || bool_decide (imgType = "gif")
  || bool_decide (imgType = "jpg") || bool_decide (imgType = "bmp").

(** From [image.DecodeConfig] to the decoded one-image tensor: the
    image size, or the error text of the response. *)
Definition prepare (h : host) (data : list Byte.byte)
    : string + (Config * list Byte.byte) :=
  match DecodeConfig h data with
  | None => inl "Could not decode image"
  | Some (imgConfig, imgType) =>
      let converted :=
        if supported imgType then inr (imgConfig, imgType, data)
        else
          match IMDecode h data with
          | None => inl "Could not decode image"
          | Some (cols, rows) =>
              match IMEncode h data with
              | None => inl "error encoding bmp"
              | Some bmp =>
                  inr ({| cfgWidth := cols; cfgHeight := rows |}, "bmp", bmp)
              end
          end in
      match converted with
      | inl msg => inl msg
      | inr (imgConfig, imgType, data) =>
          if negb (NewTensor h data) then inl "could not create input tensor"
          else
            match decode_image h imgType data with
            | NoSession => inl "could not create image session"
            | RunFails => inl "error converting image"
            | Decoded tensor => inr (imgConfig, tensor)
            end
      end
  end.

Record raw_batch := {
  count : Z;
  locations : list (list float32);
  classes : list float32;
  scores : list float32
}.

(** The type assertions and [[0]] on the fetched values. *)
Definition read_outputs (o : outputs) : option raw_batch :=
  scores ← detection_scores o !! 0%nat;
  classes ← detection_classes o !! 0%nat;
  locations ← detection_boxes o !! 0%nat;
  n ← num_detections o !! 0%nat;
  Some {| count := F32.to_int 64 n; locations := locations;
          classes := classes; scores := scores |}.

(** "Cleanup the bounds" *)
Definition cleanup (imgConfig : Config) (det : Detection) : Detection :=
  {| Y1 := if Y1 det <? 0 then 0 else Y1 det;
     X1 := if X1 det <? 0 then 0 else X1 det;
     Y2 := if F32.wrap32 (cfgHeight imgConfig) <? Y2 det
           then F32.wrap32 (cfgHeight imgConfig) else Y2 det;
     X2 := if F32.wrap32 (cfgWidth imgConfig) <? X2 det
           then F32.wrap32 (cfgWidth imgConfig) else X2 det;
     Label := Label det;
     Confidence := Confidence det |}.

(** [int32(locations[i][k] * float32(dim))] *)
Definition pixel (loc : float32) (dim : Z) : Z :=
  F32.to_int 32 (F32.mul loc (F32.of_Z dim)).

(** One iteration of [for i := 0; i < count; i++]. *)
Definition candidate (d : detector) (request : odrpc.DetectRequest)
    (imgConfig : Config) (b : raw_batch) (i : nat) : option (option Detection) :=
  c ← classes b !! i;
  let label := default "" (labels d !! F32.to_int 64 c) in
  keep ← listed (odrpc.Detect request) label (scores b !! i);
  if keep : bool then
    loc ← locations b !! i;
    y1 ← loc !! 0%nat;
    x1 ← loc !! 1%nat;
    y2 ← loc !! 2%nat;
    x2 ← loc !! 3%nat;
    s ← scores b !! i;
    Some (Some (cleanup imgConfig
                  {| Y1 := pixel y1 (cfgHeight imgConfig);
                     X1 := pixel x1 (cfgWidth imgConfig);
                     Y2 := pixel y2 (cfgHeight imgConfig);
                     X2 := pixel x2 (cfgWidth imgConfig);
                     Label := label;
                     Confidence := F32.mul s F32.hundred |}))
  else Some None.

Definition detections_of (d : detector) (request : odrpc.DetectRequest)
    (imgConfig : Config) (b : raw_batch) : option (list Detection) :=
  detect_loop (candidate d request imgConfig b) (Z.to_nat (count b)) 0 [].

(** Everything between the receive and the deferred send. *)
Definition run (h : host) (d : detector) (request : odrpc.DetectRequest)
    (sess : nat) (tr : list event) : outcome DetectResponse * list event :=
  match prepare h (odrpc.Data request) with
  | inl msg => (Returns (failed request msg), tr)
  | inr (imgConfig, tensor) =>
      let tr := tr ++ [EvRun sess tensor] in
      match Run h sess tensor with
      | None => (Returns (failed request "error running detection"), tr)
      | Some o =>
          match read_outputs o ≫= detections_of d request imgConfig with
          | Some detections =>
              (Returns {| rId := odrpc.Id request; Detections := detections;
                          Error := "" |}, tr)
          | None => (Panics, tr)
          end
      end
  end.

(** The deferred [d.pool <- sess]. *)
Definition deferred {A} (out : outcome A) (sess : nat) (ch : chan nat)
    (tr : list event) : outcome A * world :=
  match out with
  | Blocks s => (Blocks s, {| pool := ch; trace := tr |})
  | _ =>
      match send ch sess with
      | Sent ch' => (out, {| pool := ch'; trace := tr |})
      | SendPanics => (Panics, {| pool := ch; trace := tr |})
      | SendBlocks => (Blocks OnSend, {| pool := ch; trace := tr |})
      end
  end.

Definition Detect (h : host) (d : detector) (request : odrpc.DetectRequest)
    (w : world) : outcome DetectResponse * world :=
  match recv (pool w) with
  | RecvBlocks => (Blocks OnAcquire, w)
  | ReceivedNil =>
      (* the deferred send on the closed channel panics *)
      (Panics, w)
  | Received sess ch =>
      let '(out, tr) := run h d request sess (trace w) in
      deferred out sess ch tr
  end.

(** The error texts [Detect] puts in a response. *)
Definition messages : list string :=
  ["Could not decode image"; "error encoding bmp"; "could not create input tensor";
   "could not create image session"; "error converting image";
   "error running detection"].

(** *** Shutdown, iteration by iteration *)

(** The [for] loop of [Shutdown]: receive, leave on nil, [Close]
    otherwise.  [fuel] bounds the number of receives; [None] says it ran
    out. *)
Fixpoint drain (fuel : nat) (w : world) : option (outcome unit * world) :=
  match fuel with
  | O => None
  | S fuel' =>
      match recv (pool w) with
      | Received sess ch =>
          drain fuel' {| pool := ch; trace := trace w ++ [EvClose sess] |}
      | ReceivedNil => Some (Returns tt, w)
      | RecvBlocks => Some (Blocks OnAcquire, w)
      end
  end.

Definition Shutdown_loop (fuel : nat) (w : world) : option (outcome unit * world) :=
  match close_chan (pool w) with
  | None => Some (Panics, w)
  | Some ch => drain fuel {| pool := ch; trace := trace w |}
  end.

(** A caller that sends its requests one after the other and goes on as
    long as [Detect] comes back with a response. *)
Fixpoint serve (h : host) (d : detector) (requests : list odrpc.DetectRequest)
    (w : world) : list (outcome DetectResponse) * world :=
  match requests with
  | [] => ([], w)
  | request :: rest =>
      match Detect h d request w with
      | (Returns resp, w1) =>
          let '(outs, w2) := serve h d rest w1 in (Returns resp :: outs, w2)
      | (out, w1) => ([out], w1)
      end
  end.

End tensorflow.

(** ** Concrete inputs used by the examples below *)

Module Samples.

(** 50 and 1.02, -0.25, 0.5, 0.9, 1.5 as binary32 values. *)
Definition fifty : float32 := Eval vm_compute in F32.of_Z 50.
Definition f1_02 : float32 := S754_finite false 8556380 (-23).
Definition fm0_25 : float32 := S754_finite true 8388608 (-25).
Definition f0_5 : float32 := S754_finite false 8388608 (-24).
Definition f0_9 : float32 := S754_finite false 15099494 (-24).
Definition f1_5 : float32 := S754_finite false 12582912 (-23).

Definition wildcard50 : gmap string float32 := {[ "*" := fifty ]}.

Definition png : list Byte.byte := [Byte.x89; Byte.x50; Byte.x4e; Byte.x47].

Definition request (data : list Byte.byte) (spec : gmap string float32)
    : odrpc.DetectRequest :=
  {| odrpc.Id := "r1"; odrpc.Data := data; odrpc.Detect := spec |}.

Definition detector_config (hw : bool) (n tmo : Z) : dconfig.DetectorConfig :=
  {| dconfig.Name := "default"; dconfig.Type_ := "tflite";
     dconfig.ModelFile := "model.tflite"; dconfig.LabelFile := "labels.txt";
     dconfig.NumThreads := 1; dconfig.NumConcurrent := n;
     dconfig.HWAccel := hw; dconfig.Timeout := tmo |}.

Definition label_lines : list string := ["1 cat"; "dog"; "x stale"].

(** One candidate of class 1 and score 0.9 whose box is
    (top 1.02, left 0, bottom -0.25, right 0.5). *)
Definition tensors (k : nat) : list float32 :=
  match k with
  | 0%nat => [f1_02; F32.zero; fm0_25; f0_5]
  | 1%nat => [F32.one]
  | 2%nat => [f0_9]
  | 3%nat => [F32.one]
  | _ => []
  end.

Definition two_devices : list tflite.Device :=
  [ {| tflite.Path := "/dev/apex_0" |}; {| tflite.Path := "/dev/apex_1" |} ].

(** A host with two EdgeTPU devices where only empty data fails to
    decode; [alloc_ok] says which interpreters allocate their tensors and
    [fin] when an invocation finishes. *)
Definition tflite_host (alloc_ok : nat -> bool) (fin : option Z) : tflite.host :=
  {| tflite.NewModelFromFile := fun _ => true;
     tflite.label_lines := fun _ => Some label_lines;
     tflite.DeviceList := Some two_devices;
     tflite.edgetpu_New := fun _ => true;
     tflite.NewInterpreter := fun _ => true;
     tflite.AllocateTensors := alloc_ok;
     tflite.input_dims := fun _ => (300, 300, 3);
     tflite.input_type := fun _ => tflite.UInt8;
     tflite.FindPPMData := fun _ => None;
     tflite.image_Decode :=
       fun data => match data with
                   | [] => None
                   | _ => Some {| tflite.Dx := 300; tflite.Dy := 300 |}
                   end;
     tflite.raster := fun _ _ => Some [];
     tflite.Invoke :=
       fun _ _ => {| tflite.finish := fin; tflite.timer_wins_tie := false;
                     tflite.output := tensors |} |}.

Definition tflite_detector (tmo : Z) : tflite.detector :=
  {| tflite.config :=
       {| odrpc.Name := "default"; odrpc.Type_ := "tflite";
          odrpc.Model := "model.tflite"; odrpc.Labels := ["cat"; "dog"];
          odrpc.Width := 300; odrpc.Height := 300; odrpc.Channels := 3 |};
     tflite.labels := <[2 := "dog"]> (<[1 := "cat"]> ∅);
     tflite.inputType := tflite.UInt8;
     tflite.devices := [];
     tflite.numThreads := 1;
     tflite.hwAccel := false;
     tflite.timeout := tmo |}.

Definition interpreter (id : nat) : tflite.tflInterpreter :=
  {| tflite.device := None; tflite.Interpreter := id |}.

Definition tflite_world : tflite.world :=
  {| tflite.pool := {| buf := [interpreter 0; interpreter 1]; cap := 2;
                       closed := false |};
     tflite.trace := [] |}.

(** The tensorflow side: a 100 x 100 image, one candidate of class 1 and
    score 0.9 with box (y1 1.5, x1 0, y2 -0.25, x2 0.5). *)
Definition tf_outputs : tensorflow.outputs :=
  {| tensorflow.detection_boxes := [[ [f1_5; F32.zero; fm0_25; f0_5] ]];
     tensorflow.detection_scores := [[f0_9]];
     tensorflow.detection_classes := [[F32.one]];
     tensorflow.num_detections := [F32.one] |}.

Definition tf_host (session_ok : nat -> bool) : tensorflow.host :=
  {| tensorflow.label_lines := fun _ => Some label_lines;
     tensorflow.ReadFile := fun _ => true;
     tensorflow.graph_Import := true;
     tensorflow.NewSession := session_ok;
     tensorflow.DecodeConfig :=
       fun data => match data with
                   | [] => None
                   | _ => Some ({| tensorflow.cfgWidth := 100;
                                   tensorflow.cfgHeight := 100 |}, "png")
                   end;
     tensorflow.IMDecode := fun _ => None;
     tensorflow.IMEncode := fun _ => None;
     tensorflow.NewTensor := fun _ => true;
     tensorflow.decode_image := fun _ data => tensorflow.Decoded data;
     tensorflow.Run := fun _ _ => Some tf_outputs |}.

Definition tf_detector : tensorflow.detector :=
  {| tensorflow.config :=
       {| odrpc.Name := "default"; odrpc.Type_ := "tensorflow";
          odrpc.Model := "model.pb"; odrpc.Labels := ["cat"; "dog"];
          odrpc.Width := -1; odrpc.Height := -1; odrpc.Channels := 0 |};
     tensorflow.labels := <[2 := "dog"]> (<[1 := "cat"]> ∅) |}.

(** What the two [Detect] functions answer for that candidate. *)
Definition tflite_box : tflite.Detection :=
  {| tflite.Top := f1_02; tflite.Left := F32.zero;
     tflite.Bottom := fm0_25; tflite.Right := f0_5;
     tflite.Label := "cat";
     tflite.Confidence := S754_finite false 11796480 (-17) |}.

Definition tf_box : tensorflow.Detection :=
  {| tensorflow.Y1 := 150; tensorflow.X1 := 0;
     tensorflow.Y2 := -25; tensorflow.X2 := 50;
     tensorflow.Label := "cat";
     tensorflow.Confidence := S754_finite false 11796480 (-17) |}.

Definition tflite_batch : tflite.raw_batch :=
  {| tflite.count := 1; tflite.locations := tensors 0;
     tflite.classes := tensors 1; tflite.scores := tensors 2 |}.

Definition tf_batch : tensorflow.raw_batch :=
  {| tensorflow.count := 1;
     tensorflow.locations := [ [f1_5; F32.zero; fm0_25; f0_5] ];
     tensorflow.classes := [F32.one]; tensorflow.scores := [f0_9] |}.

Definition tf_world : tensorflow.world :=
  {| tensorflow.pool := {| buf := [0%nat; 1%nat]; cap := 2; closed := false |};
     tensorflow.trace := [] |}.

(** A tflite host whose model finds nothing: the count tensor holds 0. *)
Definition empty_batch_host : tflite.host :=
  let h := tflite_host (fun _ => true) (Some 5) in
  {| tflite.NewModelFromFile := tflite.NewModelFromFile h;
     tflite.label_lines := tflite.label_lines h;
     tflite.DeviceList := tflite.DeviceList h;
     tflite.edgetpu_New := tflite.edgetpu_New h;
     tflite.NewInterpreter := tflite.NewInterpreter h;
     tflite.AllocateTensors := tflite.AllocateTensors h;
     tflite.input_dims := tflite.input_dims h;
     tflite.input_type := tflite.input_type h;
     tflite.FindPPMData := tflite.FindPPMData h;
     tflite.image_Decode := tflite.image_Decode h;
     tflite.raster := tflite.raster h;
     tflite.Invoke :=
       fun _ _ => {| tflite.finish := Some 5; tflite.timer_wins_tie := false;
                     tflite.output := fun k => match k with
                                               | 3%nat => [F32.zero]
                                               | _ => []
                                               end |} |}.

(** A pool with a single interpreter. *)
Definition single_world : tflite.world :=
  {| tflite.pool := {| buf := [interpreter 0]; cap := 1; closed := false |};
     tflite.trace := [] |}.

(** The same tflite host with an input tensor of another type. *)
(** A detector configuration of a given input size, and an image whose
    pixel [(x, y)] has red [257 * (10 * y + x)], green [257 * 200] and
    full blue. *)
Definition sized (W H C : Z) : odrpc.Detector :=
  {| odrpc.Name := "default"; odrpc.Type_ := "tflite"; odrpc.Model := "model.tflite";
     odrpc.Labels := []; odrpc.Width := W; odrpc.Height := H; odrpc.Channels := C |}.

Definition gradient (x y : Z) : Z * Z * Z := (257 * (10 * y + x), 257 * 200, 65535).


End Samples.

(** * Properties *)

(** ** Label table *)

Section LabelFacts.

Import GoStrings GoStrconv LabelTable.

Lemma scan_labels_app (l1 l2 : list string) : forall x d,
  scan_labels x (l1 ++ l2) d
  = scan_labels (x + Z.of_nat (length l1)) l2 (scan_labels x l1 d).
Proof.
  induction l1 as [|t l1 IH]; intros x d; simpl.
  - f_equal. lia.
  - rewrite IH. f_equal. lia.
Qed.

Lemma cut_no_space (s : string) :
  no_space s = true -> cut_after_space s = None.
Proof.
  induction s as [|c s IH]; simpl; [reflexivity|].
  destruct (Ascii.eqb c " "); simpl; [discriminate|].
  intros Hs. now rewrite IH.
Qed.

Lemma cut_at_first_space (idx lbl : string) :
  no_space idx = true ->
  cut_after_space (idx +:+ " " +:+ lbl) = Some (idx +:+ " ", lbl).
Proof.
  induction idx as [|c s IH]; simpl; [reflexivity|].
  destruct (Ascii.eqb c " "); simpl; [discriminate|].
  intros Hs. now rewrite IH.
Qed.

Lemma bare_line (x : Z) (text : string) (d : label_state) :
  no_space text = true ->
  label_line x text d
  = {| labels := <[x := text]> (labels d);
       config_Labels := config_Labels d ++ [text] |}.
Proof.
  intros Hs. unfold label_line, SplitAfterN. now rewrite cut_no_space.
Qed.

Lemma indexed_line (x : Z) (idx lbl : string) (d : label_state) :
  no_space idx = true ->
  label_line x (idx +:+ " " +:+ lbl) d
  = match Atoi (TrimSpace (idx +:+ " ")) with
    | Some y => {| labels := <[y := TrimSpace lbl]> (labels d);
                   config_Labels := config_Labels d ++ [TrimSpace lbl] |}
    | None => d
    end.
Proof.
  intros Hs. unfold label_line, SplitAfterN. now rewrite cut_at_first_space.
Qed.

(** C5.  Loading never aborts ([load_labels] is total).  A line without
    a space is stored under its line number, counted from 1; a line
    "<index> <label>" is stored under the integer its trimmed first field
    spells, with the trimmed rest as label; when that field is not an
    integer the line changes nothing and the lines after it are loaded
    as usual.  The lines "1 cat", "dog", "x stale" give {1:"cat", 2:"dog"}. *)
Theorem label_loading (pre post : list string) (text idx lbl : string) :
  let d := load_labels pre in
  let x := Z.of_nat (length pre) + 1 in
  (no_space text = true ->
     labels (load_labels (pre ++ [text])) = <[x := text]> (labels d))
  /\ (no_space idx = true ->
      forall y, Atoi (TrimSpace (idx +:+ " ")) = Some y ->
      labels (load_labels (pre ++ [idx +:+ " " +:+ lbl]))
      = <[y := TrimSpace lbl]> (labels d))
  /\ (no_space idx = true ->
      Atoi (TrimSpace (idx +:+ " ")) = None ->
      load_labels (pre ++ (idx +:+ " " +:+ lbl) :: post)
      = scan_labels (x + 1) post d)
  /\ labels (load_labels ["1 cat"; "dog"; "x stale"])
     = <[2 := "dog"]> (<[1 := "cat"]> ∅).
Proof.
  intros d x. unfold load_labels in *. repeat split.
  - intros Hs. rewrite scan_labels_app. simpl.
    rewrite bare_line by assumption. simpl. f_equal. lia.
  - intros Hs y Hy. rewrite scan_labels_app. simpl.
    rewrite indexed_line by assumption. now rewrite Hy.
  - intros Hs Hy. rewrite scan_labels_app. simpl.
    rewrite indexed_line by assumption. rewrite Hy.
    f_equal. subst x. lia.
Qed.

Lemma label_loading_witness :
  labels (load_labels (["1 cat"] ++ ["dog"])) = <[2 := "dog"]> (labels (load_labels ["1 cat"]))
  /\ labels (load_labels (["person"] ++ ["7" +:+ " " +:+ " stop sign "]))
     = <[7 := "stop sign"]> (labels (load_labels ["person"]))
  /\ load_labels (["1 cat"; "dog"] ++ ("x" +:+ " " +:+ "stale") :: ["bird"])
     = scan_labels 4 ["bird"] (load_labels ["1 cat"; "dog"]).
Proof.
  split; [|split].
  - apply (proj1 (label_loading ["1 cat"] [] "dog" "" "")). reflexivity.
  - apply (proj1 (proj2 (label_loading ["person"] [] "" "7" " stop sign "))
             eq_refl 7). reflexivity.
  - apply (proj1 (proj2 (proj2 (label_loading ["1 cat"; "dog"] ["bird"] "" "x" "stale")))).
    + reflexivity.
    + reflexivity.
Defined.

End LabelFacts.

(** ** The score filter *)

Section FilterFacts.

(** [x < y] is false exactly when [y <= x] or one side is NaN. *)
Lemma not_ltb (x y : float32) :
  negb (F32.ltb x y) = F32.geb x y || F32.is_nan x || F32.is_nan y.
Proof.
  unfold F32.ltb, F32.geb, SFltb, SFleb.
  destruct x as [sx|sx| |sx mx ex], y as [sy|sy| |sy my ey]; simpl;
    try reflexivity;
    try (destruct sx; reflexivity);
    try (destruct sy; reflexivity);
    try (destruct sx, sy; reflexivity).
  destruct sx, sy; simpl; try reflexivity;
    rewrite (Z.compare_antisym ex ey);
    replace (Pos.compare_cont Eq my mx) with (CompOpp (Pos.compare_cont Eq mx my))
      by apply (Pos.compare_cont_antisym mx my Eq);
    destruct (ex ?= ey); simpl; try reflexivity;
    destruct (Pos.compare_cont Eq mx my); reflexivity.
Qed.

Lemma size_zero_empty (Detect : gmap string float32) :
  bool_decide (size Detect = 0%nat) = bool_decide (Detect = ∅).
Proof. apply bool_decide_ext, map_size_empty_iff. Qed.

(** C1 (amended).  With [p = score*100]: an entry for the exact label
    decides alone, the candidate passing unless [p < threshold], that is
    when [p >= threshold] or one of the two is NaN; without it the
    wildcard entry decides in the same way; a non-empty spec with
    neither entry rejects; the empty spec accepts. *)
Theorem filter_decision (Detect : gmap string float32) (label : string)
    (score : float32) :
  let p := F32.mul score F32.hundred in
  let passes t := F32.geb p t || F32.is_nan p || F32.is_nan t in
  (forall t, Detect !! label = Some t ->
     listed Detect label (Some score) = Some (passes t))
  /\ (forall t, Detect !! label = None -> Detect !! "*" = Some t ->
      listed Detect label (Some score) = Some (passes t))
  /\ (Detect !! label = None -> Detect !! "*" = None -> Detect <> ∅ ->
      listed Detect label (Some score) = Some false)
  /\ (Detect = ∅ -> listed Detect label (Some score) = Some true).
Proof.
  intros p passes. unfold listed, below. repeat split.
  - intros t ->. simpl. now rewrite not_ltb.
  - intros t -> ->. simpl. now rewrite not_ltb.
  - intros -> -> Hne. rewrite size_zero_empty.
    now rewrite bool_decide_eq_false_2.
  - intros ->. now rewrite !lookup_empty.
Qed.

Lemma filter_decision_witness :
  listed Samples.wildcard50 "*" (Some Samples.f0_5) = Some true
  /\ listed Samples.wildcard50 "cat" (Some Samples.f0_5) = Some true
  /\ listed {[ "dog" := Samples.fifty ]} "cat" (Some Samples.f0_9) = Some false
  /\ listed ∅ "cat" (Some F32.zero) = Some true.
Proof.
  split; [|split; [|split]].
  - rewrite (proj1 (filter_decision Samples.wildcard50 "*" Samples.f0_5)
               Samples.fifty eq_refl).
    reflexivity.
  - rewrite (proj1 (proj2 (filter_decision Samples.wildcard50 "cat" Samples.f0_5))
               Samples.fifty eq_refl eq_refl).
    reflexivity.
  - apply (proj1 (proj2 (proj2
             (filter_decision {[ "dog" := Samples.fifty ]} "cat" Samples.f0_9))));
      try reflexivity.
    intros Heq. apply (f_equal (fun m => m !! "dog")) in Heq. discriminate Heq.
  - apply (proj2 (proj2 (proj2 (filter_decision ∅ "cat" F32.zero)))).
    reflexivity.
Defined.

(** C1 as stated fails on NaN: under the spec {"*": 50} a candidate
    whose score is NaN is accepted, though [score*100 >= 50] is false. *)
Lemma nan_score_accepted :
  Samples.wildcard50 !! "cat" = None
  /\ Samples.wildcard50 !! "*" = Some Samples.fifty
  /\ listed Samples.wildcard50 "cat" (Some S754_nan) = Some true
  /\ F32.geb (F32.mul S754_nan F32.hundred) Samples.fifty = false.
Proof. repeat split. Qed.

End FilterFacts.

(** ** The detection loop *)

Section LoopFacts.

Context {D : Type}.
Variable body : nat -> option (option D).

(** Whatever the loop returns was already collected or was appended by
    one of its iterations. *)
Lemma detect_loop_origin (n : nat) : forall i acc out,
  detect_loop body n i acc = Some out ->
  forall det, det ∈ out -> det ∈ acc \/ exists j, body j = Some (Some det).
Proof.
  induction n as [|n IH]; simpl; intros i acc out Hrun det Hin.
  - left. congruence.
  - destruct (body i) as [[d|]|] eqn:Hb; [| |discriminate].
    + destruct (IH _ _ _ Hrun det Hin) as [Hacc|Hj]; [|now right].
      apply elem_of_app in Hacc as [Hacc|Hd]; [now left|].
      apply list_elem_of_singleton in Hd. subst. right. eauto.
    + eauto.
Qed.

(** When no iteration skips or panics, the loop appends one detection
    per index, in index order. *)
Lemma detect_loop_total (n : nat) : forall i acc,
  (forall j, (i <= j < i + n)%nat -> exists det, body j = Some (Some det)) ->
  exists out,
    detect_loop body n i acc = Some (acc ++ out)
    /\ length out = n
    /\ forall k, (k < n)%nat ->
         exists det, out !! k = Some det /\ body (i + k)%nat = Some (Some det).
Proof.
  induction n as [|n IH]; simpl; intros i acc Hall.
  - exists []. rewrite app_nil_r. repeat split. intros k Hk. lia.
  - destruct (Hall i ltac:(lia)) as [d Hd]. rewrite Hd.
    destruct (IH (S i) (acc ++ [d])) as (out & Hrun & Hlen & Hk).
    { intros j Hj. apply Hall. lia. }
    exists (d :: out). rewrite Hrun, <- app_assoc. simpl.
    repeat split; [now rewrite Hlen|].
    intros [|k] Hlt; simpl.
    + exists d. now rewrite Nat.add_0_r.
    + destruct (Hk k ltac:(lia)) as (det & Hl & Hb).
      exists det. split; [assumption|]. now rewrite Nat.add_succ_r.
Qed.

End LoopFacts.

(** ** Boxes and order of the detections *)

Section BoxFacts.

Lemma tflite_cleanup_bounds (det : tflite.Detection) :
  let c := tflite.cleanup det in
  F32.ltb (tflite.Top c) F32.zero = false
  /\ F32.ltb (tflite.Left c) F32.zero = false
  /\ F32.gtb (tflite.Bottom c) F32.one = false
  /\ F32.gtb (tflite.Right c) F32.one = false.
Proof.
  simpl. repeat split.
  - destruct (F32.ltb (tflite.Top det) F32.zero) eqn:E; [reflexivity|exact E].
  - destruct (F32.ltb (tflite.Left det) F32.zero) eqn:E; [reflexivity|exact E].
  - destruct (F32.gtb (tflite.Bottom det) F32.one) eqn:E; [reflexivity|exact E].
  - destruct (F32.gtb (tflite.Right det) F32.one) eqn:E; [reflexivity|exact E].
Qed.

Lemma tensorflow_cleanup_bounds (imgConfig : tensorflow.Config)
    (det : tensorflow.Detection) :
  let c := tensorflow.cleanup imgConfig det in
  0 <= tensorflow.Y1 c /\ 0 <= tensorflow.X1 c
  /\ tensorflow.Y2 c <= F32.wrap32 (tensorflow.cfgHeight imgConfig)
  /\ tensorflow.X2 c <= F32.wrap32 (tensorflow.cfgWidth imgConfig).
Proof.
  simpl. repeat split.
  - destruct (Z.ltb_spec (tensorflow.Y1 det) 0); lia.
  - destruct (Z.ltb_spec (tensorflow.X1 det) 0); lia.
  - destruct (Z.ltb_spec (F32.wrap32 (tensorflow.cfgHeight imgConfig))
                (tensorflow.Y2 det)); lia.
  - destruct (Z.ltb_spec (F32.wrap32 (tensorflow.cfgWidth imgConfig))
                (tensorflow.X2 det)); lia.
Qed.

(** An appended detection went through "Cleanup the bounds". *)
Lemma tflite_candidate_cleaned d request b i det :
  tflite.candidate d request b i = Some (Some det) ->
  exists raw, det = tflite.cleanup raw.
Proof.
  unfold tflite.candidate. intros Hc.
  repeat (simplify_option_eq || case_match); eauto.
Qed.

Lemma tensorflow_candidate_cleaned d request imgConfig b i det :
  tensorflow.candidate d request imgConfig b i = Some (Some det) ->
  exists raw, det = tensorflow.cleanup imgConfig raw.
Proof.
  unfold tensorflow.candidate. intros Hc.
  repeat (simplify_option_eq || case_match); eauto.
Qed.

Lemma tflite_deferred_returns {A} (out : outcome A) i ch tr r w' :
  tflite.deferred out i ch tr = (Returns r, w') -> out = Returns r.
Proof.
  unfold tflite.deferred.
  destruct out; try discriminate; destruct (send ch i); congruence.
Qed.

Lemma tensorflow_deferred_returns {A} (out : outcome A) s ch tr r w' :
  tensorflow.deferred out s ch tr = (Returns r, w') -> out = Returns r.
Proof.
  unfold tensorflow.deferred.
  destruct out; try discriminate; destruct (send ch s); congruence.
Qed.

(** A response of the tflite [Detect] carries what the loop built from
    the tensors of a completed invocation. *)
Lemma tflite_Detect_returns h d request w resp w' :
  tflite.Detect h d request w = (Returns resp, w') ->
  exists b, tflite.detections_of d request b = Some (tflite.Detections resp).
Proof.
  unfold tflite.Detect.
  destruct (tflite.input_data h d request) as [data| | |]; try discriminate.
  destruct (recv (tflite.pool w)) as [i ch| |]; try discriminate.
  destruct (tflite.run h d request data i _) as [out tr] eqn:Hrun.
  intros Hd. apply tflite_deferred_returns in Hd. subst out.
  unfold tflite.run in Hrun.
  destruct (tflite.wait _ _); try discriminate.
  destruct (tflite.read_outputs _) as [b|] eqn:Hb; simpl in Hrun; [|discriminate].
  destruct (tflite.detections_of d request b) eqn:Hl; [|discriminate].
  exists b. injection Hrun as <- _. exact Hl.
Qed.

Lemma tensorflow_Detect_returns h d request w resp w' det :
  tensorflow.Detect h d request w = (Returns resp, w') ->
  det ∈ tensorflow.Detections resp ->
  exists imgConfig tensor b,
    tensorflow.prepare h (odrpc.Data request) = inr (imgConfig, tensor)
    /\ tensorflow.detections_of d request imgConfig b
       = Some (tensorflow.Detections resp).
Proof.
  unfold tensorflow.Detect.
  destruct (recv (tensorflow.pool w)) as [s ch| |]; try discriminate.
  destruct (tensorflow.run h d request s _) as [out tr] eqn:Hrun.
  intros Hd Hin. apply tensorflow_deferred_returns in Hd. subst out.
  unfold tensorflow.run in Hrun.
  destruct (tensorflow.prepare h _) as [msg|[imgConfig tensor]].
  { injection Hrun as <- _. simpl in Hin. inversion Hin. }
  destruct (tensorflow.Run h s tensor) as [o|].
  2:{ injection Hrun as <- _. simpl in Hin. inversion Hin. }
  destruct (tensorflow.read_outputs o) as [b|]; simpl in Hrun; [|discriminate].
  destruct (tensorflow.detections_of d request imgConfig b) eqn:Hl; [|discriminate].
  exists imgConfig, tensor, b. injection Hrun as <- _. now split.
Qed.

(** C2 (amended).  In every response of [Detect], the tflite boxes have
    [Top] and [Left] not below 0 and [Bottom] and [Right] not above 1;
    the tensorflow boxes have [Y1] and [X1] at least 0, [Y2] at most the
    image height and [X2] at most the image width.  These are the four
    comparisons "Cleanup the bounds" makes. *)
Theorem boxes_clipped :
  (forall h d request w resp w' det,
     tflite.Detect h d request w = (Returns resp, w') ->
     det ∈ tflite.Detections resp ->
     F32.ltb (tflite.Top det) F32.zero = false
     /\ F32.ltb (tflite.Left det) F32.zero = false
     /\ F32.gtb (tflite.Bottom det) F32.one = false
     /\ F32.gtb (tflite.Right det) F32.one = false)
  /\ (forall h d request w resp w' det imgConfig tensor,
     tensorflow.Detect h d request w = (Returns resp, w') ->
     det ∈ tensorflow.Detections resp ->
     tensorflow.prepare h (odrpc.Data request) = inr (imgConfig, tensor) ->
     0 <= tensorflow.Y1 det /\ 0 <= tensorflow.X1 det
     /\ tensorflow.Y2 det <= F32.wrap32 (tensorflow.cfgHeight imgConfig)
     /\ tensorflow.X2 det <= F32.wrap32 (tensorflow.cfgWidth imgConfig)).
Proof.
  split.
  - intros h d request w resp w' det Hd Hin.
    destruct (tflite_Detect_returns _ _ _ _ _ _ Hd) as [b Hl].
    destruct (detect_loop_origin _ _ _ _ _ Hl det Hin) as [Hnil|[j Hj]].
    { inversion Hnil. }
    destruct (tflite_candidate_cleaned _ _ _ _ _ Hj) as [raw ->].
    apply tflite_cleanup_bounds.
  - intros h d request w resp w' det imgConfig tensor Hd Hin Hp.
    destruct (tensorflow_Detect_returns _ _ _ _ _ _ _ Hd Hin)
      as (ic & t & b & Hp' & Hl).
    rewrite Hp in Hp'. injection Hp' as <- <-.
    destruct (detect_loop_origin _ _ _ _ _ Hl det Hin) as [Hnil|[j Hj]].
    { inversion Hnil. }
    destruct (tensorflow_candidate_cleaned _ _ _ _ _ _ Hj) as [raw ->].
    apply tensorflow_cleanup_bounds.
Qed.

Lemma boxes_clipped_witness :
  (F32.ltb (tflite.Top Samples.tflite_box) F32.zero = false
   /\ F32.ltb (tflite.Left Samples.tflite_box) F32.zero = false
   /\ F32.gtb (tflite.Bottom Samples.tflite_box) F32.one = false
   /\ F32.gtb (tflite.Right Samples.tflite_box) F32.one = false)
  /\ (0 <= tensorflow.Y1 Samples.tf_box /\ 0 <= tensorflow.X1 Samples.tf_box
      /\ tensorflow.Y2 Samples.tf_box <= F32.wrap32 100
      /\ tensorflow.X2 Samples.tf_box <= F32.wrap32 100).
Proof.
  split.
  - eapply (proj1 boxes_clipped (Samples.tflite_host (fun _ => true) (Some 5))
              (Samples.tflite_detector 0) (Samples.request Samples.png ∅)
              Samples.tflite_world).
    + vm_compute. reflexivity.
    + apply list_elem_of_here.
  - eapply (proj2 boxes_clipped (Samples.tf_host (fun _ => true))
              Samples.tf_detector (Samples.request Samples.png ∅)
              Samples.tf_world _ _ Samples.tf_box
              {| tensorflow.cfgWidth := 100; tensorflow.cfgHeight := 100 |}).
    + vm_compute. reflexivity.
    + apply list_elem_of_here.
    + vm_compute. reflexivity.
Defined.

(** C2 as stated fails.  A raw top of 1.02 and a raw bottom of -0.25 come
    out of the tflite [Detect] unchanged, above 1 and below 0; on a
    100 x 100 image the tensorflow [Detect] answers [Y1 = 150], beyond the
    height, and [Y2 = -25]. *)
Lemma box_outside_domain :
  fst (tflite.Detect (Samples.tflite_host (fun _ => true) (Some 5))
         (Samples.tflite_detector 0) (Samples.request Samples.png ∅)
         Samples.tflite_world)
  = Returns {| tflite.rId := "r1"; tflite.Detections := [Samples.tflite_box] |}
  /\ F32.gtb (tflite.Top Samples.tflite_box) F32.one = true
  /\ F32.ltb (tflite.Bottom Samples.tflite_box) F32.zero = true
  /\ fst (tensorflow.Detect (Samples.tf_host (fun _ => true))
            Samples.tf_detector (Samples.request Samples.png ∅) Samples.tf_world)
     = Returns {| tensorflow.rId := "r1";
                  tensorflow.Detections := [Samples.tf_box];
                  tensorflow.Error := "" |}
  /\ F32.wrap32 100 < tensorflow.Y1 Samples.tf_box
  /\ tensorflow.Y2 Samples.tf_box < 0.
Proof. vm_compute. repeat split. Qed.

End BoxFacts.

(** ** The empty filter spec *)

Section OrderFacts.

Lemma listed_empty (label : string) (score : option float32) :
  listed ∅ label score = Some true.
Proof. unfold listed. now rewrite !lookup_empty. Qed.

Lemma tflite_candidate_unfiltered d request b i :
  odrpc.Detect request = ∅ ->
  (i < length (tflite.classes b))%nat ->
  (i < length (tflite.scores b))%nat ->
  (i * 4 + 3 < length (tflite.locations b))%nat ->
  exists det s,
    tflite.candidate d request b i = Some (Some det)
    /\ tflite.scores b !! i = Some s
    /\ tflite.Confidence det = F32.mul s F32.hundred.
Proof.
  intros Hspec Hc Hs Hl.
  destruct (lookup_lt_is_Some_2 _ _ Hc) as [c Ec].
  destruct (lookup_lt_is_Some_2 _ _ Hs) as [s Es].
  destruct (lookup_lt_is_Some_2 (tflite.locations b) (i * 4)) as [l0 E0]; [lia|].
  destruct (lookup_lt_is_Some_2 (tflite.locations b) (i * 4 + 1)) as [l1 E1]; [lia|].
  destruct (lookup_lt_is_Some_2 (tflite.locations b) (i * 4 + 2)) as [l2 E2]; [lia|].
  destruct (lookup_lt_is_Some_2 (tflite.locations b) (i * 4 + 3)) as [l3 E3]; [lia|].
  unfold tflite.candidate.
  rewrite Ec. simpl. rewrite Hspec, listed_empty. simpl.
  rewrite E0, E1, E2, E3, Es. simpl.
  eexists _, s. repeat split.
Qed.

Lemma tensorflow_candidate_unfiltered d request imgConfig b i :
  odrpc.Detect request = ∅ ->
  (i < length (tensorflow.classes b))%nat ->
  (i < length (tensorflow.scores b))%nat ->
  (exists loc, tensorflow.locations b !! i = Some loc /\ (4 <= length loc)%nat) ->
  exists det s,
    tensorflow.candidate d request imgConfig b i = Some (Some det)
    /\ tensorflow.scores b !! i = Some s
    /\ tensorflow.Confidence det = F32.mul s F32.hundred.
Proof.
  intros Hspec Hc Hs (loc & El & Hl).
  destruct (lookup_lt_is_Some_2 _ _ Hc) as [c Ec].
  destruct (lookup_lt_is_Some_2 _ _ Hs) as [s Es].
  destruct (lookup_lt_is_Some_2 loc 0) as [l0 E0]; [lia|].
  destruct (lookup_lt_is_Some_2 loc 1) as [l1 E1]; [lia|].
  destruct (lookup_lt_is_Some_2 loc 2) as [l2 E2]; [lia|].
  destruct (lookup_lt_is_Some_2 loc 3) as [l3 E3]; [lia|].
  unfold tensorflow.candidate.
  rewrite Ec. simpl. rewrite Hspec, listed_empty. simpl.
  rewrite El. simpl. rewrite E0, E1, E2, E3, Es. simpl.
  eexists _, s. repeat split.
Qed.

(** C8.  Under an empty filter spec the loop turns the [count]
    candidates of the batch into [count] detections, the i-th detection
    being the one built from the i-th candidate, with confidence
    [scores[i] * 100].  The batch holds its [count] candidates: a class, a
    score and four box values each. *)
Theorem unfiltered_in_order :
  (forall d request b,
     odrpc.Detect request = ∅ ->
     let n := Z.to_nat (tflite.count b) in
     (n <= length (tflite.classes b))%nat ->
     (n <= length (tflite.scores b))%nat ->
     (4 * n <= length (tflite.locations b))%nat ->
     exists dets,
       tflite.detections_of d request b = Some dets
       /\ length dets = n
       /\ forall i, (i < n)%nat ->
            exists det s,
              dets !! i = Some det
              /\ tflite.candidate d request b i = Some (Some det)
              /\ tflite.scores b !! i = Some s
              /\ tflite.Confidence det = F32.mul s F32.hundred)
  /\ (forall d request imgConfig b,
     odrpc.Detect request = ∅ ->
     let n := Z.to_nat (tensorflow.count b) in
     (n <= length (tensorflow.classes b))%nat ->
     (n <= length (tensorflow.scores b))%nat ->
     (forall i, (i < n)%nat ->
        exists loc, tensorflow.locations b !! i = Some loc /\ (4 <= length loc)%nat) ->
     exists dets,
       tensorflow.detections_of d request imgConfig b = Some dets
       /\ length dets = n
       /\ forall i, (i < n)%nat ->
            exists det s,
              dets !! i = Some det
              /\ tensorflow.candidate d request imgConfig b i = Some (Some det)
              /\ tensorflow.scores b !! i = Some s
              /\ tensorflow.Confidence det = F32.mul s F32.hundred).
Proof.
  split.
  - intros d request b Hspec n Hc Hs Hl.
    assert (Hall : forall j, (j < n)%nat -> exists det s,
               tflite.candidate d request b j = Some (Some det)
               /\ tflite.scores b !! j = Some s
               /\ tflite.Confidence det = F32.mul s F32.hundred).
    { intros j Hj. apply tflite_candidate_unfiltered; [assumption|lia..]. }
    destruct (detect_loop_total (tflite.candidate d request b) n 0 [])
      as (out & Hrun & Hlen & Hk).
    { intros j Hj. destruct (Hall j ltac:(lia)) as (det & _ & Hb & _). eauto. }
    exists out. repeat split; [exact Hrun|exact Hlen|].
    intros i Hi. destruct (Hk i Hi) as (det & Hdet & Hb). simpl in Hb.
    destruct (Hall i Hi) as (det' & s & Hb' & Es & Hconf).
    rewrite Hb in Hb'. injection Hb' as <-.
    exists det, s. repeat split; assumption.
  - intros d request imgConfig b Hspec n Hc Hs Hl.
    assert (Hall : forall j, (j < n)%nat -> exists det s,
               tensorflow.candidate d request imgConfig b j = Some (Some det)
               /\ tensorflow.scores b !! j = Some s
               /\ tensorflow.Confidence det = F32.mul s F32.hundred).
    { intros j Hj. apply tensorflow_candidate_unfiltered; [assumption|lia..|auto]. }
    destruct (detect_loop_total (tensorflow.candidate d request imgConfig b) n 0 [])
      as (out & Hrun & Hlen & Hk).
    { intros j Hj. destruct (Hall j ltac:(lia)) as (det & _ & Hb & _). eauto. }
    exists out. repeat split; [exact Hrun|exact Hlen|].
    intros i Hi. destruct (Hk i Hi) as (det & Hdet & Hb). simpl in Hb.
    destruct (Hall i Hi) as (det' & s & Hb' & Es & Hconf).
    rewrite Hb in Hb'. injection Hb' as <-.
    exists det, s. repeat split; assumption.
Qed.

Lemma unfiltered_in_order_witness :
  (exists dets,
     tflite.detections_of (Samples.tflite_detector 0)
       (Samples.request Samples.png ∅) Samples.tflite_batch = Some dets
     /\ length dets = 1%nat
     /\ forall i, (i < 1)%nat ->
          exists det s,
            dets !! i = Some det
            /\ tflite.candidate (Samples.tflite_detector 0)
                 (Samples.request Samples.png ∅) Samples.tflite_batch i
               = Some (Some det)
            /\ tflite.scores Samples.tflite_batch !! i = Some s
            /\ tflite.Confidence det = F32.mul s F32.hundred)
  /\ (exists dets,
     tensorflow.detections_of Samples.tf_detector
       (Samples.request Samples.png ∅)
       {| tensorflow.cfgWidth := 100; tensorflow.cfgHeight := 100 |}
       Samples.tf_batch = Some dets
     /\ length dets = 1%nat).
Proof.
  split.
  - apply (proj1 unfiltered_in_order (Samples.tflite_detector 0)
             (Samples.request Samples.png ∅) Samples.tflite_batch);
      [reflexivity | simpl; lia ..].
  - destruct (proj2 unfiltered_in_order Samples.tf_detector
                (Samples.request Samples.png ∅)
                {| tensorflow.cfgWidth := 100; tensorflow.cfgHeight := 100 |}
                Samples.tf_batch) as (dets & Hrun & Hlen & _);
      [reflexivity | simpl; lia | simpl; lia | | eauto].
    intros i Hi. exists [Samples.f1_5; F32.zero; Samples.fm0_25; Samples.f0_5].
    destruct i as [|i]; [|simpl in Hi; lia]. split; [reflexivity|simpl; lia].
Defined.

End OrderFacts.

(** ** The pool *)

Section PoolFacts.

Context {H : Type}.
Implicit Types (ch : chan H) (ths : list (phase H)) (h : H).

Lemma recv_Received ch h ch' :
  recv ch = Received h ch' ->
  buf ch = h :: buf ch' /\ cap ch' = cap ch /\ closed ch' = closed ch.
Proof.
  unfold recv. destruct (buf ch) as [|x rest] eqn:E.
  - destruct (closed ch); discriminate.
  - intros [= -> <-]. auto.
Qed.

Lemma send_Sent ch h ch' :
  send ch h = Sent ch' ->
  buf ch' = buf ch ++ [h] /\ cap ch' = cap ch
  /\ closed ch = false /\ closed ch' = false.
Proof.
  unfold send. destruct (closed ch); [discriminate|].
  destruct (_ <? _); [|discriminate]. intros [= <-]. auto.
Qed.

(** A send on an open channel with a free slot goes through. *)
Lemma send_room ch h :
  closed ch = false -> Z.of_nat (length (buf ch)) < cap ch ->
  send ch h = Sent {| buf := buf ch ++ [h]; cap := cap ch; closed := false |}.
Proof.
  intros Hc Hlen. unfold send. rewrite Hc.
  destruct (Z.ltb_spec (Z.of_nat (length (buf ch))) (cap ch)); [reflexivity|lia].
Qed.

Lemma held_acquire ths : forall i h,
  ths !! i = Some Pending ->
  held (<[i := Acquired h]> ths) ≡ₚ h :: held ths.
Proof.
  induction ths as [|p ths IH]; intros [|i] h Hi; simpl in *; try discriminate.
  - injection Hi as ->. reflexivity.
  - destruct p; rewrite (IH i h Hi); [reflexivity|apply Permutation_swap|reflexivity].
Qed.

Lemma held_release ths : forall i h,
  ths !! i = Some (Acquired h) ->
  h :: held (<[i := Released]> ths) ≡ₚ held ths.
Proof.
  induction ths as [|p ths IH]; intros [|i] h Hi; simpl in *; try discriminate.
  - injection Hi as ->. reflexivity.
  - destruct p; try apply (IH i h Hi).
    rewrite Permutation_swap. now rewrite (IH i h Hi).
Qed.

Lemma held_pending (n : nat) : held (replicate n (@Pending H)) = [].
Proof. induction n; simpl; auto. Qed.

Lemma held_released ths : all_released ths -> held ths = [].
Proof. induction 1 as [|p ths -> _ IH]; simpl; auto. Qed.

(** The handles in the channel together with the handles held are the
    same collection after every step; capacity and openness stay. *)
Lemma pool_step_conserves ch ths ch' ths' :
  pool_step (ch, ths) (ch', ths') ->
  buf ch' ++ held ths' ≡ₚ buf ch ++ held ths
  /\ cap ch' = cap ch /\ closed ch' = closed ch.
Proof.
  inversion 1 as [? ? ? i h Hi Hr|? ? ? i h Hi Hs]; subst.
  - apply recv_Received in Hr as (Hb & Hc & Ho).
    rewrite Hb, held_acquire by assumption.
    split; [|auto]. simpl. now rewrite Permutation_middle.
  - apply send_Sent in Hs as (Hb & Hc & Ho & Ho').
    rewrite Hb, <- (held_release ths i h) by assumption.
    split; [|split; congruence].
    rewrite <- app_assoc. simpl. reflexivity.
Qed.

Lemma pool_steps_conserve (s0 s : chan H * list (phase H)) :
  pool_steps s0 s ->
  buf (fst s) ++ held (snd s) ≡ₚ buf (fst s0) ++ held (snd s0)
  /\ cap (fst s) = cap (fst s0) /\ closed (fst s) = closed (fst s0).
Proof.
  induction 1 as [s|s1 [ch2 ths2] [ch3 ths3] _ IH Hstep]; [auto|].
  destruct IH as (Hp & Hc & Ho).
  apply pool_step_conserves in Hstep as (Hp' & Hc' & Ho'). simpl in *.
  split; [now rewrite Hp'|split; congruence].
Qed.

End PoolFacts.

(** ** Acquire and release around a request *)

Section ReleaseFacts.

Lemma held_member {H} (ths : list (phase H)) : forall i h,
  ths !! i = Some (Acquired h) -> (1 <= length (held ths))%nat.
Proof.
  induction ths as [|p ths IH]; intros [|i] h Hi; simpl in *; try discriminate.
  - injection Hi as ->. simpl. lia.
  - specialize (IH i h Hi). destruct p; simpl; lia.
Qed.

(** After a receive there is room for the deferred send. *)
Lemma room_after_recv {H} (ch ch' : chan H) (h : H) :
  recv ch = Received h ch' ->
  closed ch = false ->
  Z.of_nat (length (buf ch)) <= cap ch ->
  send ch' h = Sent {| buf := buf ch' ++ [h]; cap := cap ch'; closed := false |}.
Proof.
  intros Hr Ho Hlen. apply recv_Received in Hr as (Hb & Hc & Ho').
  apply send_room; [congruence|].
  rewrite Hb in Hlen. simpl in Hlen. lia.
Qed.

Lemma tflite_run_blocks h d request data i tr s tr' :
  tflite.run h d request data i tr = (Blocks s, tr') -> s = OnInvoke.
Proof.
  unfold tflite.run. destruct (tflite.wait _ _); [|discriminate|congruence].
  destruct (_ ≫= _); discriminate.
Qed.

Lemma tflite_Detect_releases h d request w data i ch out w' :
  tflite.input_data h d request = Returns data ->
  recv (tflite.pool w) = Received i ch ->
  closed (tflite.pool w) = false ->
  Z.of_nat (length (buf (tflite.pool w))) <= cap (tflite.pool w) ->
  tflite.Detect h d request w = (out, w') ->
  match out with
  | Blocks s => s = OnInvoke /\ tflite.pool w' = ch
  | _ => send ch i = Sent (tflite.pool w')
  end.
Proof.
  intros Hin Hr Ho Hlen. unfold tflite.Detect. rewrite Hin, Hr.
  destruct (tflite.run h d request data i _) as [o tr] eqn:Hrun.
  pose proof (room_after_recv _ _ _ Hr Ho Hlen) as Hsend.
  unfold tflite.deferred.
  destruct o; rewrite ?Hsend; intros [= <- <-]; cbn [tflite.pool];
    try reflexivity.
  split; [|reflexivity]. eapply tflite_run_blocks, Hrun.
Qed.

Lemma tensorflow_run_exits h d request s tr o tr' :
  tensorflow.run h d request s tr = (o, tr') -> forall st, o <> Blocks st.
Proof.
  unfold tensorflow.run.
  destruct (tensorflow.prepare h _) as [msg|[imgConfig tensor]]; [congruence|].
  destruct (tensorflow.Run h s tensor); [|congruence].
  destruct (_ ≫= _); congruence.
Qed.

Lemma tensorflow_Detect_releases h d request w s ch out w' :
  recv (tensorflow.pool w) = Received s ch ->
  closed (tensorflow.pool w) = false ->
  Z.of_nat (length (buf (tensorflow.pool w))) <= cap (tensorflow.pool w) ->
  tensorflow.Detect h d request w = (out, w') ->
  (forall st, out <> Blocks st) /\ send ch s = Sent (tensorflow.pool w').
Proof.
  intros Hr Ho Hlen. unfold tensorflow.Detect. rewrite Hr.
  destruct (tensorflow.run h d request s _) as [o tr] eqn:Hrun.
  pose proof (room_after_recv _ _ _ Hr Ho Hlen) as Hsend.
  pose proof (tensorflow_run_exits _ _ _ _ _ _ _ Hrun) as Hex.
  unfold tensorflow.deferred.
  destruct o; rewrite ?Hsend; intros [= <- <-]; cbn [tensorflow.pool];
    try (split; [congruence|reflexivity]).
  now destruct (Hex at_).
Qed.

Lemma pool_restored {H} (ch0 ch : chan H) (N : nat) (ths : list (phase H)) :
  closed ch0 = false ->
  Z.of_nat (length (buf ch0)) <= cap ch0 ->
  pool_steps (ch0, replicate N Pending) (ch, ths) ->
  buf ch ++ held ths ≡ₚ buf ch0
  /\ (forall i h, ths !! i = Some (Acquired h) -> exists ch', send ch h = Sent ch')
  /\ (all_released ths ->
      buf ch ≡ₚ buf ch0 /\ length (buf ch) = length (buf ch0)).
Proof.
  intros Ho Hlen Hsteps.
  apply pool_steps_conserve in Hsteps as (Hp & Hc & Hcl). simpl in *.
  rewrite held_pending, app_nil_r in Hp.
  split; [exact Hp|split].
  - intros i h Hi. eexists. apply send_room; [congruence|].
    apply held_member in Hi. apply Permutation_length in Hp.
    rewrite length_app in Hp. lia.
  - intros Hall. rewrite (held_released _ Hall), app_nil_r in Hp.
    split; [exact Hp|now apply Permutation_length].
Qed.

(** C3.  A [Detect] that has received a handle from the open pool sends
    that same handle back, once, in its deferred function, whether it
    returns a response, returns an error (the timeout) or panics; only a
    request parked for ever on an invocation that never completes, with
    no timeout, keeps its handle.  The tensorflow [Detect] always comes
    back and sends its session back.  For any number of concurrent
    requests and any interleaving of their receives and sends, the handles
    in the channel and the handles held are together the original ones, a
    holder's send never blocks, and once every request has released the
    channel holds the original handles again. *)
Theorem handle_released_once :
  (forall h d request w data i ch out w',
     tflite.input_data h d request = Returns data ->
     recv (tflite.pool w) = Received i ch ->
     closed (tflite.pool w) = false ->
     Z.of_nat (length (buf (tflite.pool w))) <= cap (tflite.pool w) ->
     tflite.Detect h d request w = (out, w') ->
     match out with
     | Blocks s => s = OnInvoke /\ tflite.pool w' = ch
     | _ => send ch i = Sent (tflite.pool w')
     end)
  /\ (forall h d request w s ch out w',
     recv (tensorflow.pool w) = Received s ch ->
     closed (tensorflow.pool w) = false ->
     Z.of_nat (length (buf (tensorflow.pool w))) <= cap (tensorflow.pool w) ->
     tensorflow.Detect h d request w = (out, w') ->
     (forall st, out <> Blocks st) /\ send ch s = Sent (tensorflow.pool w'))
  /\ (forall (H : Type) (ch0 ch : chan H) (N : nat) (ths : list (phase H)),
     closed ch0 = false ->
     Z.of_nat (length (buf ch0)) <= cap ch0 ->
     pool_steps (ch0, replicate N Pending) (ch, ths) ->
     buf ch ++ held ths ≡ₚ buf ch0
     /\ (forall i h, ths !! i = Some (Acquired h) -> exists ch', send ch h = Sent ch')
     /\ (all_released ths ->
         buf ch ≡ₚ buf ch0 /\ length (buf ch) = length (buf ch0))).
Proof.
  split; [|split].
  - exact tflite_Detect_releases.
  - exact tensorflow_Detect_releases.
  - intros H. exact pool_restored.
Qed.

Lemma handle_released_once_witness :
  send {| buf := [Samples.interpreter 1]; cap := 2; closed := false |}
    (Samples.interpreter 0)
  = Sent (tflite.pool
            (snd (tflite.Detect (Samples.tflite_host (fun _ => true) None)
                    (Samples.tflite_detector 50)
                    (Samples.request Samples.png ∅) Samples.tflite_world)))
  /\ send {| buf := [1%nat]; cap := 2; closed := false |} 0%nat
     = Sent (tensorflow.pool
               (snd (tensorflow.Detect (Samples.tf_host (fun _ => true))
                       Samples.tf_detector (Samples.request [] ∅)
                       Samples.tf_world)))
  /\ [1%nat; 0%nat] ≡ₚ [0%nat; 1%nat].
Proof.
  split; [|split].
  - apply (proj1 handle_released_once (Samples.tflite_host (fun _ => true) None)
             (Samples.tflite_detector 50) (Samples.request Samples.png ∅)
             Samples.tflite_world [] (Samples.interpreter 0) _
             (Fails (Status Internal "detect failed")));
      try reflexivity; simpl; lia.
  - apply (proj1 (proj2 handle_released_once) (Samples.tf_host (fun _ => true))
             Samples.tf_detector (Samples.request [] ∅) Samples.tf_world
             0%nat _ (Returns (tensorflow.failed (Samples.request [] ∅)
                                 "Could not decode image")));
      try reflexivity; simpl; lia.
  - apply (proj2 (proj2 handle_released_once) nat
             {| buf := [0%nat; 1%nat]; cap := 2; closed := false |}
             {| buf := [1%nat; 0%nat]; cap := 2; closed := false |}
             1%nat [Released]); try reflexivity.
    + eapply steps_more; [eapply steps_more; [apply steps_refl|]|].
      * eapply (step_acquire _ _ [Pending] 0%nat 0%nat); reflexivity.
      * eapply (step_release _ _ [Acquired 0%nat] 0%nat 0%nat); reflexivity.
    + repeat constructor.
Defined.

End ReleaseFacts.

(** ** Requests that fail *)

Section FailureFacts.

(** C7.  When the request's bytes do not decode (and are not PPM data
    of the detector's size, which is never decoded), the tflite [Detect]
    returns an [InvalidArgument] status and leaves the world as it was: it
    has not yet touched the pool.  The tensorflow [Detect], which takes a
    session first, answers with the decode error in the response, runs
    nothing on the session, and has sent the session back when it
    returns: the pool holds the same sessions. *)
Theorem undecodable_image :
  (forall h d request w,
     tflite.image_Decode h (odrpc.Data request) = None ->
     (forall p, tflite.FindPPMData h (odrpc.Data request) = Some p ->
                tflite.ppm_fits d p = false) ->
     tflite.Detect h d request w
     = (Fails (Status InvalidArgument "could not decode image"), w))
  /\ (forall h d request w s ch,
     tensorflow.DecodeConfig h (odrpc.Data request) = None
     \/ (exists imgConfig imgType,
           tensorflow.DecodeConfig h (odrpc.Data request) = Some (imgConfig, imgType)
           /\ tensorflow.supported imgType = false
           /\ tensorflow.IMDecode h (odrpc.Data request) = None) ->
     recv (tensorflow.pool w) = Received s ch ->
     closed (tensorflow.pool w) = false ->
     Z.of_nat (length (buf (tensorflow.pool w))) <= cap (tensorflow.pool w) ->
     exists w',
       tensorflow.Detect h d request w
       = (Returns (tensorflow.failed request "Could not decode image"), w')
       /\ tensorflow.trace w' = tensorflow.trace w
       /\ send ch s = Sent (tensorflow.pool w')
       /\ buf (tensorflow.pool w') ≡ₚ buf (tensorflow.pool w)
       /\ length (buf (tensorflow.pool w')) = length (buf (tensorflow.pool w))).
Proof.
  split.
  - intros h d request w Hdec Hppm. unfold tflite.Detect, tflite.input_data.
    rewrite Hdec.
    destruct (tflite.FindPPMData h _) as [p|]; [|reflexivity].
    now rewrite (Hppm p eq_refl).
  - intros h d request w s ch Hdec Hr Ho Hlen.
    pose proof (room_after_recv _ _ _ Hr Ho Hlen) as Hsend.
    assert (Hprep : tensorflow.prepare h (odrpc.Data request)
                    = inl "Could not decode image").
    { unfold tensorflow.prepare.
      destruct Hdec as [->|(ic & ty & -> & -> & ->)]; reflexivity. }
    unfold tensorflow.Detect, tensorflow.run. rewrite Hr, Hprep.
    unfold tensorflow.deferred. rewrite Hsend.
    eexists. split; [reflexivity|]. cbn [tensorflow.pool tensorflow.trace buf].
    apply recv_Received in Hr as (Hb & _ & _). rewrite Hb.
    repeat split.
    + symmetry. apply Permutation_cons_append.
    + rewrite length_app. simpl. lia.
Qed.

Lemma undecodable_image_witness :
  tflite.Detect (Samples.tflite_host (fun _ => true) (Some 5))
    (Samples.tflite_detector 0) (Samples.request [] ∅) Samples.tflite_world
  = (Fails (Status InvalidArgument "could not decode image"), Samples.tflite_world)
  /\ exists w',
       tensorflow.Detect (Samples.tf_host (fun _ => true)) Samples.tf_detector
         (Samples.request [] ∅) Samples.tf_world
       = (Returns (tensorflow.failed (Samples.request [] ∅) "Could not decode image"), w')
       /\ tensorflow.trace w' = tensorflow.trace Samples.tf_world.
Proof.
  split.
  - apply (proj1 undecodable_image); [reflexivity|].
    intros p Hp. discriminate Hp.
  - destruct (proj2 undecodable_image (Samples.tf_host (fun _ => true))
                Samples.tf_detector (Samples.request [] ∅) Samples.tf_world
                0%nat {| buf := [1%nat]; cap := 2; closed := false |})
      as (w' & Hd & Ht & _);
      [left; reflexivity | reflexivity | reflexivity | simpl; lia |].
    exists w'. now split.
Defined.

End FailureFacts.

(** ** The invocation timeout *)

Section TimeoutFacts.

Lemma wait_timed_out tmo inv :
  0 < tmo ->
  tflite.finish inv = None \/ (exists t, tflite.finish inv = Some t /\ tmo < t) ->
  tflite.wait tmo inv = tflite.TimedOut.
Proof.
  intros Hpos Hfin. unfold tflite.wait.
  destruct (Z.ltb_spec 0 tmo); [|lia].
  destruct Hfin as [->|(t & -> & Ht)]; [reflexivity|].
  destruct (Z.ltb_spec t tmo); [lia|].
  destruct (Z.ltb_spec tmo t); [reflexivity|lia].
Qed.

Lemma wait_without_timer tmo inv :
  tmo <= 0 ->
  tflite.wait tmo inv
  = match tflite.finish inv with
    | Some _ => tflite.Completed
    | None => tflite.Stuck
    end.
Proof.
  intros Hz. unfold tflite.wait. destruct (Z.ltb_spec 0 tmo); [lia|reflexivity].
Qed.

(** With a timer armed the wait always ends. *)
Lemma wait_with_timer tmo inv :
  0 < tmo -> tflite.wait tmo inv <> tflite.Stuck.
Proof.
  intros Hpos. unfold tflite.wait. destruct (Z.ltb_spec 0 tmo); [|lia].
  destruct (tflite.finish inv) as [t|]; [|discriminate].
  destruct (t <? tmo); [discriminate|].
  destruct (tmo <? t); [discriminate|].
  destruct (tflite.timer_wins_tie inv); discriminate.
Qed.

(** C4.  A request holds interpreter [i] and its input [data] is ready.
    With [d.timeout > 0] and an invocation that is still running when the
    timer fires, [Detect] returns the [Internal] status "detect failed"
    after calling [conf.Stop.Stop()]; it never receives from [complete]
    (the goroutine is left behind) and its deferred function still sends
    [i] back.  With [d.timeout <= 0] there is no timer: [Detect] is parked
    for ever if the invocation never completes, and otherwise goes on,
    however long the invocation took, to read the tensors, without
    calling [conf.Stop.Stop()]. *)
Theorem timeout_race h d request w data i ch :
  tflite.input_data h d request = Returns data ->
  recv (tflite.pool w) = Received i ch ->
  closed (tflite.pool w) = false ->
  Z.of_nat (length (buf (tflite.pool w))) <= cap (tflite.pool w) ->
  let inv := tflite.Invoke h i data in
  let id := tflite.Interpreter i in
  let started :=
    tflite.trace w
    ++ [tflite.EvStopAdd; tflite.EvCopyFromBuffer id data; tflite.EvInvoke id] in
  let back := {| buf := buf ch ++ [i]; cap := cap ch; closed := false |} in
  (0 < tflite.timeout d ->
   tflite.finish inv = None
   \/ (exists t, tflite.finish inv = Some t /\ tflite.timeout d < t) ->
   tflite.Detect h d request w
   = (Fails (Status Internal "detect failed"),
      {| tflite.pool := back;
         tflite.trace := started ++ [tflite.EvStopStop; tflite.EvStopDone] |}))
  /\ (tflite.timeout d <= 0 ->
      (tflite.finish inv = None ->
       tflite.Detect h d request w
       = (Blocks OnInvoke, {| tflite.pool := ch; tflite.trace := started |}))
      /\ (forall t, tflite.finish inv = Some t ->
          exists out,
            tflite.Detect h d request w
            = (out, {| tflite.pool := back;
                       tflite.trace :=
                         started ++ [tflite.EvComplete id; tflite.EvStopDone] |})
            /\ (out = Panics \/ exists resp, out = Returns resp))).
Proof.
  intros Hin Hr Ho Hlen inv id started back.
  pose proof (room_after_recv _ _ _ Hr Ho Hlen) as Hsend.
  unfold tflite.Detect, tflite.run. rewrite Hin, Hr. fold inv id.
  split; [|intros Hz; split].
  - intros Hpos Hfin. rewrite (wait_timed_out _ _ Hpos Hfin).
    unfold tflite.deferred. rewrite Hsend. subst started back.
    f_equal. f_equal. now rewrite <- !app_assoc.
  - intros Hfin. rewrite (wait_without_timer _ _ Hz), Hfin. simpl.
    subst started. f_equal. f_equal. now rewrite <- !app_assoc.
  - intros t Hfin. rewrite (wait_without_timer _ _ Hz), Hfin.
    destruct (_ ≫= _) as [dets|]; unfold tflite.deferred; rewrite Hsend;
      eexists; (split; [subst started back; f_equal; f_equal;
                        now rewrite <- !app_assoc | eauto]).
Qed.

Lemma timeout_race_witness :
  tflite.Detect (Samples.tflite_host (fun _ => true) None)
    (Samples.tflite_detector 50) (Samples.request Samples.png ∅)
    Samples.tflite_world
  = (Fails (Status Internal "detect failed"),
     {| tflite.pool := {| buf := [Samples.interpreter 1; Samples.interpreter 0];
                          cap := 2; closed := false |};
        tflite.trace := [tflite.EvStopAdd; tflite.EvCopyFromBuffer 0 [];
                         tflite.EvInvoke 0; tflite.EvStopStop;
                         tflite.EvStopDone] |})
  /\ tflite.Detect (Samples.tflite_host (fun _ => true) None)
       (Samples.tflite_detector 0) (Samples.request Samples.png ∅)
       Samples.tflite_world
     = (Blocks OnInvoke,
        {| tflite.pool := {| buf := [Samples.interpreter 1]; cap := 2;
                             closed := false |};
           tflite.trace := [tflite.EvStopAdd; tflite.EvCopyFromBuffer 0 [];
                            tflite.EvInvoke 0] |})
  /\ exists out,
       tflite.Detect (Samples.tflite_host (fun _ => true) (Some (3600 * tflite.second)))
         (Samples.tflite_detector 0) (Samples.request Samples.png ∅)
         Samples.tflite_world
       = (out,
          {| tflite.pool := {| buf := [Samples.interpreter 1; Samples.interpreter 0];
                               cap := 2; closed := false |};
             tflite.trace := [tflite.EvStopAdd; tflite.EvCopyFromBuffer 0 [];
                              tflite.EvInvoke 0; tflite.EvComplete 0;
                              tflite.EvStopDone] |})
       /\ (out = Panics \/ exists resp, out = Returns resp).
Proof.
  split; [|split].
  3:{ apply (proj2 (proj2 (timeout_race
                      (Samples.tflite_host (fun _ => true) (Some (3600 * tflite.second)))
                      (Samples.tflite_detector 0) (Samples.request Samples.png ∅)
                      Samples.tflite_world [] (Samples.interpreter 0)
                      {| buf := [Samples.interpreter 1]; cap := 2; closed := false |}
                      eq_refl eq_refl eq_refl ltac:(simpl; lia))
                      ltac:(simpl; lia)) (3600 * tflite.second)).
      reflexivity. }
  - apply (proj1 (timeout_race (Samples.tflite_host (fun _ => true) None)
                    (Samples.tflite_detector 50) (Samples.request Samples.png ∅)
                    Samples.tflite_world [] (Samples.interpreter 0)
                    {| buf := [Samples.interpreter 1]; cap := 2; closed := false |}
                    eq_refl eq_refl eq_refl ltac:(simpl; lia)));
      [simpl; lia | left; reflexivity].
  - apply (proj1 (proj2 (timeout_race (Samples.tflite_host (fun _ => true) None)
                    (Samples.tflite_detector 0) (Samples.request Samples.png ∅)
                    Samples.tflite_world [] (Samples.interpreter 0)
                    {| buf := [Samples.interpreter 1]; cap := 2; closed := false |}
                    eq_refl eq_refl eq_refl ltac:(simpl; lia))
                    ltac:(simpl; lia)));
      reflexivity.
Defined.

End TimeoutFacts.

(** ** Construction of the pool *)

Section ConstructionFacts.

Import dconfig.

(** [newInterpreter] decides without looking at the trace, and adds at
    most the creation of interpreter [x] to it. *)
Lemma newInterpreter_trace h x dev tr :
  exists evs,
    tflite.newInterpreter h x dev tr
    = (fst (tflite.newInterpreter h x dev []), tr ++ evs)
    /\ (evs = [] \/ evs = [tflite.EvNewInterpreter x])
    /\ (forall id, fst (tflite.newInterpreter h x dev []) = inr id ->
          id = x /\ evs = [tflite.EvNewInterpreter x]).
Proof.
  unfold tflite.newInterpreter.
  destruct (negb _).
  { exists []. rewrite app_nil_r. repeat split; auto; discriminate. }
  destruct (negb (tflite.NewInterpreter h x)).
  { exists []. rewrite app_nil_r. repeat split; auto; discriminate. }
  destruct (negb (tflite.AllocateTensors h x)); simpl.
  - exists [tflite.EvNewInterpreter x]. repeat split; auto; discriminate.
  - exists [tflite.EvNewInterpreter x]. repeat split; auto; congruence.
Qed.

Lemma create_pool_keeps_trace h hw devs (n : nat) : forall x last w out w',
  tflite.create_pool h hw devs n x last w = (out, w') ->
  forall e, e ∈ tflite.trace w -> e ∈ tflite.trace w'.
Proof.
  induction n as [|n IH]; intros x last w out w'; simpl.
  - intros [= _ <-]. auto.
  - destruct (tflite.slot hw devs x) as [[ptr dev]|]; [|intros [= _ <-]; auto].
    destruct (newInterpreter_trace h x dev (tflite.trace w)) as (evs & -> & _ & _).
    destruct (fst _) as [err|id]; [intros [= _ <-] e He; simpl; set_solver|].
    destruct (send _ _) as [ch| |];
      [|intros [= _ <-] e He; simpl; set_solver..].
    intros Hrun e He. apply (IH _ _ _ _ _ Hrun). simpl. set_solver.
Qed.

Lemma create_pool_fails h hw devs err (k : nat) : forall n x last w,
  (k < n)%nat ->
  closed (tflite.pool w) = false ->
  Z.of_nat (length (buf (tflite.pool w)) + k) <= cap (tflite.pool w) ->
  (forall j, (j < k)%nat -> tflite.attempt h hw devs (x + j) = Some (inr (x + j)%nat)) ->
  tflite.attempt h hw devs (x + k) = Some (inl err) ->
  exists w',
    tflite.create_pool h hw devs n x last w = (Fails err, w')
    /\ buf (tflite.pool w')
       = buf (tflite.pool w) ++ List.map (tflite.pooled hw) (seq x k)
    /\ tflite.only_creations (tflite.trace w) (tflite.trace w')
    /\ (forall j, (j < k)%nat ->
          tflite.EvNewInterpreter (x + j) ∈ tflite.trace w').
Proof.
  induction k as [|k IH]; intros n x last w Hk Ho Hroom Hok Hbad;
    (destruct n as [|n]; [lia|]); simpl.
  - rewrite Nat.add_0_r in Hbad. unfold tflite.attempt in Hbad.
    destruct (tflite.slot hw devs x) as [[ptr dev]|]; [|discriminate].
    destruct (newInterpreter_trace h x dev (tflite.trace w)) as (evs & -> & Hevs & _).
    injection Hbad as ->.
    eexists. split; [reflexivity|]. simpl. rewrite app_nil_r.
    repeat split; [|intros j Hj; lia].
    intros e He. apply elem_of_app in He as [He|He]; [now left|].
    destruct Hevs as [->| ->]; [inversion He|].
    apply list_elem_of_singleton in He. right. eauto.
  - pose proof (Hok 0%nat ltac:(lia)) as H0. rewrite Nat.add_0_r in H0.
    unfold tflite.attempt in H0.
    destruct (tflite.slot hw devs x) as [[ptr dev]|] eqn:Hslot; [|discriminate].
    destruct (newInterpreter_trace h x dev (tflite.trace w)) as (evs & -> & _ & Hid).
    injection H0 as H0. rewrite H0. destruct (Hid _ H0) as [_ Hevs]. subst evs.
    assert (Hptr : {| tflite.device := ptr; tflite.Interpreter := x |}
                   = tflite.pooled hw x).
    { unfold tflite.slot in Hslot. unfold tflite.pooled.
      destruct hw; [destruct (devs !! x)|]; congruence. }
    rewrite Hptr, send_room by (assumption || lia).
    destruct (IH n (S x) (Some (tflite.pooled hw x))
                {| tflite.pool := {| buf := buf (tflite.pool w) ++ [tflite.pooled hw x];
                                     cap := cap (tflite.pool w); closed := false |};
                   tflite.trace := tflite.trace w ++ [tflite.EvNewInterpreter x] |})
      as (w' & Hrun & Hbuf & Htr & Hnew).
    + lia.
    + reflexivity.
    + simpl. rewrite length_app. simpl. lia.
    + intros j Hj. rewrite Nat.add_succ_l, <- Nat.add_succ_r. apply Hok. lia.
    + now rewrite Nat.add_succ_l, <- Nat.add_succ_r.
    + exists w'. split; [exact Hrun|]. simpl in *.
      split; [now rewrite Hbuf, <- app_assoc|]. split.
      * intros e He. destruct (Htr e He) as [Hin|Hc]; [|now right].
        apply elem_of_app in Hin as [Hin|Hin]; [now left|].
        apply list_elem_of_singleton in Hin. right. eauto.
      * intros [|j] Hj.
        -- rewrite Nat.add_0_r.
           apply (create_pool_keeps_trace _ _ _ _ _ _ _ _ _ Hrun). simpl.
           apply elem_of_app. right. apply list_elem_of_here.
        -- rewrite Nat.add_succ_r, <- Nat.add_succ_l. apply Hnew. lia.
Qed.

Lemma create_sessions_fails h (k : nat) : forall n x w,
  (k < n)%nat ->
  closed (tensorflow.pool w) = false ->
  Z.of_nat (length (buf (tensorflow.pool w)) + k) <= cap (tensorflow.pool w) ->
  (forall j, (j < k)%nat -> tensorflow.NewSession h (x + j) = true) ->
  tensorflow.NewSession h (x + k) = false ->
  exists w',
    tensorflow.create_sessions h n x w
    = (Fails (Errorf "Could not create session"), w')
    /\ buf (tensorflow.pool w') = buf (tensorflow.pool w) ++ seq x k
    /\ tensorflow.trace w'
       = tensorflow.trace w ++ List.map tensorflow.EvNewSession (seq x k).
Proof.
  induction k as [|k IH]; intros n x w Hk Ho Hroom Hok Hbad;
    (destruct n as [|n]; [lia|]); simpl.
  - rewrite Nat.add_0_r in Hbad. rewrite Hbad. simpl.
    exists w. now rewrite !app_nil_r.
  - pose proof (Hok 0%nat ltac:(lia)) as H0. rewrite Nat.add_0_r in H0.
    rewrite H0. simpl. rewrite send_room by (assumption || lia).
    destruct (IH n (S x)
                {| tensorflow.pool := {| buf := buf (tensorflow.pool w) ++ [x];
                                         cap := cap (tensorflow.pool w);
                                         closed := false |};
                   tensorflow.trace := tensorflow.trace w ++ [tensorflow.EvNewSession x] |})
      as (w' & Hrun & Hbuf & Htr).
    + lia.
    + reflexivity.
    + simpl. rewrite length_app. simpl. lia.
    + intros j Hj. rewrite Nat.add_succ_l, <- Nat.add_succ_r. apply Hok. lia.
    + now rewrite Nat.add_succ_l, <- Nat.add_succ_r.
    + exists w'. split; [exact Hrun|]. simpl in *.
      now rewrite Hbuf, Htr, <- !app_assoc.
Qed.

(** C9 (amended).  When the construction of a worker handle fails, [New]
    returns that error and no detector.  It destroys nothing: the handles
    built before the failure are still in the channel that [New] leaves
    behind, and the trace holds their creations and no [Delete] (tflite)
    or [Close] (tensorflow). *)
Theorem failed_construction :
  (forall h c lines devs c1 type tmo (k : nat) err,
     0 <= NumConcurrent c ->
     tflite.NewModelFromFile h (ModelFile c) = true ->
     tflite.label_lines h (LabelFile c) = Some lines ->
     tflite.edgetpu_setup h c = inr (devs, c1, type, tmo) ->
     (k < Z.to_nat (NumConcurrent c1))%nat ->
     Z.of_nat k <= NumConcurrent c ->
     (forall j, (j < k)%nat -> tflite.attempt h (HWAccel c) devs j = Some (inr j)) ->
     tflite.attempt h (HWAccel c) devs k = Some (inl err) ->
     exists w,
       tflite.New h c = (Fails err, w, c1)
       /\ buf (tflite.pool w) = List.map (tflite.pooled (HWAccel c)) (seq 0 k)
       /\ (forall j, (j < k)%nat -> tflite.EvNewInterpreter j ∈ tflite.trace w)
       /\ (forall id, tflite.EvDelete id ∉ tflite.trace w))
  /\ (forall h c lines (k : nat),
     0 <= NumConcurrent c ->
     tensorflow.label_lines h (LabelFile c) = Some lines ->
     tensorflow.ReadFile h (ModelFile c) = true ->
     tensorflow.graph_Import h = true ->
     (k < Z.to_nat (NumConcurrent c))%nat ->
     (forall j, (j < k)%nat -> tensorflow.NewSession h j = true) ->
     tensorflow.NewSession h k = false ->
     exists w,
       tensorflow.New h c = (Fails (Errorf "Could not create session"), w)
       /\ buf (tensorflow.pool w) = seq 0 k
       /\ tensorflow.trace w = List.map tensorflow.EvNewSession (seq 0 k)
       /\ (forall id, tensorflow.EvClose id ∉ tensorflow.trace w)).
Proof.
  split.
  - intros h c lines devs c1 type tmo k err Hn Hmodel Hlabels Hsetup Hk Hroom Hok Hbad.
    unfold tflite.New, make_chan.
    destruct (Z.ltb_spec (NumConcurrent c) 0); [lia|].
    rewrite Hmodel, Hlabels, Hsetup. simpl.
    destruct (create_pool_fails h (HWAccel c) devs err k
                (Z.to_nat (NumConcurrent c1)) 0 None
                {| tflite.pool := {| buf := []; cap := NumConcurrent c; closed := false |};
                   tflite.trace := [] |})
      as (w & Hrun & Hbuf & Htr & Hnew);
      [assumption | reflexivity | simpl; lia | exact Hok | exact Hbad |].
    exists w. rewrite Hrun. repeat split; try assumption.
    intros id Hin. destruct (Htr _ Hin) as [Hnil|[id' Heq]];
      [inversion Hnil|discriminate].
  - intros h c lines k Hn Hlabels Hread Himport Hk Hok Hbad.
    unfold tensorflow.New, make_chan.
    destruct (Z.ltb_spec (NumConcurrent c) 0); [lia|].
    rewrite Hlabels, Hread, Himport. simpl.
    destruct (create_sessions_fails h k (Z.to_nat (NumConcurrent c)) 0
                {| tensorflow.pool := {| buf := []; cap := NumConcurrent c;
                                         closed := false |};
                   tensorflow.trace := [] |})
      as (w & Hrun & Hbuf & Htr);
      [assumption | reflexivity | simpl; lia | exact Hok | exact Hbad |].
    exists w. rewrite Hrun. repeat split; try assumption.
    intros id Hin. rewrite Htr in Hin. simpl in Hin.
    apply list_elem_of_fmap in Hin as (x & Hx & _). discriminate.
Qed.

Lemma failed_construction_witness :
  (exists w,
     tflite.New (Samples.tflite_host (fun x => negb (x =? 1)%nat) (Some 5))
       (Samples.detector_config false 2 0)
     = (Fails (Errorf "interpreter allocate failed"), w,
        Samples.detector_config false 2 0)
     /\ buf (tflite.pool w) = [tflite.pooled false 0])
  /\ (exists w,
     tensorflow.New (Samples.tf_host (fun x => negb (x =? 1)%nat))
       (Samples.detector_config false 2 0)
     = (Fails (Errorf "Could not create session"), w)
     /\ buf (tensorflow.pool w) = [0%nat]).
Proof.
  split.
  - destruct (proj1 failed_construction
                (Samples.tflite_host (fun x => negb (x =? 1)%nat) (Some 5))
                (Samples.detector_config false 2 0) Samples.label_lines
                [] (Samples.detector_config false 2 0) "tflite" 0 1%nat
                (Errorf "interpreter allocate failed"))
      as (w & Hnew & Hbuf & _);
      [simpl; lia | reflexivity | reflexivity | reflexivity | simpl; lia
      | simpl; lia | | reflexivity | eauto].
    intros j Hj. destruct j as [|j]; [reflexivity|lia].
  - destruct (proj2 failed_construction
                (Samples.tf_host (fun x => negb (x =? 1)%nat))
                (Samples.detector_config false 2 0) Samples.label_lines 1%nat)
      as (w & Hnew & Hbuf & _);
      [simpl; lia | reflexivity | reflexivity | reflexivity | simpl; lia
      | | reflexivity | eauto].
    intros j Hj. destruct j as [|j]; [reflexivity|lia].
Defined.

(** C9 as stated fails.  The second interpreter does not allocate its
    tensors: [New] returns the error, and neither interpreter 0, still in
    the channel, nor interpreter 1 has been deleted.  The second
    tensorflow session cannot be created: session 0 stays in the channel,
    not closed. *)
Lemma handles_left_behind :
  tflite.New (Samples.tflite_host (fun x => negb (x =? 1)%nat) (Some 5))
    (Samples.detector_config false 2 0)
  = (Fails (Errorf "interpreter allocate failed"),
     {| tflite.pool := {| buf := [tflite.pooled false 0]; cap := 2;
                          closed := false |};
        tflite.trace := [tflite.EvNewInterpreter 0; tflite.EvNewInterpreter 1] |},
     Samples.detector_config false 2 0)
  /\ tensorflow.New (Samples.tf_host (fun x => negb (x =? 1)%nat))
       (Samples.detector_config false 2 0)
     = (Fails (Errorf "Could not create session"),
        {| tensorflow.pool := {| buf := [0%nat]; cap := 2; closed := false |};
           tensorflow.trace := [tensorflow.EvNewSession 0] |}).
Proof. split; reflexivity. Qed.

(** An iteration whose interpreter is built goes on to the send. *)
Lemma create_pool_step h hw devs (n x : nat) last w :
  tflite.attempt h hw devs x = Some (inr x) ->
  tflite.create_pool h hw devs (S n) x last w
  = let tr := tflite.trace w ++ [tflite.EvNewInterpreter x] in
    match send (tflite.pool w) (tflite.pooled hw x) with
    | Sent ch =>
        tflite.create_pool h hw devs n (S x) (Some (tflite.pooled hw x))
          {| tflite.pool := ch; tflite.trace := tr |}
    | SendPanics => (Panics, {| tflite.pool := tflite.pool w; tflite.trace := tr |})
    | SendBlocks => (Blocks OnSend, {| tflite.pool := tflite.pool w; tflite.trace := tr |})
    end.
Proof.
  intros Hok. simpl. unfold tflite.attempt in Hok.
  destruct (tflite.slot hw devs x) as [[ptr dev]|] eqn:Hslot; [|discriminate].
  destruct (newInterpreter_trace h x dev (tflite.trace w)) as (evs & -> & _ & Hid).
  injection Hok as Hok. rewrite Hok. destruct (Hid _ Hok) as [_ Hevs]. subst evs.
  replace {| tflite.device := ptr; tflite.Interpreter := x |}
    with (tflite.pooled hw x); [reflexivity|].
  unfold tflite.slot in Hslot. unfold tflite.pooled.
  destruct hw; [destruct (devs !! x)|]; congruence.
Qed.

(** The loop parks on the send that finds the channel full. *)
Lemma create_pool_parks h hw devs (k : nat) : forall n x last w,
  (k < n)%nat ->
  closed (tflite.pool w) = false ->
  Z.of_nat (length (buf (tflite.pool w)) + k) = cap (tflite.pool w) ->
  (forall j, (j <= k)%nat -> tflite.attempt h hw devs (x + j) = Some (inr (x + j)%nat)) ->
  exists w',
    tflite.create_pool h hw devs n x last w = (Blocks OnSend, w')
    /\ buf (tflite.pool w')
       = buf (tflite.pool w) ++ List.map (tflite.pooled hw) (seq x k).
Proof.
  induction k as [|k IH]; intros n x last w Hk Ho Hfull Hok;
    (destruct n as [|n]; [lia|]);
    pose proof (Hok 0%nat ltac:(lia)) as H0; rewrite Nat.add_0_r in H0;
    rewrite (create_pool_step _ _ _ _ _ _ _ H0); cbv zeta.
  - unfold send. rewrite Ho.
    destruct (Z.ltb_spec (Z.of_nat (length (buf (tflite.pool w)))) (cap (tflite.pool w)));
      [lia|].
    eexists. split; [reflexivity|]. simpl. now rewrite app_nil_r.
  - rewrite send_room by (assumption || lia).
    destruct (IH n (S x) (Some (tflite.pooled hw x))
                {| tflite.pool := {| buf := buf (tflite.pool w) ++ [tflite.pooled hw x];
                                     cap := cap (tflite.pool w); closed := false |};
                   tflite.trace := tflite.trace w ++ [tflite.EvNewInterpreter x] |})
      as (w' & Hrun & Hbuf).
    + lia.
    + reflexivity.
    + simpl. rewrite length_app. simpl. lia.
    + intros j Hj. rewrite Nat.add_succ_l, <- Nat.add_succ_r. apply Hok. lia.
    + exists w'. split; [exact Hrun|]. simpl in *.
      now rewrite Hbuf, <- app_assoc.
Qed.

(** With room for all of them, the loop puts one handle per iteration in
    the channel, in order. *)
Lemma create_pool_fills h hw devs (n : nat) : forall x last w,
  closed (tflite.pool w) = false ->
  Z.of_nat (length (buf (tflite.pool w)) + n) <= cap (tflite.pool w) ->
  (forall j, (j < n)%nat -> tflite.attempt h hw devs (x + j) = Some (inr (x + j)%nat)) ->
  exists l w',
    tflite.create_pool h hw devs n x last w = (Returns l, w')
    /\ (n <> 0%nat -> l = Some (tflite.pooled hw (x + n - 1)))
    /\ buf (tflite.pool w')
       = buf (tflite.pool w) ++ List.map (tflite.pooled hw) (seq x n)
    /\ cap (tflite.pool w') = cap (tflite.pool w).
Proof.
  induction n as [|n IH]; intros x last w Ho Hroom Hok.
  - exists last, w. simpl. rewrite app_nil_r. repeat split. congruence.
  - pose proof (Hok 0%nat ltac:(lia)) as H0. rewrite Nat.add_0_r in H0.
    rewrite (create_pool_step _ _ _ _ _ _ _ H0). cbv zeta.
    rewrite send_room by (assumption || lia).
    destruct (IH (S x) (Some (tflite.pooled hw x))
                {| tflite.pool := {| buf := buf (tflite.pool w) ++ [tflite.pooled hw x];
                                     cap := cap (tflite.pool w); closed := false |};
                   tflite.trace := tflite.trace w ++ [tflite.EvNewInterpreter x] |})
      as (l & w' & Hrun & Hlast & Hbuf & Hcap).
    + reflexivity.
    + simpl. rewrite length_app. simpl. lia.
    + intros j Hj. rewrite Nat.add_succ_l, <- Nat.add_succ_r. apply Hok. lia.
    + exists l, w'. split; [exact Hrun|]. simpl in *.
      split; [|split; [now rewrite Hbuf, <- app_assoc|exact Hcap]].
      intros _. destruct n as [|n].
      * simpl in Hrun. injection Hrun as <- _. f_equal. f_equal. lia.
      * rewrite Hlast by discriminate. f_equal. f_equal. lia.
Qed.

(** Under acceleration, with every stage of [New] before the loop going
    well and every interpreter built: when more devices are found than the
    configured concurrency, [New] parks with the channel full; otherwise
    the channel ends with one handle per device, the i-th bound to device
    i, whatever the configured concurrency was. *)
Lemma New_under_acceleration h c lines devs :
  HWAccel c = true ->
  0 <= NumConcurrent c ->
  tflite.NewModelFromFile h (ModelFile c) = true ->
  tflite.label_lines h (LabelFile c) = Some lines ->
  tflite.DeviceList h = Some devs ->
  devs <> [] ->
  (forall j, (j < length devs)%nat -> tflite.attempt h true devs j = Some (inr j)) ->
  let c' := set_NumConcurrent (Z.of_nat (length devs)) c in
  (NumConcurrent c < Z.of_nat (length devs) ->
   exists w,
     tflite.New h c = (Blocks OnSend, w, c')
     /\ buf (tflite.pool w)
        = List.map (tflite.pooled true) (seq 0 (Z.to_nat (NumConcurrent c))))
  /\ (Z.of_nat (length devs) <= NumConcurrent c ->
      exists out w,
        tflite.New h c = (out, w, c')
        /\ (forall s, out <> Blocks s)
        /\ buf (tflite.pool w) = List.map (tflite.pooled true) (seq 0 (length devs))
        /\ cap (tflite.pool w) = NumConcurrent c).
Proof.
  intros Hhw Hn Hmodel Hlabels Hdevs Hne Hok c'.
  assert (Hsetup : tflite.edgetpu_setup h c
                   = inr (devs, c', "tflite-edgetpu",
                          if Timeout c =? 0 then 30 * tflite.second else Timeout c)).
  { unfold tflite.edgetpu_setup. rewrite Hhw, Hdevs. now destruct devs. }
  unfold tflite.New, make_chan.
  destruct (Z.ltb_spec (NumConcurrent c) 0); [lia|].
  rewrite Hmodel, Hlabels, Hsetup, Hhw. cbn [negb NumConcurrent c' set_NumConcurrent].
  rewrite Nat2Z.id. split.
  - intros Hless.
    destruct (create_pool_parks h true devs (Z.to_nat (NumConcurrent c))
                (length devs) 0 None
                {| tflite.pool := {| buf := []; cap := NumConcurrent c; closed := false |};
                   tflite.trace := [] |})
      as (w & Hrun & Hbuf); [lia | reflexivity | simpl; lia | |].
    { intros j Hj. apply Hok. lia. }
    exists w. now rewrite Hrun.
  - intros Hroom.
    destruct (create_pool_fills h true devs (length devs) 0 None
                {| tflite.pool := {| buf := []; cap := NumConcurrent c; closed := false |};
                   tflite.trace := [] |})
      as (l & w & Hrun & Hlast & Hbuf & Hcap); [reflexivity | simpl; lia | exact Hok |].
    rewrite Hrun, Hlast by (destruct devs; [congruence|discriminate]).
    destruct (tflite.input_dims h _) as [[d1 d2] d3].
    destruct (tflite.input_type h _); eexists _, w;
      (split; [reflexivity|split; [discriminate|now split]]).
Qed.

(** C6, evaluated.  Acceleration is requested with a configured
    concurrency of 1 and two devices are found.  The channel was made with
    room for one handle before [c.NumConcurrent] became 2, so the loop
    builds both interpreters and parks for ever on the second send: [New]
    never returns.  With a configured concurrency of 2 the same host gives
    a pool of two handles, one per device. *)
Lemma more_devices_than_configured :
  tflite.New (Samples.tflite_host (fun _ => true) (Some 5))
    (Samples.detector_config true 1 0)
  = (Blocks OnSend,
     {| tflite.pool := {| buf := [tflite.pooled true 0]; cap := 1;
                          closed := false |};
        tflite.trace := [tflite.EvNewInterpreter 0; tflite.EvNewInterpreter 1] |},
     set_NumConcurrent 2 (Samples.detector_config true 1 0))
  /\ (exists d,
       tflite.New (Samples.tflite_host (fun _ => true) (Some 5))
         (Samples.detector_config true 2 0)
       = (Returns d,
          {| tflite.pool := {| buf := [tflite.pooled true 0; tflite.pooled true 1];
                               cap := 2; closed := false |};
             tflite.trace := [tflite.EvNewInterpreter 0;
                              tflite.EvNewInterpreter 1] |},
          set_NumConcurrent 2 (Samples.detector_config true 2 0))).
Proof. split; [reflexivity|eexists; reflexivity]. Qed.

End ConstructionFacts.

(** ** The timeout under hardware acceleration *)

Section EdgetpuTimeout.

Import dconfig.

(** The detector [New] returns has the timeout the [if d.hwAccel] block
    computed. *)
Lemma New_timeout h c d w c' :
  tflite.New h c = (Returns d, w, c') ->
  exists devs c1 type,
    tflite.edgetpu_setup h c = inr (devs, c1, type, tflite.timeout d).
Proof.
  unfold tflite.New. intros Hnew.
  repeat (case_match; try discriminate).
  injection Hnew as <- _ _. simpl. subst. eauto.
Qed.

Lemma Detect_never_stuck h d request w out w' :
  0 < tflite.timeout d ->
  tflite.Detect h d request w = (out, w') -> out <> Blocks OnInvoke.
Proof.
  intros Hpos. unfold tflite.Detect.
  destruct (tflite.input_data h d request) as [data|e| |s] eqn:Hin;
    try (intros [= <- _]; discriminate).
  2:{ revert Hin. unfold tflite.input_data.
      repeat (case_match; try discriminate). }
  destruct (recv _) as [i ch| |]; try (intros [= <- _]; discriminate).
  unfold tflite.run.
  pose proof (wait_with_timer (tflite.timeout d) (tflite.Invoke h i data) Hpos) as Hw.
  destruct (tflite.wait _ _); [|simpl|contradiction].
  - destruct (_ ≫= _); simpl; destruct (send ch i); intros [= <- _]; discriminate.
  - destruct (send ch i); intros [= <- _]; discriminate.
Qed.

(** C10.  [New] succeeds with acceleration on and a configured timeout
    that is not negative.  Then the detector's timeout is positive, and it
    is 30 seconds when none (zero) was configured; its [Detect] never parks
    on an invocation, and a request whose invocation never completes gets
    the [Internal] status. *)
Theorem edgetpu_forces_timeout h c d w c' :
  HWAccel c = true ->
  0 <= Timeout c ->
  tflite.New h c = (Returns d, w, c') ->
  (Timeout c = 0 -> tflite.timeout d = 30 * tflite.second)
  /\ 0 < tflite.timeout d
  /\ (forall h' request w1 out w2,
        tflite.Detect h' d request w1 = (out, w2) -> out <> Blocks OnInvoke)
  /\ (forall h' request w1 data i ch,
        tflite.input_data h' d request = Returns data ->
        recv (tflite.pool w1) = Received i ch ->
        closed (tflite.pool w1) = false ->
        Z.of_nat (length (buf (tflite.pool w1))) <= cap (tflite.pool w1) ->
        tflite.finish (tflite.Invoke h' i data) = None ->
        exists w2,
          tflite.Detect h' d request w1
          = (Fails (Status Internal "detect failed"), w2)).
Proof.
  intros Hhw Hnn Hnew.
  destruct (New_timeout _ _ _ _ _ Hnew) as (devs & c1 & type & Hsetup).
  assert (Htmo : tflite.timeout d
                 = if Timeout c =? 0 then 30 * tflite.second else Timeout c).
  { unfold tflite.edgetpu_setup in Hsetup. rewrite Hhw in Hsetup.
    destruct (tflite.DeviceList h) as [[|dv l]|]; try discriminate.
    now injection Hsetup as _ _ _ <-. }
  assert (Hpos : 0 < tflite.timeout d).
  { rewrite Htmo. destruct (Z.eqb_spec (Timeout c) 0); [reflexivity|lia]. }
  split; [|split; [exact Hpos|split]].
  - intros Hzero. now rewrite Htmo, Hzero.
  - intros h' request w1 out w2. now apply Detect_never_stuck.
  - intros h' request w1 data i ch Hin Hr Ho Hlen Hfin.
    pose proof (room_after_recv _ _ _ Hr Ho Hlen) as Hsend.
    unfold tflite.Detect, tflite.run. rewrite Hin, Hr.
    rewrite (wait_timed_out _ _ Hpos (or_introl Hfin)).
    unfold tflite.deferred. rewrite Hsend. eauto.
Qed.

Lemma edgetpu_forces_timeout_witness :
  exists d,
    fst (fst (tflite.New (Samples.tflite_host (fun _ => true) None)
                (Samples.detector_config true 2 0)))
    = Returns d
    /\ tflite.timeout d = 30 * tflite.second.
Proof.
  eexists. split; [reflexivity|].
  apply (proj1 (edgetpu_forces_timeout
                  (Samples.tflite_host (fun _ => true) None)
                  (Samples.detector_config true 2 0) _ _ _
                  eq_refl ltac:(simpl; lia) eq_refl)).
  reflexivity.
Defined.

End EdgetpuTimeout.

(** * Further properties of the two detectors *)

(** ** Shutdown *)

Section ShutdownFacts.

Lemma tflite_drain (l : list tflite.tflInterpreter) : forall fuel c tr,
  (length l < fuel)%nat ->
  tflite.drain fuel {| tflite.pool := {| buf := l; cap := c; closed := true |};
                       tflite.trace := tr |}
  = Some (Returns tt,
          {| tflite.pool := {| buf := []; cap := c; closed := true |};
             tflite.trace :=
               tr ++ List.map (fun i => tflite.EvDelete (tflite.Interpreter i)) l |}).
Proof.
  induction l as [|i l IH]; intros [|fuel] c tr Hfuel; simpl in Hfuel; try lia.
  - simpl. now rewrite app_nil_r.
  - simpl. unfold recv. simpl. rewrite IH by lia. now rewrite <- app_assoc.
Qed.

Lemma tensorflow_drain (l : list nat) : forall fuel c tr,
  (length l < fuel)%nat ->
  tensorflow.drain fuel {| tensorflow.pool := {| buf := l; cap := c; closed := true |};
                           tensorflow.trace := tr |}
  = Some (Returns tt,
          {| tensorflow.pool := {| buf := []; cap := c; closed := true |};
             tensorflow.trace := tr ++ List.map tensorflow.EvClose l |}).
Proof.
  induction l as [|i l IH]; intros [|fuel] c tr Hfuel; simpl in Hfuel; try lia.
  - simpl. now rewrite app_nil_r.
  - simpl. unfold recv. simpl. rewrite IH by lia. now rewrite <- app_assoc.
Qed.

(** X1.  [Shutdown] on an open pool ends after one receive more than
    there are handles in the channel: it has deleted (closed) each of them
    once, oldest first, and leaves the channel closed and empty.  Handles
    that requests hold at that moment are not in the channel and are not
    deleted.  A second [Shutdown] panics on [close]. *)
Theorem Shutdown_drains :
  (forall w fuel,
     (length (buf (tflite.pool w)) < fuel)%nat ->
     tflite.Shutdown_loop fuel w
     = Some (if closed (tflite.pool w) then (Panics, w)
             else (Returns tt, tflite.Shutdown w)))
  /\ (forall w fuel,
     (length (buf (tensorflow.pool w)) < fuel)%nat ->
     tensorflow.Shutdown_loop fuel w
     = Some (if closed (tensorflow.pool w) then (Panics, w)
             else (Returns tt, tensorflow.Shutdown w)))
  /\ (forall w, closed (tflite.pool (tflite.Shutdown w)) = true
                /\ buf (tflite.pool (tflite.Shutdown w)) = []
                /\ forall id, tflite.EvDelete id ∈ tflite.trace (tflite.Shutdown w) <->
                     tflite.EvDelete id ∈ tflite.trace w
                     \/ exists i, i ∈ buf (tflite.pool w) /\ tflite.Interpreter i = id).
Proof.
  split; [|split].
  - intros [[l c o] tr] fuel Hfuel. unfold tflite.Shutdown_loop, close_chan.
    simpl in *. destruct o; [reflexivity|]. now rewrite tflite_drain.
  - intros [[l c o] tr] fuel Hfuel. unfold tensorflow.Shutdown_loop, close_chan.
    simpl in *. destruct o; [reflexivity|]. now rewrite tensorflow_drain.
  - intros w. repeat split; simpl.
    + intros Hin. apply elem_of_app in Hin as [Hin|Hin]; [now left|right].
      apply list_elem_of_fmap in Hin as (i & Hi & Hin). exists i. split; congruence.
    + intros [Hin|(i & Hi & <-)]; apply elem_of_app; [now left|right].
      apply list_elem_of_fmap. eauto.
Qed.

Lemma Shutdown_drains_witness :
  tflite.Shutdown_loop 3 Samples.tflite_world
  = Some (Returns tt,
          {| tflite.pool := {| buf := []; cap := 2; closed := true |};
             tflite.trace := [tflite.EvDelete 0; tflite.EvDelete 1] |})
  /\ tflite.Shutdown_loop 1 (tflite.Shutdown Samples.tflite_world)
     = Some (Panics, tflite.Shutdown Samples.tflite_world)
  /\ tensorflow.Shutdown_loop 3 Samples.tf_world
     = Some (Returns tt,
             {| tensorflow.pool := {| buf := []; cap := 2; closed := true |};
                tensorflow.trace := [tensorflow.EvClose 0; tensorflow.EvClose 1] |}).
Proof.
  split; [|split].
  - apply (proj1 Shutdown_drains Samples.tflite_world 3%nat). simpl. lia.
  - apply (proj1 Shutdown_drains (tflite.Shutdown Samples.tflite_world) 1%nat).
    simpl. lia.
  - apply (proj1 (proj2 Shutdown_drains) Samples.tf_world 3%nat). simpl. lia.
Defined.

(** X2.  Once the pool is closed and drained no [Detect] is served and
    none waits.  The tflite [Detect] still answers an undecodable image with
    its error; with an input ready it receives nil and panics, after
    [conf.Stop.Add(1)] and without [conf.Stop.Done()].  The tensorflow
    [Detect] panics.  A request that took its handle before the channel was
    closed panics on the deferred send: its response is lost and its handle
    is neither pooled nor deleted. *)
Theorem Detect_after_Shutdown :
  (forall h d request w,
     closed (tflite.pool w) = true ->
     buf (tflite.pool w) = [] ->
     tflite.Detect h d request w
     = match tflite.input_data h d request with
       | Returns _ =>
           (Panics, {| tflite.pool := tflite.pool w;
                       tflite.trace := tflite.trace w ++ [tflite.EvStopAdd] |})
       | Fails e => (Fails e, w)
       | Panics => (Panics, w)
       | Blocks s => (Blocks s, w)
       end)
  /\ (forall h d request w,
     closed (tensorflow.pool w) = true ->
     buf (tensorflow.pool w) = [] ->
     tensorflow.Detect h d request w = (Panics, w))
  /\ (forall (resp : tflite.DetectResponse) i ch tr,
     closed ch = true ->
     tflite.deferred (Returns resp) i ch tr
     = (Panics, {| tflite.pool := ch; tflite.trace := tr |}))
  /\ (forall (resp : tensorflow.DetectResponse) s ch tr,
     closed ch = true ->
     tensorflow.deferred (Returns resp) s ch tr
     = (Panics, {| tensorflow.pool := ch; tensorflow.trace := tr |})).
Proof.
  repeat split.
  - intros h d request w Hc Hb. unfold tflite.Detect, recv. now rewrite Hb, Hc.
  - intros h d request w Hc Hb. unfold tensorflow.Detect, recv. now rewrite Hb, Hc.
  - intros resp i ch tr Hc. unfold tflite.deferred, send. now rewrite Hc.
  - intros resp s ch tr Hc. unfold tensorflow.deferred, send. now rewrite Hc.
Qed.

Lemma Detect_after_Shutdown_witness :
  tflite.Detect (Samples.tflite_host (fun _ => true) (Some 5))
    (Samples.tflite_detector 0) (Samples.request Samples.png ∅)
    (tflite.Shutdown Samples.tflite_world)
  = (Panics,
     {| tflite.pool := {| buf := []; cap := 2; closed := true |};
        tflite.trace := [tflite.EvDelete 0; tflite.EvDelete 1; tflite.EvStopAdd] |})
  /\ tensorflow.Detect (Samples.tf_host (fun _ => true)) Samples.tf_detector
       (Samples.request Samples.png ∅) (tensorflow.Shutdown Samples.tf_world)
     = (Panics, tensorflow.Shutdown Samples.tf_world).
Proof.
  split.
  - apply (proj1 Detect_after_Shutdown (Samples.tflite_host (fun _ => true) (Some 5))
             (Samples.tflite_detector 0) (Samples.request Samples.png ∅)
             (tflite.Shutdown Samples.tflite_world)); reflexivity.
  - apply (proj1 (proj2 Detect_after_Shutdown) (Samples.tf_host (fun _ => true))
             Samples.tf_detector (Samples.request Samples.png ∅)
             (tensorflow.Shutdown Samples.tf_world)); reflexivity.
Defined.

End ShutdownFacts.

(** ** What New builds *)

Section NewFacts.

Import dconfig.



Lemma create_sessions_builds h (n : nat) : forall x b c tr,
  Z.of_nat (length b + n) <= c ->
  (forall j, (j < n)%nat -> tensorflow.NewSession h (x + j) = true) ->
  tensorflow.create_sessions h n x
    {| tensorflow.pool := {| buf := b; cap := c; closed := false |};
       tensorflow.trace := tr |}
  = (Returns tt,
     {| tensorflow.pool := {| buf := b ++ seq x n; cap := c; closed := false |};
        tensorflow.trace := tr ++ List.map tensorflow.EvNewSession (seq x n) |}).
Proof.
  induction n as [|n IH]; intros x b c tr Hroom Hok.
  - simpl. now rewrite !app_nil_r.
  - pose proof (Hok 0%nat ltac:(lia)) as H0. rewrite Nat.add_0_r in H0.
    simpl. rewrite H0. simpl.
    rewrite send_room by (simpl; lia || reflexivity). cbn [buf cap tensorflow.pool tensorflow.trace].
    rewrite IH.
    + now rewrite <- !app_assoc.
    + rewrite length_app. simpl. lia.
    + intros j Hj. rewrite Nat.add_succ_l, <- Nat.add_succ_r. apply Hok. lia.
Qed.






(** X5.  A negative [NumConcurrent] makes both [New] functions panic in
    [make], whatever the host.  With [NumConcurrent] zero and no
    acceleration the tflite [New] builds nothing and panics on the nil
    interpreter it asks for the input tensor, while the tensorflow [New]
    returns a detector over an empty pool, on which every [Detect] waits
    for ever. *)
Theorem New_edge_concurrency :
  (forall h h' c, NumConcurrent c < 0 ->
     tflite.New h c = (Panics, tflite.no_world, c)
     /\ tensorflow.New h' c = (Panics, tensorflow.no_world))
  /\ (forall h c lines,
       NumConcurrent c = 0 -> HWAccel c = false ->
       tflite.NewModelFromFile h (ModelFile c) = true ->
       tflite.label_lines h (LabelFile c) = Some lines ->
       tflite.New h c
       = (Panics, {| tflite.pool := {| buf := []; cap := 0; closed := false |};
                     tflite.trace := [] |}, c))
  /\ (forall h c lines,
       NumConcurrent c = 0 ->
       tensorflow.label_lines h (LabelFile c) = Some lines ->
       tensorflow.ReadFile h (ModelFile c) = true ->
       tensorflow.graph_Import h = true ->
       exists d,
         tensorflow.New h c
         = (Returns d, {| tensorflow.pool := {| buf := []; cap := 0; closed := false |};
                          tensorflow.trace := [] |})
         /\ forall h2 request tr,
              let w := {| tensorflow.pool := {| buf := []; cap := 0; closed := false |};
                          tensorflow.trace := tr |} in
              tensorflow.Detect h2 d request w = (Blocks OnAcquire, w)).
Proof.
  split; [|split].
  - intros h h' c Hneg. unfold tflite.New, tensorflow.New, make_chan.
    destruct (Z.ltb_spec (NumConcurrent c) 0); [auto|lia].
  - intros h c lines Hz Hhw Hmodel Hlabels.
    unfold tflite.New, make_chan, tflite.edgetpu_setup.
    now rewrite Hz, Hmodel, Hlabels, Hhw, Hz.
  - intros h c lines Hz Hlabels Hread Himport.
    unfold tensorflow.New, make_chan. rewrite Hz, Hlabels, Hread, Himport.
    eexists. split; [reflexivity|]. reflexivity.
Qed.

Lemma New_edge_concurrency_witness :
  tflite.New (Samples.tflite_host (fun _ => true) (Some 5))
    (Samples.detector_config false (-1) 0)
  = (Panics, tflite.no_world, Samples.detector_config false (-1) 0)
  /\ tflite.New (Samples.tflite_host (fun _ => true) (Some 5))
       (Samples.detector_config false 0 0)
     = (Panics, {| tflite.pool := {| buf := []; cap := 0; closed := false |};
                   tflite.trace := [] |}, Samples.detector_config false 0 0)
  /\ exists d,
       tensorflow.New (Samples.tf_host (fun _ => true))
         (Samples.detector_config false 0 0)
       = (Returns d, {| tensorflow.pool := {| buf := []; cap := 0; closed := false |};
                        tensorflow.trace := [] |}).
Proof.
  split; [|split].
  - apply (proj1 New_edge_concurrency (Samples.tflite_host (fun _ => true) (Some 5))
             (Samples.tf_host (fun _ => true))
             (Samples.detector_config false (-1) 0)).
    simpl. lia.
  - apply (proj1 (proj2 New_edge_concurrency)
             (Samples.tflite_host (fun _ => true) (Some 5))
             (Samples.detector_config false 0 0) Samples.label_lines);
      reflexivity.
  - destruct (proj2 (proj2 New_edge_concurrency) (Samples.tf_host (fun _ => true))
                (Samples.detector_config false 0 0) Samples.label_lines)
      as (d & Hnew & _); try reflexivity.
    exists d. exact Hnew.
Defined.

(** X6.  Neither [New] builds a worker before its files are read: if the
    world it leaves shows any event, then the model was loaded and the
    label file opened, and under acceleration the device list was fetched,
    was not empty, and its length was written to [c.NumConcurrent]. *)
Theorem nothing_built_before_checks :
  (forall h c out w c',
     tflite.New h c = (out, w, c') ->
     tflite.trace w <> [] ->
     tflite.NewModelFromFile h (ModelFile c) = true
     /\ is_Some (tflite.label_lines h (LabelFile c))
     /\ (HWAccel c = true ->
         exists devs, tflite.DeviceList h = Some devs /\ devs <> []
                      /\ NumConcurrent c' = Z.of_nat (length devs)))
  /\ (forall h c out w,
     tensorflow.New h c = (out, w) ->
     tensorflow.trace w <> [] ->
     is_Some (tensorflow.label_lines h (LabelFile c))
     /\ tensorflow.ReadFile h (ModelFile c) = true
     /\ tensorflow.graph_Import h = true).
Proof.
  split.
  - intros h c out w c'. unfold tflite.New.
    destruct (make_chan _) as [ch|]; [|intros [= _ <- _] Hne; now destruct Hne].
    destruct (tflite.NewModelFromFile h _); cbn [negb];
      [|intros [= _ <- _] Hne; now destruct Hne].
    destruct (tflite.label_lines h _) as [lines|];
      [|intros [= _ <- _] Hne; now destruct Hne].
    destruct (tflite.edgetpu_setup h c) as [err|[[[devs c1] type] tmo]] eqn:Hsetup;
      [intros [= _ <- _] Hne; now destruct Hne|].
    intros Hnew _. repeat split; [eauto|].
    intros Hhw. unfold tflite.edgetpu_setup in Hsetup. rewrite Hhw in Hsetup.
    destruct (tflite.DeviceList h) as [[|dv l]|]; try discriminate.
    injection Hsetup as <- <- _ _. exists (dv :: l).
    repeat split; [discriminate|].
    revert Hnew. destruct (tflite.create_pool _ _ _ _ _ _ _) as [[[i|]|e| |s] w1].
    + destruct (tflite.input_dims h _) as [[? ?] ?].
      destruct (tflite.input_type h _); now intros [= _ _ <-].
    + now intros [= _ _ <-].
    + now intros [= _ _ <-].
    + now intros [= _ _ <-].
    + now intros [= _ _ <-].
  - intros h c out w. unfold tensorflow.New.
    destruct (make_chan _) as [ch|]; [|intros [= _ <-] Hne; now destruct Hne].
    destruct (tensorflow.label_lines h _) as [lines|];
      [|intros [= _ <-] Hne; now destruct Hne].
    destruct (tensorflow.ReadFile h _); cbn [negb];
      [|intros [= _ <-] Hne; now destruct Hne].
    destruct (tensorflow.graph_Import h); cbn [negb];
      [|intros [= _ <-] Hne; now destruct Hne].
    intros _ _. repeat split. eauto.
Qed.

Lemma nothing_built_before_checks_witness :
  tflite.NewModelFromFile (Samples.tflite_host (fun _ => true) (Some 5))
    "model.tflite" = true
  /\ is_Some (tensorflow.label_lines (Samples.tf_host (fun _ => true)) "labels.txt").
Proof.
  split.
  - eapply (proj1 nothing_built_before_checks
              (Samples.tflite_host (fun _ => true) (Some 5))
              (Samples.detector_config false 2 0)); [reflexivity|discriminate].
  - eapply (proj2 nothing_built_before_checks (Samples.tf_host (fun _ => true))
              (Samples.detector_config false 2 0)); [reflexivity|discriminate].
Defined.

(** X7.  With its files read and every session created, the tensorflow
    [New] returns a detector whose pool holds the [NumConcurrent] sessions
    in the order of their creation, in a channel of that capacity; the
    detector reports width and height -1 and has the label table of the
    file. *)
Theorem New_sessions h c lines :
  0 <= NumConcurrent c ->
  tensorflow.label_lines h (LabelFile c) = Some lines ->
  tensorflow.ReadFile h (ModelFile c) = true ->
  tensorflow.graph_Import h = true ->
  (forall j, (j < Z.to_nat (NumConcurrent c))%nat -> tensorflow.NewSession h j = true) ->
  exists d,
    tensorflow.New h c
    = (Returns d,
       {| tensorflow.pool := {| buf := seq 0 (Z.to_nat (NumConcurrent c));
                                cap := NumConcurrent c; closed := false |};
          tensorflow.trace :=
            List.map tensorflow.EvNewSession (seq 0 (Z.to_nat (NumConcurrent c))) |})
    /\ tensorflow.labels d = LabelTable.labels (LabelTable.load_labels lines)
    /\ odrpc.Labels (tensorflow.config d)
       = LabelTable.config_Labels (LabelTable.load_labels lines)
    /\ odrpc.Width (tensorflow.config d) = -1
    /\ odrpc.Height (tensorflow.config d) = -1.
Proof.
  intros Hn Hlabels Hread Himport Hok.
  unfold tensorflow.New, make_chan.
  destruct (Z.ltb_spec (NumConcurrent c) 0); [lia|].
  rewrite Hlabels, Hread, Himport. cbn [negb].
  rewrite create_sessions_builds; [|simpl; lia|exact Hok].
  eexists. repeat split.
Qed.

Lemma New_sessions_witness :
  exists d,
    tensorflow.New (Samples.tf_host (fun _ => true)) (Samples.detector_config false 2 0)
    = (Returns d, {| tensorflow.pool := {| buf := [0; 1]%nat; cap := 2; closed := false |};
                     tensorflow.trace := [tensorflow.EvNewSession 0;
                                          tensorflow.EvNewSession 1] |}).
Proof.
  destruct (New_sessions (Samples.tf_host (fun _ => true))
              (Samples.detector_config false 2 0) Samples.label_lines)
    as (d & Hnew & _); try reflexivity.
  - simpl. lia.
  - exists d. exact Hnew.
Defined.

End NewFacts.

(** ** The timer and the invocation *)

Section TimerFacts.

Import dconfig.

Lemma input_data_set_timeout h d tmo request :
  tflite.input_data h (tflite.set_timeout tmo d) request = tflite.input_data h d request.
Proof. reflexivity. Qed.

Lemma wait_completed tmo inv t :
  0 < tmo ->
  tflite.finish inv = Some t ->
  t < tmo \/ (t = tmo /\ tflite.timer_wins_tie inv = false) ->
  tflite.wait tmo inv = tflite.Completed.
Proof.
  intros Hpos Hfin Ht. unfold tflite.wait. rewrite Hfin.
  destruct (Z.ltb_spec 0 tmo); [|lia].
  destruct (Z.ltb_spec t tmo); [reflexivity|].
  destruct Ht as [Ht|[-> Htie]]; [lia|].
  rewrite Z.ltb_irrefl. now rewrite Htie.
Qed.

(** X8.  The timeout of the detector [New] returns is the configured
    one, except that zero becomes 30 seconds under acceleration.  So a zero
    or negative timeout without acceleration, and a negative one with it,
    leave [Detect] without a timer: a request whose invocation never
    completes is parked for ever, and its interpreter never returns to the
    pool. *)
Theorem effective_timeout h c d w c' :
  tflite.New h c = (Returns d, w, c') ->
  tflite.timeout d
  = (if HWAccel c && (Timeout c =? 0) then 30 * tflite.second else Timeout c)
  /\ (tflite.timeout d <= 0 ->
      forall h' request w1 data i ch,
        tflite.input_data h' d request = Returns data ->
        recv (tflite.pool w1) = Received i ch ->
        tflite.finish (tflite.Invoke h' i data) = None ->
        tflite.Detect h' d request w1
        = (Blocks OnInvoke,
           {| tflite.pool := ch;
              tflite.trace :=
                tflite.trace w1
                ++ [tflite.EvStopAdd;
                    tflite.EvCopyFromBuffer (tflite.Interpreter i) data;
                    tflite.EvInvoke (tflite.Interpreter i)] |})).
Proof.
  intros Hnew.
  destruct (New_timeout _ _ _ _ _ Hnew) as (devs & c1 & type & Hsetup).
  split.
  - unfold tflite.edgetpu_setup in Hsetup.
    destruct (HWAccel c); cbn [andb].
    + destruct (tflite.DeviceList h) as [[|dv l]|]; try discriminate.
      now injection Hsetup as _ _ _ <-.
    + now injection Hsetup as _ _ _ <-.
  - intros Hz h' request w1 data i ch Hin Hr Hfin.
    unfold tflite.Detect, tflite.run. rewrite Hin, Hr.
    rewrite (wait_without_timer _ _ Hz), Hfin. simpl.
    now rewrite <- app_assoc.
Qed.

Lemma effective_timeout_witness :
  exists d,
    fst (fst (tflite.New (Samples.tflite_host (fun _ => true) None)
                (Samples.detector_config true 2 (-1)))) = Returns d
    /\ tflite.timeout d = -1.
Proof.
  eexists. split; [reflexivity|].
  apply (proj1 (effective_timeout (Samples.tflite_host (fun _ => true) None)
                  (Samples.detector_config true 2 (-1)) _ _ _ eq_refl)).
Defined.

(** X9.  A timer that does not fire changes nothing: when the invocation
    completes before the timeout (or at the same instant, [select] taking
    the completion), [Detect] gives the outcome and leaves the world it
    would with no timeout at all, and [conf.Stop.Stop()] is not called.
    When both are ready at the same instant and [select] takes the timer,
    the finished invocation is reported as a timeout. *)
Theorem timer_not_fired h d request w data i ch t :
  tflite.input_data h d request = Returns data ->
  recv (tflite.pool w) = Received i ch ->
  closed (tflite.pool w) = false ->
  Z.of_nat (length (buf (tflite.pool w))) <= cap (tflite.pool w) ->
  0 < tflite.timeout d ->
  tflite.finish (tflite.Invoke h i data) = Some t ->
  (t < tflite.timeout d
   \/ (t = tflite.timeout d /\ tflite.timer_wins_tie (tflite.Invoke h i data) = false) ->
   tflite.Detect h d request w = tflite.Detect h (tflite.set_timeout 0 d) request w
   /\ tflite.EvStopStop ∉ drop (length (tflite.trace w))
                              (tflite.trace (snd (tflite.Detect h d request w))))
  /\ (t = tflite.timeout d ->
      tflite.timer_wins_tie (tflite.Invoke h i data) = true ->
      fst (tflite.Detect h d request w) = Fails (Status Internal "detect failed")).
Proof.
  intros Hin Hr Ho Hlen Hpos Hfin.
  pose proof (room_after_recv _ _ _ Hr Ho Hlen) as Hsend. split.
  - intros Ht.
    assert (Heq : tflite.Detect h d request w
                  = tflite.Detect h (tflite.set_timeout 0 d) request w).
    { unfold tflite.Detect, tflite.run.
      rewrite input_data_set_timeout, Hin, Hr.
      rewrite (wait_completed _ _ _ Hpos Hfin Ht).
      cbn [tflite.timeout tflite.set_timeout].
      rewrite (wait_without_timer 0) by lia. now rewrite Hfin. }
    split; [exact Heq|].
    unfold tflite.Detect, tflite.run. rewrite Hin, Hr.
    rewrite (wait_completed _ _ _ Hpos Hfin Ht).
    destruct (_ ≫= _); unfold tflite.deferred; rewrite Hsend;
      cbn [snd tflite.trace]; rewrite <- ?app_assoc, drop_app_length;
      intros Hbad; simpl in Hbad;
      repeat (apply elem_of_cons in Hbad as [Hbad|Hbad]; [discriminate Hbad|]);
      inversion Hbad.
  - intros -> Htie. unfold tflite.Detect, tflite.run. rewrite Hin, Hr.
    unfold tflite.wait. rewrite Hfin, Z.ltb_irrefl, Htie.
    destruct (Z.ltb_spec 0 (tflite.timeout d)); [|lia].
    unfold tflite.deferred. now rewrite Hsend.
Qed.

Lemma timer_not_fired_witness :
  tflite.Detect (Samples.tflite_host (fun _ => true) (Some 5))
    (Samples.tflite_detector 50) (Samples.request Samples.png ∅) Samples.tflite_world
  = tflite.Detect (Samples.tflite_host (fun _ => true) (Some 5))
      (tflite.set_timeout 0 (Samples.tflite_detector 50))
      (Samples.request Samples.png ∅) Samples.tflite_world.
Proof.
  apply (proj1 (timer_not_fired (Samples.tflite_host (fun _ => true) (Some 5))
                  (Samples.tflite_detector 50) (Samples.request Samples.png ∅)
                  Samples.tflite_world [] (Samples.interpreter 0)
                  {| buf := [Samples.interpreter 1]; cap := 2; closed := false |} 5
                  eq_refl eq_refl eq_refl ltac:(simpl; lia) ltac:(simpl; lia)
                  eq_refl)).
  left. simpl. lia.
Defined.

End TimerFacts.

(** ** A timed-out interpreter, and a batch without candidates *)

Section EdgeFacts.

(** The world after a request that timed out. *)
Lemma Detect_timed_out h d request w data i ch :
  tflite.input_data h d request = Returns data ->
  recv (tflite.pool w) = Received i ch ->
  closed (tflite.pool w) = false ->
  Z.of_nat (length (buf (tflite.pool w))) <= cap (tflite.pool w) ->
  tflite.wait (tflite.timeout d) (tflite.Invoke h i data) = tflite.TimedOut ->
  tflite.Detect h d request w
  = (Fails (Status Internal "detect failed"),
     {| tflite.pool := {| buf := buf ch ++ [i]; cap := cap ch; closed := false |};
        tflite.trace :=
          tflite.trace w
          ++ [tflite.EvStopAdd;
              tflite.EvCopyFromBuffer (tflite.Interpreter i) data;
              tflite.EvInvoke (tflite.Interpreter i);
              tflite.EvStopStop; tflite.EvStopDone] |}).
Proof.
  intros Hin Hr Ho Hlen Hwait.
  pose proof (room_after_recv _ _ _ Hr Ho Hlen) as Hsend.
  unfold tflite.Detect, tflite.run. rewrite Hin, Hr, Hwait.
  unfold tflite.deferred. rewrite Hsend. now rewrite <- !app_assoc.
Qed.

(** X10.  After a timeout the interpreter goes back to the pool while its
    invocation is still running.  With a pool of one interpreter, the next
    request receives that same interpreter and copies its input into it and
    invokes it again, although no completion of the first invocation was
    ever received. *)
Theorem wedged_interpreter_reused h d request1 request2 w data1 data2 i :
  buf (tflite.pool w) = [i] ->
  closed (tflite.pool w) = false ->
  1 <= cap (tflite.pool w) ->
  0 < tflite.timeout d ->
  tflite.input_data h d request1 = Returns data1 ->
  tflite.input_data h d request2 = Returns data2 ->
  tflite.finish (tflite.Invoke h i data1) = None ->
  let id := tflite.Interpreter i in
  let first :=
    tflite.trace w
    ++ [tflite.EvStopAdd; tflite.EvCopyFromBuffer id data1; tflite.EvInvoke id;
        tflite.EvStopStop; tflite.EvStopDone] in
  exists w1,
    tflite.Detect h d request1 w = (Fails (Status Internal "detect failed"), w1)
    /\ buf (tflite.pool w1) = [i]
    /\ tflite.trace w1 = first
    /\ exists out w2 rest,
         tflite.Detect h d request2 w1 = (out, w2)
         /\ tflite.trace w2
            = first ++ [tflite.EvStopAdd; tflite.EvCopyFromBuffer id data2;
                        tflite.EvInvoke id] ++ rest.
Proof.
  intros Hb Ho Hcap Hpos Hin1 Hin2 Hfin id first.
  assert (Hr : recv (tflite.pool w)
               = Received i {| buf := []; cap := cap (tflite.pool w);
                               closed := closed (tflite.pool w) |}).
  { unfold recv. now rewrite Hb. }
  eexists. split.
  { apply (Detect_timed_out _ _ _ _ _ _ _ Hin1 Hr Ho).
    - rewrite Hb. simpl. lia.
    - apply wait_timed_out; auto. }
  cbn [tflite.pool tflite.trace buf app]. repeat split.
  unfold tflite.Detect, tflite.run. rewrite Hin2. unfold recv at 1.
  cbn [tflite.pool buf cap closed tflite.trace].
  destruct (tflite.wait _ _); [destruct (_ ≫= _)| |];
    unfold tflite.deferred, send; cbn [closed buf cap length];
    (destruct (Z.ltb_spec (Z.of_nat 0) (cap (tflite.pool w))); [|simpl in *; lia]);
    eexists _, _, _; (split; [reflexivity|]); cbn [tflite.trace]; subst first id;
    rewrite <- ?app_assoc; cbn [app]; repeat f_equal.
Qed.

Lemma wedged_interpreter_reused_witness :
  exists w1 out w2 rest,
    tflite.Detect (Samples.tflite_host (fun _ => true) None)
      (Samples.tflite_detector 50) (Samples.request Samples.png ∅)
      Samples.single_world
    = (Fails (Status Internal "detect failed"), w1)
    /\ tflite.Detect (Samples.tflite_host (fun _ => true) None)
         (Samples.tflite_detector 50) (Samples.request Samples.png Samples.wildcard50) w1
       = (out, w2)
    /\ tflite.trace w2
       = [tflite.EvStopAdd; tflite.EvCopyFromBuffer 0 []; tflite.EvInvoke 0;
          tflite.EvStopStop; tflite.EvStopDone;
          tflite.EvStopAdd; tflite.EvCopyFromBuffer 0 []; tflite.EvInvoke 0] ++ rest.
Proof.
  destruct (wedged_interpreter_reused (Samples.tflite_host (fun _ => true) None)
              (Samples.tflite_detector 50) (Samples.request Samples.png ∅)
              (Samples.request Samples.png Samples.wildcard50)
              Samples.single_world [] [] (Samples.interpreter 0))
    as (w1 & H1 & _ & _ & out & w2 & rest & H2 & Htr);
    try reflexivity; try (simpl; lia).
  exists w1, out, w2, rest. repeat split; assumption.
Defined.


Lemma read_tensor_first (t : list float32) :
  tflite.read_tensor t 1 = Some [default F32.zero (t !! 0%nat)].
Proof. unfold tflite.read_tensor. simpl. now destruct t. Qed.

(** A count that is not positive leaves no buffer to copy the tensors
    into. *)
Lemma read_outputs_no_candidates inv :
  F32.to_int 64 (default F32.zero (tflite.output inv 3 !! 0%nat)) <= 0 ->
  tflite.read_outputs inv = None.
Proof.
  intros Hc. unfold tflite.read_outputs. rewrite read_tensor_first. simpl.
  assert (Hnone : forall t,
            tflite.read_tensor t
              (F32.to_int 64 (default F32.zero (tflite.output inv 3 !! 0%nat))) = None).
  { intros t. unfold tflite.read_tensor.
    destruct (Z.leb_spec (F32.to_int 64 (default F32.zero (tflite.output inv 3 !! 0%nat))) 0);
      [reflexivity|lia]. }
  rewrite !Hnone.
  now destruct (tflite.read_tensor (tflite.output inv 0) _).
Qed.

(** X11.  When the model reports no candidate (a count tensor that is
    zero or less), the tflite [Detect] does not answer with an empty list:
    it panics on the empty buffer, after its interpreter has gone back to
    the pool.  The tensorflow [Detect] returns a response with no detection
    and no error. *)
Theorem no_candidates :
  (forall h d request w data i ch,
     tflite.input_data h d request = Returns data ->
     recv (tflite.pool w) = Received i ch ->
     closed (tflite.pool w) = false ->
     Z.of_nat (length (buf (tflite.pool w))) <= cap (tflite.pool w) ->
     tflite.wait (tflite.timeout d) (tflite.Invoke h i data) = tflite.Completed ->
     F32.to_int 64 (default F32.zero (tflite.output (tflite.Invoke h i data) 3 !! 0%nat))
     <= 0 ->
     tflite.Detect h d request w
     = (Panics,
        {| tflite.pool := {| buf := buf ch ++ [i]; cap := cap ch; closed := false |};
           tflite.trace :=
             tflite.trace w
             ++ [tflite.EvStopAdd;
                 tflite.EvCopyFromBuffer (tflite.Interpreter i) data;
                 tflite.EvInvoke (tflite.Interpreter i);
                 tflite.EvComplete (tflite.Interpreter i);
                 tflite.EvStopDone] |}))
  /\ (forall h d request w s ch imgConfig tensor o scores classes locations n,
     recv (tensorflow.pool w) = Received s ch ->
     closed (tensorflow.pool w) = false ->
     Z.of_nat (length (buf (tensorflow.pool w))) <= cap (tensorflow.pool w) ->
     tensorflow.prepare h (odrpc.Data request) = inr (imgConfig, tensor) ->
     tensorflow.Run h s tensor = Some o ->
     tensorflow.detection_scores o !! 0%nat = Some scores ->
     tensorflow.detection_classes o !! 0%nat = Some classes ->
     tensorflow.detection_boxes o !! 0%nat = Some locations ->
     tensorflow.num_detections o !! 0%nat = Some n ->
     F32.to_int 64 n <= 0 ->
     tensorflow.Detect h d request w
     = (Returns {| tensorflow.rId := odrpc.Id request;
                   tensorflow.Detections := [];
                   tensorflow.Error := "" |},
        {| tensorflow.pool := {| buf := buf ch ++ [s]; cap := cap ch; closed := false |};
           tensorflow.trace := tensorflow.trace w ++ [tensorflow.EvRun s tensor] |})).
Proof.
  split.
  - intros h d request w data i ch Hin Hr Ho Hlen Hwait Hc.
    pose proof (room_after_recv _ _ _ Hr Ho Hlen) as Hsend.
    unfold tflite.Detect, tflite.run. rewrite Hin, Hr, Hwait.
    rewrite (read_outputs_no_candidates _ Hc). simpl.
    rewrite Hsend. now rewrite <- !app_assoc.
  - intros h d request w s ch imgConfig tensor o scores classes locations n
           Hr Ho Hlen Hprep Hrun Hs Hcl Hloc Hn Hc.
    pose proof (room_after_recv _ _ _ Hr Ho Hlen) as Hsend.
    unfold tensorflow.Detect, tensorflow.run. rewrite Hr, Hprep, Hrun.
    unfold tensorflow.read_outputs. rewrite Hs, Hcl, Hloc, Hn. simpl.
    unfold tensorflow.detections_of. cbn [tensorflow.count].
    replace (Z.to_nat (F32.to_int 64 n)) with 0%nat by lia. simpl.
    now rewrite Hsend.
Qed.

Lemma no_candidates_witness :
  tflite.Detect Samples.empty_batch_host (Samples.tflite_detector 0)
    (Samples.request Samples.png ∅) Samples.tflite_world
  = (Panics,
     {| tflite.pool := {| buf := [Samples.interpreter 1; Samples.interpreter 0];
                          cap := 2; closed := false |};
        tflite.trace :=
          [tflite.EvStopAdd; tflite.EvCopyFromBuffer 0 [];
           tflite.EvInvoke 0; tflite.EvComplete 0; tflite.EvStopDone] |}).
Proof.
  apply (proj1 no_candidates Samples.empty_batch_host (Samples.tflite_detector 0)
           (Samples.request Samples.png ∅) Samples.tflite_world []
           (Samples.interpreter 0)
           {| buf := [Samples.interpreter 1]; cap := 2; closed := false |});
    try reflexivity; simpl; lia.
Defined.

End EdgeFacts.

(** ** What the filter lets through *)

Section OutputFacts.

Context {D : Type}.

(** Each detection of the result was appended by an iteration the loop
    ran. *)
Lemma detect_loop_index (body : nat -> option (option D)) (n : nat) : forall i acc out,
  detect_loop body n i acc = Some out ->
  forall det, det ∈ out ->
    det ∈ acc \/ exists j, (i <= j < i + n)%nat /\ body j = Some (Some det).
Proof.
  induction n as [|n IH]; simpl; intros i acc out Hrun det Hin.
  - left. congruence.
  - destruct (body i) as [[d|]|] eqn:Hb; [| |discriminate].
    + destruct (IH _ _ _ Hrun det Hin) as [Hacc|(j & Hj & Hbj)].
      * apply elem_of_app in Hacc as [Hacc|Hd]; [now left|].
        apply list_elem_of_singleton in Hd. subst. right. exists i. split; [lia|exact Hb].
      * right. exists j. split; [lia|exact Hbj].
    + destruct (IH _ _ _ Hrun det Hin) as [Hacc|(j & Hj & Hbj)]; [now left|].
      right. exists j. split; [lia|exact Hbj].
Qed.

(** A loop whose iterations append whenever those of another loop do,
    and the same detection, collects a list the other's result is a
    sublist of. *)
Lemma detect_loop_sublist (body1 body2 : nat -> option (option D)) (n : nat) :
  (forall j det, body1 j = Some (Some det) -> body2 j = Some (Some det)) ->
  forall i acc1 acc2 out1 out2,
    acc1 `sublist_of` acc2 ->
    detect_loop body1 n i acc1 = Some out1 ->
    detect_loop body2 n i acc2 = Some out2 ->
    out1 `sublist_of` out2.
Proof.
  intros Hsame. induction n as [|n IH]; simpl; intros i acc1 acc2 out1 out2 Hsub H1 H2.
  - congruence.
  - destruct (body1 i) as [[d1|]|] eqn:Hb1; [| |discriminate].
    + rewrite (Hsame _ _ Hb1) in H2.
      eapply IH; [|exact H1|exact H2]. now apply sublist_app.
    + destruct (body2 i) as [[d2|]|]; [| |discriminate].
      * eapply IH; [|exact H1|exact H2]. now apply sublist_inserts_r.
      * eapply IH; [|exact H1|exact H2]. exact Hsub.
Qed.

End OutputFacts.

Section FilterOutput.

Lemma tflite_candidate_any_spec d request request0 b i det :
  odrpc.Detect request0 = ∅ ->
  tflite.candidate d request b i = Some (Some det) ->
  tflite.candidate d request0 b i = Some (Some det).
Proof.
  intros Hspec. unfold tflite.candidate. rewrite Hspec.
  destruct (tflite.classes b !! i) as [c|]; [|discriminate]. simpl.
  rewrite listed_empty. simpl.
  destruct (listed _ _ _) as [[|]|]; simpl; congruence.
Qed.

Lemma tensorflow_candidate_any_spec d request request0 imgConfig b i det :
  odrpc.Detect request0 = ∅ ->
  tensorflow.candidate d request imgConfig b i = Some (Some det) ->
  tensorflow.candidate d request0 imgConfig b i = Some (Some det).
Proof.
  intros Hspec. unfold tensorflow.candidate. rewrite Hspec.
  destruct (tensorflow.classes b !! i) as [c|]; [|discriminate]. simpl.
  rewrite listed_empty. simpl.
  destruct (listed _ _ _) as [[|]|]; simpl; congruence.
Qed.

(** X12.  The filter only drops: for the same batch, the detections
    returned under any filter spec are a sublist of those returned under
    the empty spec, each one unchanged and in the same relative order. *)
Theorem filter_only_drops :
  (forall d request request0 b dets all,
     odrpc.Detect request0 = ∅ ->
     tflite.detections_of d request b = Some dets ->
     tflite.detections_of d request0 b = Some all ->
     dets `sublist_of` all)
  /\ (forall d request request0 imgConfig b dets all,
     odrpc.Detect request0 = ∅ ->
     tensorflow.detections_of d request imgConfig b = Some dets ->
     tensorflow.detections_of d request0 imgConfig b = Some all ->
     dets `sublist_of` all).
Proof.
  split.
  - intros d request request0 b dets all Hspec H1 H2.
    eapply (detect_loop_sublist (tflite.candidate d request b)
              (tflite.candidate d request0 b)); [|reflexivity|exact H1|exact H2].
    intros j det. now apply tflite_candidate_any_spec.
  - intros d request request0 imgConfig b dets all Hspec H1 H2.
    eapply (detect_loop_sublist (tensorflow.candidate d request imgConfig b)
              (tensorflow.candidate d request0 imgConfig b));
      [|reflexivity|exact H1|exact H2].
    intros j det. now apply tensorflow_candidate_any_spec.
Qed.

Lemma filter_only_drops_witness :
  [] `sublist_of` [Samples.tflite_box].
Proof.
  apply (proj1 filter_only_drops (Samples.tflite_detector 0)
           (Samples.request Samples.png {[ "dog" := Samples.fifty ]})
           (Samples.request Samples.png ∅) Samples.tflite_batch);
    reflexivity.
Defined.

(** X13.  Every detection returned comes from one candidate of the batch
    (an index below [count]): its label is the label of the candidate's
    class, or the empty string when the table has none; its confidence is
    the candidate's score times 100; and that label and score pass the
    request's filter spec. *)
Theorem detections_pass_filter :
  (forall d request b dets det,
     tflite.detections_of d request b = Some dets ->
     det ∈ dets ->
     exists (i : nat) c s,
       (i < Z.to_nat (tflite.count b))%nat
       /\ tflite.classes b !! i = Some c
       /\ tflite.scores b !! i = Some s
       /\ tflite.Label det = default "" (tflite.labels d !! F32.to_int 64 c)
       /\ tflite.Confidence det = F32.mul s F32.hundred
       /\ listed (odrpc.Detect request) (tflite.Label det) (Some s) = Some true)
  /\ (forall d request imgConfig b dets det,
     tensorflow.detections_of d request imgConfig b = Some dets ->
     det ∈ dets ->
     exists (i : nat) c s,
       (i < Z.to_nat (tensorflow.count b))%nat
       /\ tensorflow.classes b !! i = Some c
       /\ tensorflow.scores b !! i = Some s
       /\ tensorflow.Label det = default "" (tensorflow.labels d !! F32.to_int 64 c)
       /\ tensorflow.Confidence det = F32.mul s F32.hundred
       /\ listed (odrpc.Detect request) (tensorflow.Label det) (Some s) = Some true).
Proof.
  split.
  - intros d request b dets det Hrun Hin.
    destruct (detect_loop_index _ _ _ _ _ Hrun det Hin) as [Hnil|(i & Hi & Hb)].
    { inversion Hnil. }
    unfold tflite.candidate in Hb.
    destruct (tflite.classes b !! i) as [c|] eqn:Ec; [|discriminate]. simpl in Hb.
    destruct (listed _ _ (tflite.scores b !! i)) as [[|]|] eqn:El;
      simpl in Hb; try discriminate.
    destruct (tflite.locations b !! (i * 4)%nat); [|discriminate]. simpl in Hb.
    destruct (tflite.locations b !! (i * 4 + 1)%nat); [|discriminate]. simpl in Hb.
    destruct (tflite.locations b !! (i * 4 + 2)%nat); [|discriminate]. simpl in Hb.
    destruct (tflite.locations b !! (i * 4 + 3)%nat); [|discriminate]. simpl in Hb.
    destruct (tflite.scores b !! i) as [s|] eqn:Es; [|discriminate]. simpl in Hb.
    injection Hb as <-. exists i, c, s. simpl. repeat split; auto. lia.
  - intros d request imgConfig b dets det Hrun Hin.
    destruct (detect_loop_index _ _ _ _ _ Hrun det Hin) as [Hnil|(i & Hi & Hb)].
    { inversion Hnil. }
    unfold tensorflow.candidate in Hb.
    destruct (tensorflow.classes b !! i) as [c|] eqn:Ec; [|discriminate]. simpl in Hb.
    destruct (listed _ _ (tensorflow.scores b !! i)) as [[|]|] eqn:El;
      simpl in Hb; try discriminate.
    destruct (tensorflow.locations b !! i) as [loc|]; [|discriminate]. simpl in Hb.
    destruct (loc !! 0%nat); [|discriminate]. simpl in Hb.
    destruct (loc !! 1%nat); [|discriminate]. simpl in Hb.
    destruct (loc !! 2%nat); [|discriminate]. simpl in Hb.
    destruct (loc !! 3%nat); [|discriminate]. simpl in Hb.
    destruct (tensorflow.scores b !! i) as [s|] eqn:Es; [|discriminate]. simpl in Hb.
    injection Hb as <-. exists i, c, s. simpl. repeat split; auto. lia.
Qed.

Lemma detections_pass_filter_witness :
  exists (i : nat) c s,
    (i < 1)%nat
    /\ tflite.classes Samples.tflite_batch !! i = Some c
    /\ tflite.scores Samples.tflite_batch !! i = Some s
    /\ tflite.Label Samples.tflite_box = default "" (tflite.labels (Samples.tflite_detector 0) !! F32.to_int 64 c)
    /\ tflite.Confidence Samples.tflite_box = F32.mul s F32.hundred
    /\ listed Samples.wildcard50 (tflite.Label Samples.tflite_box) (Some s) = Some true.
Proof.
  apply (proj1 detections_pass_filter (Samples.tflite_detector 0)
           (Samples.request Samples.png Samples.wildcard50) Samples.tflite_batch
           [Samples.tflite_box] Samples.tflite_box);
    [reflexivity|apply list_elem_of_here].
Defined.

End FilterOutput.

(** ** What Detect can answer *)

Section AnswerFacts.

(** X14.  The tflite [Detect] returns two errors only.  [InvalidArgument]
    "could not decode image" comes with a world left as it was.  [Internal]
    "detect failed" is the timeout: a timer was armed, [conf.Stop.Stop()]
    was called, no completion was received, and the interpreter went back
    to the pool.  A response carries the request's id and is returned only
    after the completion was received, with [conf.Stop.Add(1)] matched by
    [conf.Stop.Done()]. *)
Theorem tflite_Detect_answers h d request w out w' :
  tflite.Detect h d request w = (out, w') ->
  (forall e, out = Fails e ->
     (e = Status InvalidArgument "could not decode image" /\ w' = w
      /\ tflite.image_Decode h (odrpc.Data request) = None)
     \/ (e = Status Internal "detect failed" /\ 0 < tflite.timeout d
         /\ exists i ch data,
              recv (tflite.pool w) = Received i ch
              /\ send ch i = Sent (tflite.pool w')
              /\ tflite.trace w'
                 = tflite.trace w
                   ++ [tflite.EvStopAdd;
                       tflite.EvCopyFromBuffer (tflite.Interpreter i) data;
                       tflite.EvInvoke (tflite.Interpreter i);
                       tflite.EvStopStop; tflite.EvStopDone]))
  /\ (forall resp, out = Returns resp ->
      tflite.rId resp = odrpc.Id request
      /\ exists i ch data,
           recv (tflite.pool w) = Received i ch
           /\ send ch i = Sent (tflite.pool w')
           /\ tflite.trace w'
              = tflite.trace w
                ++ [tflite.EvStopAdd;
                    tflite.EvCopyFromBuffer (tflite.Interpreter i) data;
                    tflite.EvInvoke (tflite.Interpreter i);
                    tflite.EvComplete (tflite.Interpreter i); tflite.EvStopDone]).
Proof.
  unfold tflite.Detect.
  destruct (tflite.input_data h d request) as [data|e0| |s0] eqn:Hin.
  - destruct (recv (tflite.pool w)) as [i ch| |] eqn:Hr;
      [|intros [= <- <-]; split; intros ? [=]..].
    unfold tflite.run.
    destruct (tflite.wait (tflite.timeout d) (tflite.Invoke h i data)) eqn:Hwait.
    + destruct (_ ≫= _) as [dets|]; unfold tflite.deferred;
        destruct (send ch i) as [ch'| |] eqn:Hsend; intros [= <- <-];
        (split; [intros ? [=]|intros resp [=]]); subst.
      split; [reflexivity|]. exists i, ch, data. cbn [tflite.pool tflite.trace].
      repeat split; [exact Hsend|now rewrite <- !app_assoc].
    + unfold tflite.deferred.
      destruct (send ch i) as [ch'| |] eqn:Hsend; intros [= <- <-];
        (split; [intros e [=]|intros ? [=]]); subst.
      right. split; [reflexivity|]. split.
      * unfold tflite.wait in Hwait.
        destruct (Z.ltb_spec 0 (tflite.timeout d)); [assumption|].
        destruct (tflite.finish _); discriminate.
      * exists i, ch, data. cbn [tflite.pool tflite.trace].
        repeat split; [exact Hsend|now rewrite <- !app_assoc].
    + intros [= <- <-]. split; intros ? [=].
  - intros [= <- <-]. split; [|intros ? [=]].
    intros e [= <-]. left. revert Hin. unfold tflite.input_data.
    destruct (tflite.image_Decode h _) as [img|] eqn:Hdec.
    + destruct (tflite.raster h _ img);
        repeat (case_match; try discriminate).
    + repeat (case_match; try discriminate); now intros [= <-].
  - intros [= <- <-]. split; intros ? [=].
  - intros [= <- <-]. split; intros ? [=].
Qed.

Lemma tflite_Detect_answers_witness :
  tflite.rId {| tflite.rId := "r1"; tflite.Detections := [Samples.tflite_box] |}
  = odrpc.Id (Samples.request Samples.png ∅).
Proof.
  refine (proj1 (proj2 (tflite_Detect_answers
                          (Samples.tflite_host (fun _ => true) (Some 5))
                          (Samples.tflite_detector 0) (Samples.request Samples.png ∅)
                          Samples.tflite_world
                          (Returns {| tflite.rId := "r1";
                                      tflite.Detections := [Samples.tflite_box] |})
                          {| tflite.pool :=
                               {| buf := [Samples.interpreter 1; Samples.interpreter 0];
                                  cap := 2; closed := false |};
                             tflite.trace :=
                               [tflite.EvStopAdd; tflite.EvCopyFromBuffer 0 [];
                                tflite.EvInvoke 0; tflite.EvComplete 0;
                                tflite.EvStopDone] |} _) _ eq_refl)).
  reflexivity.
Defined.

Ltac in_list :=
  unfold tensorflow.messages;
  repeat first [apply list_elem_of_here | apply list_elem_of_further].

(** X15.  The tensorflow [Detect] has no error value: whatever goes wrong
    before or in the detection run comes back as a response carrying the
    request's id, no detection and one of six texts.  Only the last of
    them, and a response without error text, come after a run on the
    pooled session, and a request runs the session at most once. *)
Theorem tensorflow_Detect_answers h d request w out w' :
  tensorflow.Detect h d request w = (out, w') ->
  (forall e, out <> Fails e)
  /\ (forall resp, out = Returns resp ->
      tensorflow.rId resp = odrpc.Id request
      /\ ((tensorflow.Error resp = ""
           /\ exists s tensor,
                tensorflow.trace w' = tensorflow.trace w ++ [tensorflow.EvRun s tensor])
          \/ (tensorflow.Detections resp = []
              /\ tensorflow.Error resp ∈ tensorflow.messages
              /\ if bool_decide (tensorflow.Error resp = "error running detection")
                 then exists s tensor,
                        tensorflow.trace w'
                        = tensorflow.trace w ++ [tensorflow.EvRun s tensor]
                 else tensorflow.trace w' = tensorflow.trace w))).
Proof.
  unfold tensorflow.Detect.
  destruct (recv (tensorflow.pool w)) as [s ch| |];
    [|intros [= <- <-]; split; [discriminate|intros ? [=]]..].
  unfold tensorflow.run.
  assert (Hmsg : forall msg tr (P : Prop),
            msg ∈ tensorflow.messages ->
            (if bool_decide (msg = "error running detection")
             then exists s tensor, tr = tensorflow.trace w ++ [tensorflow.EvRun s tensor]
             else tr = tensorflow.trace w) ->
            tensorflow.deferred (Returns (tensorflow.failed request msg)) s ch tr
            = (out, w') ->
            (forall e, out <> Fails e)
            /\ (forall resp, out = Returns resp ->
                tensorflow.rId resp = odrpc.Id request
                /\ ((tensorflow.Error resp = "" /\ P)
                    \/ (tensorflow.Detections resp = []
                        /\ tensorflow.Error resp ∈ tensorflow.messages
                        /\ if bool_decide (tensorflow.Error resp = "error running detection")
                           then exists s tensor,
                                  tensorflow.trace w'
                                  = tensorflow.trace w ++ [tensorflow.EvRun s tensor]
                           else tensorflow.trace w' = tensorflow.trace w)))).
  { intros msg tr P Hin Htr. unfold tensorflow.deferred.
    destruct (send ch s); intros [= <- <-];
      (split; [discriminate|intros resp [=]]); subst.
    split; [reflexivity|]. right. repeat split; assumption. }
  unfold tensorflow.prepare.
  destruct (tensorflow.DecodeConfig h _) as [[imgConfig imgType]|];
    [|apply Hmsg; [in_list|reflexivity]].
  destruct (tensorflow.supported imgType).
  - destruct (tensorflow.NewTensor h _); cbn [negb];
      [|apply Hmsg; [in_list|reflexivity]].
    destruct (tensorflow.decode_image h _ _) as [| |tensor];
      [apply Hmsg; [in_list|reflexivity]..|].
    destruct (tensorflow.Run h s tensor) as [o|];
      [|apply Hmsg; [in_list|simpl; eauto]].
    destruct (_ ≫= _) as [dets|]; unfold tensorflow.deferred;
      destruct (send ch s); intros [= <- <-];
      (split; [discriminate|intros resp [=]]); subst.
    split; [reflexivity|]. left. simpl. eauto.
  - destruct (tensorflow.IMDecode h _) as [[cols rows]|];
      [|apply Hmsg; [in_list|reflexivity]].
    destruct (tensorflow.IMEncode h _) as [bmp|];
      [|apply Hmsg; [in_list|reflexivity]].
    destruct (tensorflow.NewTensor h _); cbn [negb];
      [|apply Hmsg; [in_list|reflexivity]].
    destruct (tensorflow.decode_image h _ _) as [| |tensor];
      [apply Hmsg; [in_list|reflexivity]..|].
    destruct (tensorflow.Run h s tensor) as [o|];
      [|apply Hmsg; [in_list|simpl; eauto]].
    destruct (_ ≫= _) as [dets|]; unfold tensorflow.deferred;
      destruct (send ch s); intros [= <- <-];
      (split; [discriminate|intros resp [=]]); subst.
    split; [reflexivity|]. left. simpl. eauto.
Qed.

Lemma tensorflow_Detect_answers_witness :
  tensorflow.rId (tensorflow.failed (Samples.request [] ∅) "Could not decode image")
  = odrpc.Id (Samples.request [] ∅).
Proof.
  refine (proj1 (proj2 (tensorflow_Detect_answers (Samples.tf_host (fun _ => true))
                          Samples.tf_detector (Samples.request [] ∅) Samples.tf_world
                          (Returns (tensorflow.failed (Samples.request [] ∅)
                                      "Could not decode image"))
                          {| tensorflow.pool := {| buf := [1; 0]%nat; cap := 2;
                                                   closed := false |};
                             tensorflow.trace := [] |} _) _ eq_refl)).
  reflexivity.
Defined.

End AnswerFacts.

(** ** The label table as a whole *)

Section LabelInvariants.

Import LabelTable.

Lemma label_line_ok x text d : label_state_ok 1 d (label_line x text d).
Proof.
  assert (Hins : forall k v,
            label_state_ok 1 d {| labels := <[k := v]> (labels d);
                                  config_Labels := config_Labels d ++ [v] |}).
  { intros k v. unfold label_state_ok. cbn [labels config_Labels].
    rewrite length_app. cbn [length]. repeat split.
    - lia.
    - rewrite map_size_insert. destruct (labels d !! k); unfold id; lia.
    - eauto.
    - intros Hinv k' v' Hl. apply elem_of_app.
      destruct (decide (k = k')) as [->|Hne].
      + rewrite lookup_insert_eq in Hl. injection Hl as ->.
        right. apply list_elem_of_here.
      + rewrite lookup_insert_ne in Hl by assumption. left. eauto. }
  assert (Hid : label_state_ok 1 d d).
  { unfold label_state_ok. repeat split; [lia|lia| |auto].
    exists []. now rewrite app_nil_r. }
  unfold label_line.
  destruct (GoStrings.SplitAfterN text) as [|f0 [|f1 [|f2 l]]]; auto.
  destruct (GoStrconv.Atoi _); auto.
Qed.

Lemma scan_labels_ok (lines : list string) : forall x d,
  label_state_ok (length lines) d (scan_labels x lines d).
Proof.
  induction lines as [|text lines IH]; intros x d; simpl.
  - unfold label_state_ok. repeat split; [lia|lia| |auto].
    exists []. now rewrite app_nil_r.
  - destruct (label_line_ok x text d) as (H1 & H2 & [a1 H3] & H4).
    destruct (IH (x + 1) (label_line x text d)) as (G1 & G2 & [a2 G3] & G4).
    unfold label_state_ok. repeat split.
    + lia.
    + lia.
    + exists (a1 ++ a2). now rewrite G3, H3, app_assoc.
    + intros Hinv. apply G4, H4, Hinv.
Qed.

(** X16.  Whatever the lines, the loaded table has at most one entry per
    line; [d.config.Labels] lists the labels stored, one per accepted line
    in file order, so it is at least as long as the table (longer when an
    index is written twice); and every label of the table appears in that
    list. *)
Theorem label_table_invariants (lines : list string) :
  let d := load_labels lines in
  (length (config_Labels d) <= length lines)%nat
  /\ (size (labels d) <= length (config_Labels d))%nat
  /\ (forall k v, labels d !! k = Some v -> v ∈ config_Labels d).
Proof.
  destruct (scan_labels_ok lines 1 no_labels) as (H1 & H2 & _ & H4).
  cbn [no_labels config_Labels labels length] in *. rewrite map_size_empty in H2.
  unfold load_labels. repeat split; [lia|lia|].
  apply H4. intros k v Hl. rewrite lookup_empty in Hl. discriminate.
Qed.

Lemma label_table_invariants_witness :
  (length (config_Labels (load_labels Samples.label_lines)) <= 3)%nat
  /\ "dog" ∈ config_Labels (load_labels Samples.label_lines).
Proof.
  split.
  - apply (proj1 (label_table_invariants Samples.label_lines)).
  - apply (proj2 (proj2 (label_table_invariants Samples.label_lines)) 2).
    vm_compute. reflexivity.
Defined.

End LabelInvariants.

(** ** Sharing the pool *)

Section SharingFacts.

Lemma held_elem {H} (ths : list (phase H)) : forall i h,
  ths !! i = Some (Acquired h) -> h ∈ held ths.
Proof.
  induction ths as [|p ths IH]; intros [|i] h Hi; simpl in *; try discriminate.
  - injection Hi as ->. apply list_elem_of_here.
  - specialize (IH i h Hi). destruct p; auto. now apply list_elem_of_further.
Qed.

Lemma held_one_holder {H} (ths : list (phase H)) : forall i j h,
  NoDup (held ths) ->
  ths !! i = Some (Acquired h) -> ths !! j = Some (Acquired h) -> i = j.
Proof.
  induction ths as [|p ths IH]; intros [|i] [|j] h Hnd Hi Hj; simpl in *;
    try discriminate; try reflexivity.
  - injection Hi as ->. apply NoDup_cons in Hnd as [Hnot _].
    destruct Hnot. eapply held_elem, Hj.
  - injection Hj as ->. apply NoDup_cons in Hnd as [Hnot _].
    destruct Hnot. eapply held_elem, Hi.
  - f_equal. apply (IH i j h); auto.
    destruct p; auto. now apply NoDup_cons in Hnd as [_ Hnd].
Qed.

(** X17.  Handles that are distinct in the channel stay exclusively
    owned under any interleaving of the requests' receives and sends: no
    handle is held by two requests, a held handle is not in the channel at
    the same time, and no more requests hold a handle than there were
    handles. *)
Theorem pool_exclusive {H} (ch0 ch : chan H) (N : nat) (ths : list (phase H)) :
  NoDup (buf ch0) ->
  pool_steps (ch0, replicate N Pending) (ch, ths) ->
  NoDup (buf ch ++ held ths)
  /\ (forall i j h,
        ths !! i = Some (Acquired h) -> ths !! j = Some (Acquired h) -> i = j)
  /\ (forall i h, ths !! i = Some (Acquired h) -> h ∉ buf ch)
  /\ (length (held ths) <= length (buf ch0))%nat.
Proof.
  intros Hnd Hsteps.
  apply pool_steps_conserve in Hsteps as (Hp & _ & _). simpl in Hp.
  rewrite held_pending, app_nil_r in Hp.
  assert (Hnd' : NoDup (buf ch ++ held ths)) by now rewrite Hp.
  split; [exact Hnd'|]. apply NoDup_app in Hnd' as (_ & Hdisj & Hheld).
  repeat split.
  - intros i j h. now apply held_one_holder.
  - intros i h Hi Hin. apply (Hdisj h Hin). eapply held_elem, Hi.
  - apply Permutation_length in Hp. rewrite length_app in Hp. lia.
Qed.

Lemma pool_exclusive_witness :
  NoDup ([1%nat] ++ held [Acquired 0%nat; Pending]).
Proof.
  apply (pool_exclusive {| buf := [0%nat; 1%nat]; cap := 2; closed := false |}
           {| buf := [1%nat]; cap := 2; closed := false |} 2
           [Acquired 0%nat; Pending]).
  - apply (bool_decide_unpack _). reflexivity.
  - eapply steps_more; [apply steps_refl|].
    eapply (step_acquire _ _ [Pending; Pending] 0%nat 0%nat); reflexivity.
Defined.

Lemma tensorflow_Detect_rotates h d request w s rest out w' :
  buf (tensorflow.pool w) = s :: rest ->
  closed (tensorflow.pool w) = false ->
  Z.of_nat (length (buf (tensorflow.pool w))) <= cap (tensorflow.pool w) ->
  tensorflow.Detect h d request w = (out, w') ->
  (forall st, out <> Blocks st)
  /\ buf (tensorflow.pool w') = rest ++ [s]
  /\ closed (tensorflow.pool w') = false
  /\ cap (tensorflow.pool w') = cap (tensorflow.pool w).
Proof.
  intros Hb Ho Hlen Hd.
  assert (Hr : recv (tensorflow.pool w)
               = Received s {| buf := rest; cap := cap (tensorflow.pool w);
                               closed := closed (tensorflow.pool w) |}).
  { unfold recv. now rewrite Hb. }
  destruct (tensorflow_Detect_releases _ _ _ _ _ _ _ _ Hr Ho Hlen Hd) as [Hex Hsend].
  apply send_Sent in Hsend as (Hb' & Hc & _ & Ho'). simpl in *. auto.
Qed.

(** X18.  The pool is served in turn.  A caller that sends its requests
    to the tensorflow [Detect] one after the other, no more of them than
    there are sessions, finds the sessions it used moved to the back of the
    channel in the order of use; after one call per session the channel
    holds them in the original order again.  No call waits. *)
Theorem serve_in_turn h d (requests : list odrpc.DetectRequest) : forall w outs w',
  closed (tensorflow.pool w) = false ->
  Z.of_nat (length (buf (tensorflow.pool w))) <= cap (tensorflow.pool w) ->
  (length requests <= length (buf (tensorflow.pool w)))%nat ->
  tensorflow.serve h d requests w = (outs, w') ->
  let k := length outs in
  (k <= length requests)%nat
  /\ buf (tensorflow.pool w')
     = drop k (buf (tensorflow.pool w)) ++ take k (buf (tensorflow.pool w))
  /\ Forall (fun out => forall st, out <> Blocks st) outs
  /\ (k = length (buf (tensorflow.pool w)) ->
      buf (tensorflow.pool w') = buf (tensorflow.pool w)).
Proof.
  assert (Hfull : forall (A : Type) (l : list A) (k : nat),
            k = length l -> drop k l ++ take k l = l).
  { intros A l k ->. now rewrite drop_all, take_ge. }
  induction requests as [|request requests IH]; intros w outs w' Ho Hlen Hk; simpl.
  - intros [= <- <-]. cbn [length drop take]. rewrite app_nil_r.
    split; [lia|]. split; [reflexivity|]. split; [constructor|reflexivity].
  - destruct (buf (tensorflow.pool w)) as [|s rest] eqn:Hb; [simpl in Hk; lia|].
    destruct (tensorflow.Detect h d request w) as [out w1] eqn:Hd.
    assert (Hlen' : Z.of_nat (length (buf (tensorflow.pool w))) <= cap (tensorflow.pool w))
      by now rewrite Hb.
    destruct (tensorflow_Detect_rotates _ _ _ _ _ _ _ _ Hb Ho Hlen' Hd)
      as (Hex & Hb1 & Ho1 & Hc1).
    assert (Hone : forall o : outcome tensorflow.DetectResponse,
              (forall st, o <> Blocks st) ->
              (1 <= S (length requests))%nat
              /\ buf (tensorflow.pool w1) = drop 1 (s :: rest) ++ take 1 (s :: rest)
              /\ Forall (fun out => forall st, out <> Blocks st) [o]
              /\ (1%nat = length (s :: rest) ->
                  buf (tensorflow.pool w1) = s :: rest)).
    { intros o Ho'. rewrite Hb1. simpl. rewrite drop_0.
      repeat split; [lia|now constructor|].
      intros Heq. destruct rest; [reflexivity|discriminate]. }
    destruct out as [resp|e| |st]; try (intros [= <- <-]; now apply Hone).
    destruct (tensorflow.serve h d requests w1) as [outs1 w2] eqn:Hs.
    intros [= <- <-].
    destruct (IH w1 outs1 w2 Ho1) as (G1 & G2 & G3 & G4); auto.
    { rewrite Hb1, Hc1, length_app. simpl in *. lia. }
    { rewrite Hb1, length_app. simpl in *. lia. }
    assert (Hbuf : buf (tensorflow.pool w2)
                   = drop (S (length outs1)) (s :: rest)
                     ++ take (S (length outs1)) (s :: rest)).
    { rewrite G2, Hb1. cbn [drop take].
      rewrite drop_app_le, take_app_le by (simpl in Hk; lia).
      now rewrite <- app_assoc. }
    cbn [length]. split; [lia|]. split; [exact Hbuf|split].
    + constructor; [discriminate|exact G3].
    + intros Heq. rewrite Hbuf. now apply Hfull.
Qed.

Lemma serve_in_turn_witness :
  buf (tensorflow.pool
         (snd (tensorflow.serve (Samples.tf_host (fun _ => true)) Samples.tf_detector
                 [Samples.request Samples.png ∅; Samples.request Samples.png ∅]
                 Samples.tf_world)))
  = buf (tensorflow.pool Samples.tf_world).
Proof.
  eapply (serve_in_turn (Samples.tf_host (fun _ => true)) Samples.tf_detector
            [Samples.request Samples.png ∅; Samples.request Samples.png ∅]
            Samples.tf_world _ _ eq_refl ltac:(simpl; lia) ltac:(simpl; lia)).
  - vm_compute. reflexivity.
  - reflexivity.
Defined.

End SharingFacts.

(** ** Lowering a threshold *)

Section ThresholdFacts.

Ltac pos_cases :=
  repeat match goal with
  | |- context [Pos.compare_cont Eq ?a ?b] =>
      change (Pos.compare_cont Eq a b) with (Pos.compare a b);
      destruct (Pos.compare_spec a b)
  end.

(** [x < y] and [y <= z] give [x < z] on floats; no NaN can be involved. *)
Lemma ltb_geb_trans (x y z : float32) :
  F32.ltb x y = true -> F32.geb z y = true -> F32.ltb x z = true.
Proof.
  unfold F32.ltb, F32.geb, SFltb, SFleb, SFcompare.
  destruct x as [sx|sx| |sx mx ex], y as [sy|sy| |sy my ey], z as [sz|sz| |sz mz ez];
    try discriminate;
    repeat match goal with s : bool |- _ => destruct s end;
    try discriminate; try reflexivity;
    destruct (Z.compare_spec ex ey), (Z.compare_spec ey ez), (Z.compare_spec ex ez);
    subst; try lia; try discriminate; try reflexivity;
    pos_cases; subst; cbn [CompOpp];
    try lia; try discriminate; try reflexivity.
Qed.

Lemma passes_lower (s t t' : float32) :
  F32.geb t t' = true -> below s t = false -> below s t' = false.
Proof.
  intros Hle Hpass. destruct (below s t') eqn:Hb; [|reflexivity].
  unfold below in *. now rewrite (ltb_geb_trans _ _ _ Hb Hle) in Hpass.
Qed.

Lemma listed_lower (Detect : gmap string float32) key t t' label score :
  Detect !! key = Some t ->
  F32.geb t t' = true ->
  listed Detect label score = Some true ->
  listed (<[key := t']> Detect) label score = Some true.
Proof.
  intros Hkey Hle. unfold listed.
  destruct (decide (key = label)) as [->|Hne].
  - rewrite Hkey, lookup_insert_eq.
    destruct score as [s|]; simpl; [|discriminate].
    intros [= Hp]. apply negb_true_iff in Hp.
    now rewrite (passes_lower _ _ _ Hle Hp).
  - rewrite lookup_insert_ne by assumption.
    destruct (Detect !! label) as [tl|]; [auto|].
    destruct (decide (key = "*")) as [->|Hstar].
    + rewrite Hkey, lookup_insert_eq.
      destruct score as [s|]; simpl; [|discriminate].
      intros [= Hp]. apply negb_true_iff in Hp.
      now rewrite (passes_lower _ _ _ Hle Hp).
    + rewrite lookup_insert_ne by assumption.
      destruct (Detect !! "*"); [auto|].
      intros [= Hsize]. apply bool_decide_eq_true in Hsize.
      apply map_size_empty_iff in Hsize. subst Detect.
      rewrite lookup_empty in Hkey. discriminate.
Qed.

(** X19.  Lowering one threshold of the filter spec loses no detection:
    for the same batch, what [Detect] returned before is a sublist of what
    it returns with the lower threshold for that entry, every other entry
    unchanged. *)
Theorem lower_threshold_keeps :
  (forall d request request' b key t t' dets dets',
     odrpc.Detect request !! key = Some t ->
     F32.geb t t' = true ->
     odrpc.Detect request' = <[key := t']> (odrpc.Detect request) ->
     tflite.detections_of d request b = Some dets ->
     tflite.detections_of d request' b = Some dets' ->
     dets `sublist_of` dets')
  /\ (forall d request request' imgConfig b key t t' dets dets',
     odrpc.Detect request !! key = Some t ->
     F32.geb t t' = true ->
     odrpc.Detect request' = <[key := t']> (odrpc.Detect request) ->
     tensorflow.detections_of d request imgConfig b = Some dets ->
     tensorflow.detections_of d request' imgConfig b = Some dets' ->
     dets `sublist_of` dets').
Proof.
  split.
  - intros d request request' b key t t' dets dets' Hkey Hle Hspec H1 H2.
    eapply (detect_loop_sublist (tflite.candidate d request b)
              (tflite.candidate d request' b)); [|reflexivity|exact H1|exact H2].
    intros j det. unfold tflite.candidate. rewrite Hspec.
    destruct (tflite.classes b !! j) as [c|]; [|discriminate]. simpl.
    destruct (listed (odrpc.Detect request) _ _) as [[|]|] eqn:El;
      simpl; try discriminate.
    now rewrite (listed_lower _ _ _ _ _ _ Hkey Hle El).
  - intros d request request' imgConfig b key t t' dets dets' Hkey Hle Hspec H1 H2.
    eapply (detect_loop_sublist (tensorflow.candidate d request imgConfig b)
              (tensorflow.candidate d request' imgConfig b));
      [|reflexivity|exact H1|exact H2].
    intros j det. unfold tensorflow.candidate. rewrite Hspec.
    destruct (tensorflow.classes b !! j) as [c|]; [|discriminate]. simpl.
    destruct (listed (odrpc.Detect request) _ _) as [[|]|] eqn:El;
      simpl; try discriminate.
    now rewrite (listed_lower _ _ _ _ _ _ Hkey Hle El).
Qed.

Lemma lower_threshold_keeps_witness :
  [] `sublist_of` [Samples.tflite_box].
Proof.
  apply (proj1 lower_threshold_keeps (Samples.tflite_detector 0)
           (Samples.request Samples.png {[ "*" := F32.hundred ]})
           (Samples.request Samples.png (<[ "*" := Samples.fifty ]> {[ "*" := F32.hundred ]}))
           Samples.tflite_batch "*" F32.hundred Samples.fifty);
    reflexivity.
Defined.

End ThresholdFacts.

(** ** The input buffer *)

Section PackingFacts.

Lemma wrap32_small (v : Z) : - 2 ^ 31 <= v < 2 ^ 31 -> F32.wrap32 v = v.
Proof.
  intros Hv. unfold F32.wrap32. rewrite Z.mod_small by lia. lia.
Qed.

Lemma pixel_index_small (W H x y k : Z) :
  0 <= x < W -> 0 <= y < H -> 0 <= k < 3 -> W * H * 3 < 2 ^ 31 ->
  tflite.pixel_index W x y k = (y * W + x) * 3 + k.
Proof.
  intros Hx Hy Hk Hfit.
  assert (Hrow : y * W + W <= W * H) by nia.
  assert (H0 : 0 <= y * W) by nia.
  unfold tflite.pixel_index, tflite.add32, tflite.mul32.
  rewrite (wrap32_small (y * W)) by lia.
  rewrite (wrap32_small (y * W + x)) by lia.
  rewrite (wrap32_small ((y * W + x) * 3)) by lia.
  apply wrap32_small. lia.
Qed.

Lemma store_at (l done rest : list Z) (v0 i v : Z) :
  l = done ++ v0 :: rest -> i = Z.of_nat (length done) ->
  tflite.store l i v = Some (done ++ v :: rest).
Proof.
  intros -> ->. unfold tflite.store.
  rewrite length_app. cbn [length].
  replace (0 <=? Z.of_nat (length done)) with true by (symmetry; apply Z.leb_le; lia).
  replace (Z.of_nat (length done) <? Z.of_nat (length done + S (length rest)))
    with true by (symmetry; apply Z.ltb_lt; lia).
  cbn [andb]. rewrite Nat2Z.id.
  rewrite insert_app_r_alt by lia. rewrite Nat.sub_diag. reflexivity.
Qed.

Lemma store_out (l : list Z) (i v : Z) :
  Z.of_nat (length l) <= i -> tflite.store l i v = None.
Proof.
  intros Hi. unfold tflite.store.
  replace (i <? Z.of_nat (length l)) with false by (symmetry; apply Z.ltb_ge; lia).
  rewrite andb_false_r. reflexivity.
Qed.

Lemma pixel_bytes_length conv At y x :
  length (tflite.pixel_bytes conv At y x) = 3%nat.
Proof.
  unfold tflite.pixel_bytes. destruct (At x y) as [[r g] b]. reflexivity.
Qed.

Lemma row_bytes_succ conv At y x n :
  tflite.row_bytes conv At y x (S n)
  = tflite.pixel_bytes conv At y x ++ tflite.row_bytes conv At y (x + 1) n.
Proof.
  unfold tflite.row_bytes. rewrite seqZ_cons by lia. cbn [flat_map].
  replace (Z.pred (Z.of_nat (S n))) with (Z.of_nat n) by lia.
  replace (Z.succ x) with (x + 1) by lia. reflexivity.
Qed.

Lemma row_bytes_length conv At y n x :
  length (tflite.row_bytes conv At y x n) = (3 * n)%nat.
Proof.
  revert x. induction n as [|n IH]; intros x.
  - reflexivity.
  - rewrite row_bytes_succ, length_app, pixel_bytes_length, IH. lia.
Qed.

Lemma rows_bytes_succ conv At W y n :
  tflite.rows_bytes conv At W y (S n)
  = tflite.row_bytes conv At y 0 (Z.to_nat W) ++ tflite.rows_bytes conv At W (y + 1) n.
Proof.
  unfold tflite.rows_bytes. rewrite seqZ_cons by lia. cbn [flat_map].
  replace (Z.pred (Z.of_nat (S n))) with (Z.of_nat n) by lia.
  replace (Z.succ y) with (y + 1) by lia. reflexivity.
Qed.

Lemma rows_bytes_length conv At W n y :
  length (tflite.rows_bytes conv At W y n) = (3 * Z.to_nat W * n)%nat.
Proof.
  revert y. induction n as [|n IH]; intros y.
  - rewrite Nat.mul_0_r. reflexivity.
  - rewrite rows_bytes_succ, length_app, row_bytes_length, IH, Nat.mul_succ_r. lia.
Qed.

(** One pixel takes the next three bytes of the buffer, and panics when
    fewer than three are left. *)
Lemma put_pixel_spec conv W H At y x done m :
  0 <= x < W -> 0 <= y < H -> W * H * 3 < 2 ^ 31 ->
  Z.of_nat (length done) = (y * W + x) * 3 ->
  tflite.put_pixel conv W At y x (done ++ replicate m 0)
  = if (3 <=? m)%nat
    then Some (done ++ tflite.pixel_bytes conv At y x ++ replicate (m - 3) 0)
    else None.
Proof.
  intros Hx Hy Hfit Hlen.
  unfold tflite.put_pixel, tflite.pixel_bytes.
  destruct (At x y) as [[r g] b].
  rewrite !(pixel_index_small W H) by lia.
  destruct m as [|[|[|m]]]; cbn [replicate Nat.leb Nat.sub].
  - rewrite store_out; [reflexivity|]. rewrite length_app. cbn [length]. lia.
  - rewrite (store_at _ done [] 0) by (reflexivity || lia). cbn [mbind option_bind].
    rewrite store_out; [reflexivity|]. rewrite length_app. cbn [length]. lia.
  - rewrite (store_at _ done [0] 0) by (reflexivity || lia). cbn [mbind option_bind].
    rewrite (store_at _ (done ++ [conv r]) [] 0);
      [|rewrite <- app_assoc; reflexivity|rewrite length_app; cbn [length]; lia].
    cbn [mbind option_bind].
    rewrite store_out; [reflexivity|]. rewrite !length_app. cbn [length]. lia.
  - rewrite (store_at _ done (0 :: 0 :: replicate m 0) 0) by (reflexivity || lia).
    cbn [mbind option_bind].
    rewrite (store_at _ (done ++ [conv r]) (0 :: replicate m 0) 0);
      [|rewrite <- app_assoc; reflexivity|rewrite length_app; cbn [length]; lia].
    cbn [mbind option_bind].
    rewrite (store_at _ (done ++ [conv r; conv g]) (replicate m 0) 0);
      [|rewrite <- !app_assoc; reflexivity|rewrite !length_app; cbn [length]; lia].
    rewrite Nat.sub_0_r. rewrite <- !app_assoc. reflexivity.
Qed.

Lemma pack_row_spec conv W H At y :
  0 <= y < H -> W * H * 3 < 2 ^ 31 ->
  forall n x done m,
    0 <= x -> x + Z.of_nat n <= W ->
    Z.of_nat (length done) = (y * W + x) * 3 ->
    tflite.pack_row conv W At y n x (done ++ replicate m 0)
    = if (3 * n <=? m)%nat
      then Some (done ++ tflite.row_bytes conv At y x n ++ replicate (m - 3 * n) 0)
      else None.
Proof.
  intros Hy Hfit. induction n as [|n IH]; intros x done m Hx Hn Hlen.
  - cbn [tflite.pack_row Nat.mul Nat.leb]. rewrite Nat.sub_0_r. reflexivity.
  - cbn [tflite.pack_row]. rewrite (put_pixel_spec conv W H) by lia.
    destruct (Nat.leb_spec 3 m) as [Hm|Hm]; cbn [mbind option_bind].
    + rewrite app_assoc. rewrite IH;
        [|lia|lia|rewrite length_app, pixel_bytes_length; lia].
      rewrite row_bytes_succ.
      destruct (Nat.leb_spec (3 * n) (m - 3)), (Nat.leb_spec (3 * S n) m); try lia.
      * rewrite <- !app_assoc. do 5 f_equal. lia.
      * reflexivity.
    + destruct (Nat.leb_spec (3 * S n) m); [lia|reflexivity].
Qed.

Lemma pack_rows_spec conv W H At :
  0 <= W -> W * H * 3 < 2 ^ 31 ->
  forall n y done m,
    0 <= y -> y + Z.of_nat n <= H ->
    Z.of_nat (length done) = y * W * 3 ->
    tflite.pack_rows conv W At n y (done ++ replicate m 0)
    = if (3 * Z.to_nat W * n <=? m)%nat
      then Some (done ++ tflite.rows_bytes conv At W y n
                   ++ replicate (m - 3 * Z.to_nat W * n) 0)
      else None.
Proof.
  intros HW Hfit. induction n as [|n IH]; intros y done m Hy Hn Hlen.
  - cbn [tflite.pack_rows]. rewrite Nat.mul_0_r. cbn [Nat.leb].
    rewrite Nat.sub_0_r. reflexivity.
  - cbn [tflite.pack_rows]. rewrite (pack_row_spec conv W H) by lia.
    rewrite Nat.mul_succ_r.
    destruct (Nat.leb_spec (3 * Z.to_nat W) m) as [Hm|Hm]; cbn [mbind option_bind].
    + rewrite app_assoc. rewrite IH;
        [|lia|lia|rewrite length_app, row_bytes_length; lia].
      rewrite rows_bytes_succ.
      destruct (Nat.leb_spec (3 * Z.to_nat W * n) (m - 3 * Z.to_nat W)),
               (Nat.leb_spec (3 * Z.to_nat W * n + 3 * Z.to_nat W) m); try lia.
      * rewrite <- !app_assoc. do 5 f_equal. lia.
      * reflexivity.
    + destruct (Nat.leb_spec (3 * Z.to_nat W * n + 3 * Z.to_nat W) m);
        [lia|reflexivity].
Qed.

(** The buffer when nothing overflows an int32: the pixels row by row,
    three bytes each, then what is left of the buffer; a panic when the
    buffer is shorter than three bytes a pixel. *)
Lemma pack_spec conv cfg At :
  0 <= odrpc.Width cfg -> 0 <= odrpc.Height cfg -> 0 <= odrpc.Channels cfg ->
  odrpc.Width cfg * odrpc.Height cfg * 3 < 2 ^ 31 ->
  odrpc.Width cfg * odrpc.Height cfg * odrpc.Channels cfg < 2 ^ 31 ->
  tflite.pack conv cfg At
  = if 3 * (odrpc.Width cfg * odrpc.Height cfg)
         <=? odrpc.Width cfg * odrpc.Height cfg * odrpc.Channels cfg
    then Some (tflite.rows_bytes conv At (odrpc.Width cfg) 0 (Z.to_nat (odrpc.Height cfg))
                 ++ replicate (Z.to_nat (odrpc.Width cfg * odrpc.Height cfg
                                           * (odrpc.Channels cfg - 3))) 0)
    else None.
Proof.
  set (W := odrpc.Width cfg). set (H := odrpc.Height cfg). set (C := odrpc.Channels cfg).
  intros HW HH HC Hfit3 HfitC.
  assert (HWH : 0 <= W * H) by nia.
  assert (HWHC : 0 <= W * H * C) by nia.
  unfold tflite.pack, tflite.mul32. fold W H C.
  rewrite (wrap32_small (W * H)) by lia.
  rewrite (wrap32_small (W * H * C)) by lia.
  replace (W * H * C <? 0) with false by (symmetry; apply Z.ltb_ge; lia).
  rewrite <- (app_nil_l (replicate _ _)).
  rewrite (pack_rows_spec conv W H) by (cbn [length]; lia).
  cbn [app].
  assert (Hnat : Z.of_nat (3 * Z.to_nat W * Z.to_nat H) = 3 * (W * H)) by nia.
  destruct (Nat.leb_spec (3 * Z.to_nat W * Z.to_nat H) (Z.to_nat (W * H * C))),
           (Z.leb_spec (3 * (W * H)) (W * H * C)); try lia.
  - do 3 f_equal. nia.
  - reflexivity.
Qed.

(** X20.  The input buffer that Detect fills from a decoded image of the
    detector's size, when the sizes are non-negative and neither
    Width*Height*3 nor Width*Height*Channels overflows an int32.  With
    three channels it is the pixels row by row, red, green and blue byte
    of each.  With more than three channels the pixels are still packed
    three bytes apart at the front of the buffer, and the remaining
    Width*Height*(Channels-3) bytes stay zero.  With fewer than three
    channels and a non-empty image the index runs off the buffer and
    the loop panics.  A buffer that is filled has
    Width*Height*Channels bytes. *)
Theorem input_buffer_layout conv cfg At :
  0 <= odrpc.Width cfg -> 0 <= odrpc.Height cfg -> 0 <= odrpc.Channels cfg ->
  odrpc.Width cfg * odrpc.Height cfg * 3 < 2 ^ 31 ->
  odrpc.Width cfg * odrpc.Height cfg * odrpc.Channels cfg < 2 ^ 31 ->
  (odrpc.Channels cfg = 3 ->
     tflite.pack conv cfg At
     = Some (tflite.rows_bytes conv At (odrpc.Width cfg) 0 (Z.to_nat (odrpc.Height cfg))))
  /\ (3 <= odrpc.Channels cfg ->
        tflite.pack conv cfg At
        = Some (tflite.rows_bytes conv At (odrpc.Width cfg) 0 (Z.to_nat (odrpc.Height cfg))
                  ++ replicate (Z.to_nat (odrpc.Width cfg * odrpc.Height cfg
                                            * (odrpc.Channels cfg - 3))) 0))
  /\ (odrpc.Channels cfg < 3 -> 0 < odrpc.Width cfg -> 0 < odrpc.Height cfg ->
        tflite.pack conv cfg At = None)
  /\ (forall data, tflite.pack conv cfg At = Some data ->
        Z.of_nat (length data)
        = odrpc.Width cfg * odrpc.Height cfg * odrpc.Channels cfg).
Proof.
  intros HW HH HC Hfit3 HfitC.
  pose proof (pack_spec conv cfg At HW HH HC Hfit3 HfitC) as Hspec.
  repeat split.
  - intros H3. rewrite Hspec, H3.
    replace (3 * (odrpc.Width cfg * odrpc.Height cfg)
             <=? odrpc.Width cfg * odrpc.Height cfg * 3) with true
      by (symmetry; apply Z.leb_le; lia).
    rewrite Z.sub_diag, Z.mul_0_r. cbn [Z.to_nat replicate].
    rewrite app_nil_r. reflexivity.
  - intros H3. rewrite Hspec.
    replace (3 * (odrpc.Width cfg * odrpc.Height cfg)
             <=? odrpc.Width cfg * odrpc.Height cfg * odrpc.Channels cfg) with true
      by (symmetry; apply Z.leb_le; nia).
    reflexivity.
  - intros H3 HW1 HH1. rewrite Hspec.
    replace (3 * (odrpc.Width cfg * odrpc.Height cfg)
             <=? odrpc.Width cfg * odrpc.Height cfg * odrpc.Channels cfg) with false
      by (symmetry; apply Z.leb_gt; nia).
    reflexivity.
  - intros data. rewrite Hspec.
    destruct (Z.leb_spec (3 * (odrpc.Width cfg * odrpc.Height cfg))
                (odrpc.Width cfg * odrpc.Height cfg * odrpc.Channels cfg)) as [Hle|];
      [|discriminate].
    intros [= <-]. rewrite length_app, rows_bytes_length, length_replicate. nia.
Qed.

Lemma input_buffer_layout_witness :
  tflite.pack tflite.to_byte (Samples.sized 2 2 3) Samples.gradient
  = Some [0; 201; 1; 1; 201; 1; 10; 201; 1; 11; 201; 1]
  /\ tflite.pack tflite.to_byte (Samples.sized 2 2 4) Samples.gradient
     = Some [0; 201; 1; 1; 201; 1; 10; 201; 1; 11; 201; 1; 0; 0; 0; 0]
  /\ tflite.pack tflite.to_byte (Samples.sized 2 2 1) Samples.gradient = None.
Proof.
  split; [|split].
  - rewrite (proj1 (input_buffer_layout tflite.to_byte (Samples.sized 2 2 3)
                      Samples.gradient ltac:(simpl; lia) ltac:(simpl; lia)
                      ltac:(simpl; lia) ltac:(simpl; lia) ltac:(simpl; lia)) eq_refl).
    vm_compute. reflexivity.
  - rewrite (proj1 (proj2 (input_buffer_layout tflite.to_byte (Samples.sized 2 2 4)
                             Samples.gradient ltac:(simpl; lia) ltac:(simpl; lia)
                             ltac:(simpl; lia) ltac:(simpl; lia) ltac:(simpl; lia)))
               ltac:(simpl; lia)).
    vm_compute. reflexivity.
  - apply (proj1 (proj2 (proj2 (input_buffer_layout tflite.to_byte (Samples.sized 2 2 1)
                                   Samples.gradient ltac:(simpl; lia) ltac:(simpl; lia)
                                   ltac:(simpl; lia) ltac:(simpl; lia) ltac:(simpl; lia)))));
      simpl; lia.
Defined.

Lemma holds_from_spec (p : Z -> bool) (n : nat) :
  forall v, tflite.holds_from p n v = true ->
  forall i, v <= i < v + Z.of_nat n -> p i = true.
Proof.
  induction n as [|n IH]; intros v Hall i Hi.
  - lia.
  - cbn [tflite.holds_from] in Hall. apply andb_true_iff in Hall as [Hv Hrest].
    destruct (Z.eq_dec i v) as [->|Hne]; [exact Hv|].
    apply (IH (v + 1) Hrest). lia.
Qed.

Lemma quotient_exact (u : Z) :
  0 <= u <= 255 -> tflite.quotient (257 * u) = Some (257 * u / 255).
Proof.
  intros Hu.
  assert (Hall : tflite.holds_from (fun u => tflite.exact_quotient (257 * u)) 256 0 = true)
    by (vm_compute; reflexivity).
  pose proof (holds_from_spec _ _ _ Hall u ltac:(lia)) as Hq.
  cbv beta in Hq. unfold tflite.exact_quotient in Hq.
  destruct (tflite.quotient (257 * u)) as [q|]; [|discriminate].
  apply Z.eqb_eq in Hq. congruence.
Qed.

(** X21.  The component 257*u that RGBA() gives for an 8-bit colour
    value u is written as the byte of floor(257*u / 255): the division
    in float64 and the truncation agree with the integer quotient.  That
    is u itself below 128 and u + 1 from 128 to 254; for u = 255 the
    quotient is 257, which fits no byte. *)
Theorem component_scaling :
  (forall u, 0 <= u < 128 ->
     tflite.quotient (257 * u) = Some u /\ tflite.to_byte (257 * u) = u)
  /\ (forall u, 128 <= u < 255 ->
        tflite.quotient (257 * u) = Some (u + 1) /\ tflite.to_byte (257 * u) = u + 1)
  /\ tflite.quotient (257 * 255) = Some 257.
Proof.
  assert (Hdiv : forall u, 0 <= u <= 255 -> 257 * u / 255 = u + 2 * u / 255).
  { intros u Hu. replace (257 * u) with (u * 255 + 2 * u) by lia.
    rewrite Z.div_add_l by lia. reflexivity. }
  split; [|split].
  - intros u Hu. unfold tflite.to_byte. rewrite quotient_exact by lia.
    rewrite Hdiv by lia. rewrite (Z.div_small (2 * u)) by lia.
    rewrite Z.add_0_r. split; [reflexivity|]. apply Z.mod_small. lia.
  - intros u Hu. unfold tflite.to_byte. rewrite quotient_exact by lia.
    rewrite Hdiv by lia.
    replace (2 * u / 255) with 1
      by (apply Z.div_unique with (r := 2 * u - 255); lia).
    split; [reflexivity|]. apply Z.mod_small. lia.
  - rewrite (quotient_exact 255) by lia. reflexivity.
Qed.

Lemma component_scaling_witness :
  (tflite.quotient (257 * 127) = Some 127 /\ tflite.to_byte (257 * 127) = 127)
  /\ (tflite.quotient (257 * 200) = Some 201 /\ tflite.to_byte (257 * 200) = 201).
Proof.
  split.
  - apply (proj1 component_scaling 127). lia.
  - apply (proj1 (proj2 component_scaling) 200). lia.
Defined.

End PackingFacts.
